(* ===== verification/_CoqProject ===== *)
-Q . S2P
Prelude.v
ScrollPosition.v
JsValue.v
IntRuntime.v
Uri.v
LineBuffer.v
Message.v
Events.v
NoStream.v
Typing.v
Stream.v
RateLimiter.v
Controller.v
View.v
ViewControls.v
Effects.v
Projects.v
Sections.v
Shell.v
Site.v
Tailwind.v
