(* ===== verification/Prelude.v ===== *)
(** * A verification of the chat widget of rhyliieee/ai-powered-site

    The site is a React portfolio; its main stateful part is the chat
    widget: [ChatAssistant] ([src/src/components/ChatUI.tsx]) keeps a
    client-side rate limit in [localStorage] and hands accepted messages to
    the [useChatNoStream] hook ([src/src/hooks/useChatNoStream.ts]), which
    POSTs them to the assistant's endpoint, reads the newline-delimited JSON
    reply chunk by chunk, and turns every line into a chat message.  A
    second hook, [useChatStream] ([src/src/hooks/useChatStream.ts]), does the
    same for the token-streaming endpoint by updating one agent message in
    place; nothing in the site uses it, but the specification describes
    both.  [Layout.tsx] shows the widget except while the footer is in view.

    ** Files, in dependency order

    - [Prelude] (this file): JavaScript strings as lists of UTF-16 code
      units ([jsstr]), [trim], [split('\n')], the decimal rendering of
      integers, and the shared tactics and hint database.
    - [ScrollPosition]: the [useScrollPosition] hook
      ([hooks/useScrollPosition.ts]), which no component calls: it returns
      [0] until the first [scroll] event, then the window's position
      ([scroll_position_tracks]).
    - [JsValue]: parsed JSON values over the host's number type, the host
      as a class [JsRuntime] (numbers, [JSON.parse], [JSON.stringify],
      [toUpperCase], [toLocaleString]), property reads, [===], [ToString],
      [||] and [+]; the exception type [exc].
    - [IntRuntime]: one host to run the models on (integer numbers and a
      JSON parser), used only by the concrete runs.
    - [Uri]: the host's [encodeURIComponent] (ECMA-262 [Encode]: UTF-8
      bytes written [%XX], [URIError] on a lone surrogate) and
      [decodeURIComponent] as its inverse.
    - [LineBuffer]: the read loop both hooks share ([buffer += chunk],
      [split('\n')], [pop()]), generic in the line handler.
    - [Message]: [ChatMessage], the hook's React state [HookState], requests
      and responses, and the effect monad [M] (state passing with
      JavaScript exceptions, a clock for [Date.now()]); the footprint
      lemmas ([keeps_env]).
    - [Events]: a wire line as the typed event it carries ([decode_line]).
    - [NoStream]: [useChatNoStream]'s [sendMessage] ([ns_line], [ns_final],
      the whole handler) and its pure specification [ns_response_messages].
    - [Typing]: [interface ChatMessage] as a run-time check
      ([msg_conforms]) against the wire format's field types.
    - [Stream] (module [UseChatStream]): [useChatStream]'s [sendMessage].
    - [RateLimiter]: [handleSendMessage]'s window update, the
      [localStorage] load effect, the countdown, [formatTimeRemaining], and
      the limiter as a transition system [lim_step].
    - [Controller]: the whole widget as a transition system over user,
      timer and network events ([ctl_run], [ctl_reachable]): the
      component's UI state and handlers, the limiter, the hook split at its
      [await fetch] into [ns_start] and [ns_finish], the network lookup,
      the thread id persisted in [localStorage], [Layout]'s visibility.
    - [View]: the render of the widget, [ToolOutputDisplay] and the three
      tool cards, as a tree of elements that may throw.
    - [ViewControls]: the input and the send button of the rendered tree
      against the controller's guards.
    - [Effects]: the DOM calls of the widget's scroll and focus effects
      after each commit ([ctl_commit]), their refs resolved against the
      rendered tree.
    - [Projects]: [projectsData], [ProjectCard] (its [isExpanded] state,
      the DOM image its [onError] handler writes, its render) and
      [ProjectsSection].
    - [Sections]: the records of [data/portfolioData.ts] with their
      interfaces ([types/index.ts]), and the render of [HeroSection],
      [AboutSection], [SkillsSection], [ExperienceSection], [ContactSection]
      and [Footer], which hold no state.
    - [Shell]: the page around the widget: [App.tsx]'s theme and its
      effect on [<html>], [Layout.tsx]'s CV preload, hero and footer
      observers and the [isVisible] prop, [NavBar.tsx]'s mobile menu and
      handlers, [scrollToRef] ([utils/scrollUtils.ts]) and the buttons of
      [HeroSection.tsx], composed with [Controller] into one transition
      system [page_step]; the rendered navigation bar.
    - [Site]: the page together with one [ProjectCard] state per project
      ([site_step]), and [Layout]'s render of the whole site
      ([render_site]): navigation bar, the six sections, the widget and the
      footer inside [App]'s themed element.
    - [Tailwind]: the colors of [tailwind.config.js], the CSS variables its
      plugin sets on [:root] and [.dark], Tailwind's flattening of the
      palette, and the color a utility shows inside a [dark] scope.

    ** What is proved

    - The read loop depends only on the concatenated body: any chunking
      gives the same lines and buffer ([read_loop_chunking]), and the lines
      handled are those of [split('\n')] ([read_loop_lines]).
    - Each hook's line handler is [decode_line] followed by a pure update
      ([ns_line_refines], [st_line_refines]); [ns_sendMessage_spec] gives the
      messages of a whole exchange, errors included; [sendMessage]
      preserves the declared [ChatMessage] type when the server keeps to
      the wire types ([sendMessage_well_typed]).
    - The limiter keeps a window of 1 to 10 messages and a countdown of
      whole seconds up to one hour ([lim_reachable_inv]), accepts at most 10
      sends per window, refuses the 11th, and forgets its window on reload.
    - The widget: its limiter refines [lim_step]; [isLoading] is true
      exactly while a request is in flight; no request is issued while one
      is; every response ends the loading state; a click on "send" records
      the message and issues exactly one request; the thread id is
      resumed after a reload; and the limit alert is never shown, because
      the controls are disabled while a full window cools down.
    - The widget's effects: a committed step calls [scrollToBottom]
      exactly when it changed the messages, and it scrolls exactly when the
      expanded chat is on screen ([commit_scrolls_after_messages], the
      specification's "scroll to latest" notification); expanding the chat
      on a desktop focuses its attached input ([expand_focuses_input]).
    - The page: its invariant ([page_shell_inv]: widget mounted with the
      page, its [isVisible] prop equal to [Layout]'s state, [<html>]'s
      class following the theme, one CV preload link, the scroll position
      in range); navigation links scroll 60 pixels above their section
      and close the menu, and reach every section in at most two clicks;
      two theme clicks give back the page.
    - The site: its page is a reachable page of [Shell], and it keeps one
      card per project, whose image shows its first source or the second
      placeholder ([site_cards_inv]); once mounted, its content
      shows the palette of the theme: every semantic color resolves through
      its CSS variable to the same key of the light or dark palette
      ([site_palette_follows_theme]).
    - The project cards: [decodeURIComponent] inverts
      [encodeURIComponent] on every string it accepts, so the placeholder
      image's text is the title, or the render throws on a lone surrogate
      ([placeholder_src_roundtrip]); the image's [onError] handler starts a
      new load at every failure, without end ([card_image_error_loop]).
    - [useScrollPosition] returns 0 until the first [scroll] event, then
      the window's position ([scroll_position_tracks]).
    - Findings, each with its theorem: duplicate message ids, unknown
      [type]s shown as empty messages, the streaming hook's tool output
      absorbing the answer, the reload that clears the limit, a render
      crash on a weather output without a string [region], the image
      retry loop of [ProjectCard], [useScrollPosition]'s initial 0, and,
      shown by lemmas rather than properties, the cards' [aria-controls]
      naming no element ([projects_ids]) and color utilities the
      configuration does not define ([undefined_color_keys]).

    ** Bounds and fuel

    The only fuel is [IntRuntime]'s JSON parser's, [2 * (length + 1)]
    nested calls, more than the input's length, which every call consumes
    at least one unit of; the theorems do not depend on it (they hold for
    every [JsRuntime]).  Integers are [Z]: JavaScript numbers stay below
    2^53 in the code modelled (timestamps, counts, milliseconds).

    ** Not modelled

    - [BookingModal.tsx] is commented out entirely.
    - Static class names: the rendered trees keep the class names the code
      computes and leave the static ones out, so of [tailwind.config.js]
      only the colors, the variables and [darkMode] are modelled (not its
      fonts, shadows, gradients, container or plugins); [src/index.css],
      which [App.tsx] imports, is not in the repository.  The icon
      components are kept by name.
    - React refs of the sections: [Layout] hands each section its ref and
      [NavBar] scrolls to the element a ref points to; the model keys the
      page's geometry by [SectionId] ([offsetTop]) and does not carry the
      [ref] props in the rendered sections.  The widget's
      [messagesEndRef] is carried as a [ref] prop, and [inputRef] is
      resolved to the only [Input] element.
    - In the shell: where the hero and the footer are on screen (the
      observers' callbacks are events), the page's geometry (a parameter:
      each section's [offsetTop] and the largest scroll position), the
      smooth scroll's intermediate positions, and the preload link's
      removal on unmount ([Layout] is never unmounted).
    - Inside the widget: [TextDecoder] (bodies are given as decoded
      chunks), [console.log], the markdown library, and the browser's
      [focus] event, which the controller receives as its own [FocusInput]
      event.
    - [getNetworkIdentifier] answers whose [ip] is not a string:
      [networkId] would then be a value whose truthiness and [ToString]
      the load effect and the storage key use separately. *)

(** * Prelude: JavaScript strings as UTF-16 code-unit lists

    Shared vocabulary of the development:
    - [jsstr], a JavaScript string as the list of its UTF-16 code units
      (each a [Z] in [0, 65536)), and [js], which turns a Rocq string
      literal (ASCII) into one;
    - [String.prototype.trim] ([trim], with the ECMAScript whitespace and
      line-terminator set [is_js_ws]) and the blank test the hooks write as
      [s.trim() === ''];
    - [String.prototype.split('\n')] ([split_nl]) and its inverse [join_nl],
      with the lemmas that make the line buffer of the hooks chunk-invariant;
    - [Array.prototype.pop] on a split result ([pop_last]);
    - the decimal rendering of an integer ([dec_of_Z]) used by template
      literals such as [`user-${Date.now()}`];
    - the hint database [chat] and the tactics the component files share. *)

From stdpp Require Import base list decidable.
From Stdlib Require Import ZArith Ascii Lia.
From Stdlib Require String.
Export String.StringSyntax.

Declare Scope chat_scope.
Delimit Scope chat_scope with chat.
Open Scope Z_scope.

Create HintDb chat discriminated.

(** ** Strings *)

(** A JavaScript string: its sequence of UTF-16 code units. *)
Abbreviation jsstr := (list Z).

(** A string literal of the source, written in ASCII. *)
Definition js (s : String.string) : jsstr :=
  map (fun a => Z.of_nat (nat_of_ascii a)) (String.list_ascii_of_string s).
Arguments js s%_string_scope.

(** String concatenation of the source ([a + b] on two strings). *)
Notation "a +s+ b" := (@app Z a b) (at level 60, right associativity) : chat_scope.
Open Scope chat_scope.

(** The code unit of ['\n']. *)
Definition NL : Z := 10.

(** ECMAScript WhiteSpace and LineTerminator code points (ECMA-262
    sections 12.2 and 12.3): the set [String.prototype.trim] strips. *)
Definition is_js_ws (c : Z) : bool :=
  (c =? 9) || (c =? 10) || (c =? 11) || (c =? 12) || (c =? 13) ||
  (c =? 32) || (c =? 160) || (c =? 5760) || ((8192 <=? c) && (c <=? 8202)) ||
  (c =? 8232) || (c =? 8233) || (c =? 8239) || (c =? 8287) ||
  (c =? 12288) || (c =? 65279).

Fixpoint trim_start (s : jsstr) : jsstr :=
  match s with
  | [] => []
  | c :: r => if is_js_ws c then trim_start r else s
  end.

Definition trim_end (s : jsstr) : jsstr := rev (trim_start (rev s)).

(** [s.trim()] *)
Definition trim (s : jsstr) : jsstr := trim_end (trim_start s).

(** [s.trim() === ''] *)
Definition is_blank (s : jsstr) : bool :=
  match trim s with [] => true | _ => false end.

(** ** [split('\n')] and its inverse *)

(** [s.split('\n')]: the pieces between newlines, never empty ([""] splits
    into [[""]]). *)
Fixpoint split_nl (s : jsstr) : list jsstr :=
  match s with
  | [] => [[]]
  | c :: r =>
      let parts := split_nl r in
      if c =? NL then [] :: parts
      else match parts with
           | p :: ps => (c :: p) :: ps
           | [] => [[c]]
           end
  end.

(** [parts.join('\n')] *)
Fixpoint join_nl (parts : list jsstr) : jsstr :=
  match parts with
  | [] => []
  | [p] => p
  | p :: ps => p ++ NL :: join_nl ps
  end.

(** A piece holds no newline. *)
Definition no_nl (s : jsstr) : Prop := Forall (fun c => c <> NL) s.

(** [lines.pop()]: the array without its last element, and that element
    ([|| ''] turns a missing one into the empty string). *)
Fixpoint pop_last (l : list jsstr) : list jsstr * jsstr :=
  match l with
  | [] => ([], [])
  | [x] => ([], x)
  | x :: r => let '(init, lst) := pop_last r in (x :: init, lst)
  end.

(** ** Decimal rendering of integers *)

Fixpoint uint_digits (d : Decimal.uint) : jsstr :=
  match d with
  | Decimal.Nil => []
  | Decimal.D0 r => 48 :: uint_digits r
  | Decimal.D1 r => 49 :: uint_digits r
  | Decimal.D2 r => 50 :: uint_digits r
  | Decimal.D3 r => 51 :: uint_digits r
  | Decimal.D4 r => 52 :: uint_digits r
  | Decimal.D5 r => 53 :: uint_digits r
  | Decimal.D6 r => 54 :: uint_digits r
  | Decimal.D7 r => 55 :: uint_digits r
  | Decimal.D8 r => 56 :: uint_digits r
  | Decimal.D9 r => 57 :: uint_digits r
  end.

(** [String(n)] for an integer-valued number [n] with [|n| < 10^21]
    (timestamps from [Date.now()], HTTP status codes). *)
Definition dec_of_Z (n : Z) : jsstr :=
  match Z.to_int n with
  | Decimal.Pos d => uint_digits d
  | Decimal.Neg d => 45 :: uint_digits d
  end.

(** ** Tactics *)

Ltac invc H := inversion H; subst; clear H.

(** Case on the boolean tests of a goal, turning them into propositions. *)
Ltac case_Z_tests :=
  repeat match goal with
         | |- context [?a =? ?b] => destruct (Z.eqb_spec a b)
         | |- context [?a <? ?b] => destruct (Z.ltb_spec a b)
         | |- context [?a <=? ?b] => destruct (Z.leb_spec a b)
         end.

(** Case on one boolean test at a time, discarding the impossible branch
    with [lia] before going on. *)
Ltac decide_Z_test :=
  match goal with
  | |- context [?a =? ?b] => destruct (Z.eqb_spec a b)
  | |- context [?a <? ?b] => destruct (Z.ltb_spec a b)
  | |- context [?a <=? ?b] => destruct (Z.leb_spec a b)
  end; try lia.

(** ** Lemmas on strings *)

Lemma split_nl_nonempty s : split_nl s <> [].
Proof.
  destruct s as [|c r]; simpl; [done|].
  destruct (c =? NL); [done|]. destruct (split_nl r); done.
Qed.

Lemma split_nl_no_nl s : Forall no_nl (split_nl s).
Proof.
  induction s as [|c r IH]; simpl.
  - repeat constructor.
  - destruct (Z.eqb_spec c NL) as [->|Hc].
    + constructor; [constructor | exact IH].
    + destruct (split_nl r) as [|p ps] eqn:E.
      * repeat constructor. exact Hc.
      * invc IH. constructor; [constructor; assumption | assumption].
Qed.

Lemma join_split_nl s : join_nl (split_nl s) = s.
Proof.
  induction s as [|c r IH]; simpl; [done|].
  pose proof (split_nl_nonempty r) as Hne.
  destruct (Z.eqb_spec c NL) as [->|Hc];
    destruct (split_nl r) as [|p ps]; try done; rewrite <- IH;
    [reflexivity | by destruct ps].
Qed.

(** The newline-free piece [p] prepended to a split. *)
Lemma split_nl_app_no_nl p s :
  no_nl p ->
  split_nl (p ++ s) =
  match split_nl s with
  | q :: qs => (p ++ q) :: qs
  | [] => [p]
  end.
Proof.
  induction p as [|c p IH]; intros Hp; simpl.
  - pose proof (split_nl_nonempty s). by destruct (split_nl s).
  - invc Hp. rewrite IH by assumption.
    destruct (Z.eqb_spec c NL); [contradiction|].
    by destruct (split_nl s).
Qed.

Lemma split_nl_no_nl_id p : no_nl p -> split_nl p = [p].
Proof.
  intros Hp. rewrite <- (app_nil_r p), split_nl_app_no_nl by assumption.
  simpl. by rewrite app_nil_r.
Qed.

Lemma split_join_nl parts :
  parts <> [] -> Forall no_nl parts -> split_nl (join_nl parts) = parts.
Proof.
  induction parts as [|p [|q qs] IH]; intros Hne Hall; [done| |].
  - invc Hall. simpl. by apply split_nl_no_nl_id.
  - invc Hall. change (join_nl (p :: q :: qs)) with (p ++ NL :: join_nl (q :: qs)).
    rewrite split_nl_app_no_nl by assumption.
    replace (split_nl (NL :: join_nl (q :: qs)))
      with ([] :: split_nl (join_nl (q :: qs))) by reflexivity.
    rewrite IH by done. by rewrite app_nil_r.
Qed.

Lemma pop_last_cons x l :
  l <> [] -> pop_last (x :: l) = (x :: fst (pop_last l), snd (pop_last l)).
Proof.
  destruct l as [|y r]; [done|]. intros _.
  change (pop_last (x :: y :: r))
    with (let '(init, lst) := pop_last (y :: r) in (x :: init, lst)).
  by destruct (pop_last (y :: r)).
Qed.

Lemma pop_last_app init x : pop_last (init ++ [x]) = (init, x).
Proof.
  induction init as [|a r IH]; [done|].
  change ((a :: r) ++ [x]) with (a :: (r ++ [x])).
  rewrite pop_last_cons by (by destruct r). by rewrite IH.
Qed.

Lemma pop_last_app_l l x :
  x <> [] -> pop_last (l ++ x) = (l ++ (pop_last x).1, (pop_last x).2).
Proof.
  intros Hx. induction l as [|a l IH]; [simpl; by destruct (pop_last x)|].
  change ((a :: l) ++ x) with (a :: (l ++ x)).
  rewrite pop_last_cons by (by destruct l, x). by rewrite IH.
Qed.

Lemma pop_last_spec l :
  l <> [] -> l = fst (pop_last l) ++ [snd (pop_last l)].
Proof.
  induction l as [|x r IH]; [done|]. intros _.
  destruct r as [|y r']; [done|].
  rewrite pop_last_cons by done. cbn [fst snd app]. f_equal. by apply IH.
Qed.

(** Splitting a concatenation: the complete pieces of [s] come first, then
    the split of the unterminated last piece of [s] followed by [t]. *)
Lemma split_nl_app s t :
  fst (pop_last (split_nl s)) ++ split_nl (snd (pop_last (split_nl s)) ++ t)
  = split_nl (s ++ t).
Proof.
  induction s as [|c r IH]; [done|].
  pose proof (split_nl_nonempty r) as Hne.
  cbn [split_nl app]. destruct (Z.eqb_spec c NL) as [_|Hc].
  - rewrite pop_last_cons by done. cbn [fst snd app]. by rewrite IH.
  - rewrite <- IH.
    destruct (split_nl r) as [|p [|q qs]]; [done| |].
    + simpl. destruct (Z.eqb_spec c NL); done.
    + rewrite (pop_last_cons (c :: p)), (pop_last_cons p) by done. done.
Qed.

Lemma trim_start_ws s : forallb is_js_ws s = true -> trim_start s = [].
Proof.
  induction s as [|c r IH]; simpl; [done|].
  intros H. apply andb_prop in H as [-> H]. auto.
Qed.

Lemma trim_start_not_ws s :
  forallb is_js_ws s = false -> exists c r, trim_start s = c :: r /\ is_js_ws c = false.
Proof.
  induction s as [|c r IH]; simpl; [done|].
  destruct (is_js_ws c) eqn:E; simpl; eauto.
Qed.

Lemma trim_start_snoc_not_ws l c :
  is_js_ws c = false -> trim_start (l ++ [c]) <> [].
Proof.
  intros Hc. induction l as [|a l IH]; simpl.
  - by rewrite Hc.
  - by destruct (is_js_ws a).
Qed.

(** [s.trim() === ''] exactly when every code unit of [s] is whitespace. *)
Lemma is_blank_spec s : is_blank s = forallb is_js_ws s.
Proof.
  unfold is_blank, trim, trim_end.
  destruct (forallb is_js_ws s) eqn:E.
  - by rewrite (trim_start_ws s E).
  - destruct (trim_start_not_ws s E) as (c & r & -> & Hc).
    assert (trim_start (rev (c :: r)) <> []) as Hn
      by (simpl; by apply trim_start_snoc_not_ws).
    destruct (trim_start (rev (c :: r))) as [|x l]; [done|].
    simpl. by destruct (rev l).
Qed.
