(* ===== verification/ScrollPosition.v ===== *)
(** * ScrollPosition: the [useScrollPosition] hook

    [hooks/useScrollPosition.ts] keeps [window.scrollY] in React state: a
    [scroll] listener added by a mount effect (lines 11-16) calls
    [setScrollY(window.scrollY)] (lines 7-9), and the cleanup removes it.
    No component of the site calls the hook.  The state is the hook's
    [scrollY], whether its listener is registered, and the window's
    [scrollY]; the window scrolls whether or not the listener is there. *)

From stdpp Require Import base list.
From Stdlib Require Import ZArith Lia.
From S2P Require Import Prelude.

Record ScrollHook := mkScrollHook {
  hookScrollY : Z;      (** [useState(0)] (line 5) *)
  listening : bool;     (** [handleScroll] is a [scroll] listener of [window] *)
  windowScrollY : Z;    (** [window.scrollY] *)
}.

Inductive scroll_event :=
| HookMount             (** the effect of lines 11-16 runs *)
| HookUnmount           (** its cleanup runs *)
| WindowScroll (y : Z). (** the window scrolls to [y] and fires [scroll] *)

(** The first render, in a window already scrolled to [y0]. *)
Definition scroll_init (y0 : Z) : ScrollHook := mkScrollHook 0 false y0.

(** Lines 7-9 *)
Definition handleScroll (h : ScrollHook) : ScrollHook :=
  mkScrollHook h.(windowScrollY) h.(listening) h.(windowScrollY).

Definition scroll_step (h : ScrollHook) (e : scroll_event) : ScrollHook :=
  match e with
  | HookMount => mkScrollHook h.(hookScrollY) true h.(windowScrollY)
  | HookUnmount => mkScrollHook h.(hookScrollY) false h.(windowScrollY)
  | WindowScroll y =>
      let h' := mkScrollHook h.(hookScrollY) h.(listening) y in
      if h.(listening) then handleScroll h' else h'
  end.

Definition scroll_trace (h : ScrollHook) (es : list scroll_event) : ScrollHook :=
  foldl scroll_step h es.

(** The positions of a run of scroll events. *)
Definition scrolls (ys : list Z) : list scroll_event := map WindowScroll ys.

(** ** Properties *)

Lemma last_cons {A} (y : A) ys d : List.last (y :: ys) d = List.last ys y.
Proof.
  revert y d. induction ys as [|z ys IH]; intros y d; [done|].
  change (List.last (y :: z :: ys) d) with (List.last (z :: ys) d). by rewrite !IH.
Qed.

Lemma scroll_trace_app h es1 es2 :
  scroll_trace h (es1 ++ es2) = scroll_trace (scroll_trace h es1) es2.
Proof. apply foldl_app. Qed.

(** While listening, the hook follows the window: after a run of scroll
    events it returns the last position, or what it held before. *)
Lemma scrolls_listening h (ys : list Z) :
  h.(listening) = true ->
  scroll_trace h (scrolls ys) =
    mkScrollHook (List.last ys h.(hookScrollY)) true (List.last ys h.(windowScrollY)).
Proof.
  revert h. induction ys as [|y ys IH]; intros [v l w] Hl; cbn in Hl; subst l; [done|].
  change (scroll_trace (mkScrollHook v true w) (scrolls (y :: ys)))
    with (scroll_trace (mkScrollHook y true y) (scrolls ys)).
  rewrite IH by done. by rewrite !last_cons.
Qed.

(** C36: Mounted in a window already scrolled to [y0], the hook returns
    [0], not [y0], until the first [scroll] event; after a run of [scroll]
    events it returns the last position, which is the window's, and its
    listener stays registered. *)
Theorem scroll_position_tracks y0 (ys : list Z) :
  let h := scroll_trace (scroll_init y0) (HookMount :: scrolls ys) in
  h.(hookScrollY) = List.last ys 0 /\ h.(listening) = true /\
  (ys <> [] -> h.(hookScrollY) = h.(windowScrollY)).
Proof.
  cbn zeta. change (HookMount :: scrolls ys) with ([HookMount] ++ scrolls ys).
  rewrite scroll_trace_app, scrolls_listening by done. cbn.
  split; [done|split; [done|]].
  intros Hys. destruct ys as [|y ys]; [done|]. by rewrite !last_cons.
Qed.

Lemma scroll_position_tracks_witness :
  let h := scroll_trace (scroll_init 300) (HookMount :: scrolls [450; 500]) in
  h.(hookScrollY) = List.last [450; 500] 0 /\ h.(listening) = true /\
  ([450; 500] <> [] -> h.(hookScrollY) = h.(windowScrollY)).
Proof. exact (scroll_position_tracks 300 [450; 500]). Defined.
