(* ===== verification/JsValue.v ===== *)
(** * JsValue: the JavaScript semantics the chat hooks rely on

    The hooks of [src/src/hooks/useChatStream.ts] and
    [src/src/hooks/useChatNoStream.ts] handle the value [JSON.parse] returns
    with a handful of JavaScript operations: property reads ([data.type],
    [data.content], ...), strict equality with a string literal, template
    literals ([`Error: ${data.content}`]), [||] on [data.content], and [+=]
    on the accumulated agent text.  This file models those operations on
    JSON values, with [undefined] as [None]:
    - [json N]: the values [JSON.parse] produces, over a number type [N];
    - [JsRuntime]: the host the code runs in: its numbers
      ([Number::toString], [Number::add], [ToBoolean], [ToNumber]), its
      [JSON.parse] and [JSON.stringify], the message of the [TypeError] a
      property read on [null] throws, and the two library calls whose
      result depends on locale data ([toUpperCase], [toLocaleString]).  Every theorem of the development holds for every
      runtime; [IntRuntime] (integers only, a small parser) is the concrete
      one the witnesses run on;
    - [exc]: a computation that returns a value or throws an [Error] with a
      message, the effect of the hooks' [try]/[catch] blocks. *)

From stdpp Require Import base list decidable.
From Stdlib Require Import ZArith Lia.
From S2P Require Import Prelude.

(** ** JSON values *)

#[local] Set Warnings "-register-all".

Inductive json (N : Type) : Type :=
| JNull
| JBool (b : bool)
| JNum (n : N)
| JStr (s : jsstr)
| JArr (items : list (json N))
| JObj (fields : list (jsstr * json N)).
Arguments JNull {N}.
Arguments JBool {N} b.
Arguments JNum {N} n.
Arguments JStr {N} s.
Arguments JArr {N} items.
Arguments JObj {N} fields.

(** The host's number semantics and [JSON.parse]. *)
Class JsRuntime := {
  num : Type;
  (** [Number::toString(x)] (ECMA-262 6.1.6.1.20) *)
  num_to_string : num -> jsstr;
  (** [Number::add] (IEEE-754 addition) *)
  num_add : num -> num -> num;
  (** [ToBoolean]: false exactly for +0, -0 and NaN *)
  num_truthy : num -> bool;
  (** [ToNumber] of [true] / [false], of [null] (+0), of [undefined] (NaN) *)
  num_of_bool : bool -> num;
  num_zero : num;
  num_nan : num;
  (** [JSON.parse]; [None] when it throws a [SyntaxError] *)
  JSON_parse : jsstr -> option (json num);
  (** message of the [TypeError] thrown by reading property [k] of [null] *)
  null_read_message : jsstr -> jsstr;
  (** [String.prototype.toUpperCase] (Unicode default case conversion) *)
  str_to_upper : jsstr -> jsstr;
  (** [new Date(v).toLocaleString('en-US', options)] with the options of
      [WeatherCard.tsx]; it depends on the host's time zone *)
  date_locale_string : option (json num) -> jsstr;
  (** [JSON.stringify(v)] ([None]) and [JSON.stringify(v, null, n)] *)
  json_stringify : option nat -> json num -> jsstr;
}.

(** ** Exceptions *)

(** A computation that returns or throws an [Error] carrying a message. *)
Inductive exc (A : Type) : Type :=
| Ok (a : A)
| Throw (message : jsstr).
Arguments Ok {A} a.
Arguments Throw {A} message.

#[export] Instance exc_ret : MRet exc := fun _ a => Ok a.
#[export] Instance exc_bind : MBind exc :=
  fun _ _ f m => match m with Ok a => f a | Throw e => Throw e end.

(** A JavaScript value the hooks manipulate: [None] is [undefined]. *)
Abbreviation value := (json num).
Abbreviation jsval := (option value).

Section Values.
Context `{JsRuntime}.

(** The property names the hooks read from parsed data and error bodies,
    the one [getNetworkIdentifier] reads, and those the tool cards read
    from a tool's output. *)
Inductive key := KType | KContent | KToolName | KToolArgs | KOutput
               | KToolCallId | KToolCalls | KDetail | KIp
               | KName | KUsername | KProfileUrl | KLocation | KBio | KNumRepos | KRepo
               | KHeadline | KConnections
               | KCurrentRain | KCurrentTime | KCurrentTemperature | KCity | KRegion | KCountry.

Definition key_name (k : key) : jsstr :=
  match k with
  | KType => js "type" | KContent => js "content"
  | KToolName => js "tool_name" | KToolArgs => js "tool_args"
  | KOutput => js "output" | KToolCallId => js "tool_call_id"
  | KToolCalls => js "tool_calls" | KDetail => js "detail" | KIp => js "ip"
  | KName => js "name" | KUsername => js "username" | KProfileUrl => js "profile_url"
  | KLocation => js "location" | KBio => js "bio" | KNumRepos => js "num_repos"
  | KRepo => js "repo" | KHeadline => js "headline" | KConnections => js "connections"
  | KCurrentRain => js "currentRain" | KCurrentTime => js "currentTime"
  | KCurrentTemperature => js "currentTemperature" | KCity => js "city"
  | KRegion => js "region" | KCountry => js "country"
  end.

(** The own property [k] of a parsed object: with duplicate keys
    [JSON.parse] keeps the last value. *)
Definition lookup_field (k : jsstr) (fs : list (jsstr * value)) : jsval :=
  fold_left (fun acc kv => if bool_decide (kv.1 = k) then Some kv.2 else acc) fs None.

(** [v.k] for one of the hooks' keys: none of them is a property of strings,
    arrays, numbers or booleans or of [Object.prototype], so outside an object
    the read gives [undefined]; on [null] it throws a [TypeError]. *)
Definition get (v : value) (k : key) : exc jsval :=
  match v with
  | JNull => Throw (null_read_message (key_name k))
  | JObj fs => Ok (lookup_field (key_name k) fs)
  | _ => Ok None
  end.

(** [v === 'lit'] *)
Definition is_str (v : jsval) (s : jsstr) : bool :=
  match v with Some (JStr t) => bool_decide (t = s) | _ => false end.

(** [ToString(v)], the conversion of a template-literal substitution.
    Arrays are joined with commas, [null] and [undefined] elements giving
    the empty string; a plain object gives ["[object Object]"]. *)
Fixpoint to_str (v : value) : jsstr :=
  match v with
  | JNull => js "null"
  | JBool true => js "true"
  | JBool false => js "false"
  | JNum n => num_to_string n
  | JStr s => s
  | JArr items =>
      (fix go (l : list value) : jsstr :=
         match l with
         | [] => []
         | [x] => match x with JNull => [] | _ => to_str x end
         | x :: r => (match x with JNull => [] | _ => to_str x end) ++ 44 :: go r
         end) items
  | JObj _ => js "[object Object]"
  end.

Definition to_string (v : jsval) : jsstr :=
  match v with None => js "undefined" | Some x => to_str x end.

(** [ToBoolean(v)] *)
Definition truthy (v : jsval) : bool :=
  match v with
  | None | Some JNull => false
  | Some (JBool b) => b
  | Some (JNum n) => num_truthy n
  | Some (JStr s) => bool_decide (s <> [])
  | Some (JArr _) | Some (JObj _) => true
  end.

(** [v || d] *)
Definition js_or (v d : jsval) : jsval := if truthy v then v else d.

(** [JSON.parse(s)] inside a [try]: a [SyntaxError] when it fails. *)
Definition json_parse (s : jsstr) : exc value :=
  match JSON_parse s with
  | Some v => Ok v
  | None => Throw (js "SyntaxError")
  end.

(** [ToPrimitive] with the default hint: arrays and plain objects become
    the string their [toString] returns. *)
Definition to_primitive (v : jsval) : jsval :=
  match v with
  | Some (JArr _ as x) | Some (JObj _ as x) => Some (JStr (to_str x))
  | _ => v
  end.

Definition to_number (v : jsval) : num :=
  match v with
  | None => num_nan
  | Some JNull => num_zero
  | Some (JBool b) => num_of_bool b
  | Some (JNum n) => n
  | Some _ => num_nan
  end.

(** [a + b] (ECMA-262 13.15.3, ApplyStringOrNumericBinaryOperator). *)
Definition js_add (a b : jsval) : value :=
  let pa := to_primitive a in
  let pb := to_primitive b in
  match pa, pb with
  | Some (JStr _), _ | _, Some (JStr _) => JStr (to_string pa ++ to_string pb)
  | _, _ => JNum (num_add (to_number pa) (to_number pb))
  end.

Lemma is_str_true v s : is_str v s = true -> v = Some (JStr s).
Proof.
  unfold is_str. destruct v as [[]|]; try done.
  intros Hb. apply bool_decide_eq_true in Hb. by subst.
Qed.

End Values.

(** Replace every value known to equal a string literal by that literal,
    and close the cases where two tests on one value contradict each other. *)
Ltac subst_is_str :=
  repeat match goal with
         | Hs : is_str (Some (JStr _)) _ = _ |- _ =>
             vm_compute in Hs; first [discriminate Hs | clear Hs]
         | Hs : is_str ?v ?s = true |- _ =>
             apply is_str_true in Hs; rewrite Hs in *; clear Hs
         | Hs : negb ?b = true |- _ =>
             apply negb_true_iff in Hs; rewrite Hs in *; clear Hs
         | Hs : negb ?b = false |- _ =>
             apply negb_false_iff in Hs; rewrite Hs in *; clear Hs
         end.

