(* ===== verification/IntRuntime.v ===== *)
(** * IntRuntime: a concrete host to run the models on

    The theorems of the development hold for every [JsRuntime].  To
    evaluate the hooks on concrete wire lines, the witnesses use this
    instance: numbers are integers ([Some n]) or NaN ([None]), and
    [JSON.parse] is [parse_json], a parser of RFC 8259 JSON whose numbers
    are restricted to integers (a line with a fraction or an exponent is
    rejected, which the witnesses never rely on).  [null_read_message] is
    the message V8 gives the [TypeError]; [JSON.stringify] is [stringify],
    [toUpperCase] maps ASCII letters, and [toLocaleString] shows the date
    string as it came (the witnesses never display a parsed date).

    Rocq string literals cannot hold a double quote here, so test lines are
    written with single quotes and converted by [jq]. *)

From stdpp Require Import base list decidable.
From Stdlib Require Import ZArith Lia.
From S2P Require Import Prelude JsValue.

Definition is_json_ws (c : Z) : bool := (c =? 32) || (c =? 9) || (c =? 10) || (c =? 13).

Fixpoint skip_ws (s : jsstr) : jsstr :=
  match s with
  | c :: r => if is_json_ws c then skip_ws r else s
  | [] => []
  end.

Definition hex_digit (c : Z) : option Z :=
  if (48 <=? c) && (c <=? 57) then Some (c - 48)
  else if (97 <=? c) && (c <=? 102) then Some (c - 87)
  else if (65 <=? c) && (c <=? 70) then Some (c - 55)
  else None.

(** The code unit a one-character escape [\e] stands for. *)
Definition simple_escape (e : Z) : option Z :=
  if e =? 34 then Some 34 else if e =? 92 then Some 92
  else if e =? 47 then Some 47 else if e =? 98 then Some 8
  else if e =? 102 then Some 12 else if e =? 110 then Some 10
  else if e =? 114 then Some 13 else if e =? 116 then Some 9 else None.

(** The characters of a string literal after its opening quote. *)
Fixpoint parse_chars (s : jsstr) : option (jsstr * jsstr) :=
  match s with
  | [] => None
  | c :: r =>
      if c =? 34 then Some ([], r)
      else if c =? 92 then
        match r with
        | e :: r' =>
            match simple_escape e with
            | Some u => '(t, rest) ← parse_chars r'; Some (u :: t, rest)
            | None =>
                match e, r' with
                | 117, h1 :: h2 :: h3 :: h4 :: r'' =>
                    d1 ← hex_digit h1; d2 ← hex_digit h2; d3 ← hex_digit h3; d4 ← hex_digit h4;
                    '(t, rest) ← parse_chars r'';
                    Some ((((d1 * 16 + d2) * 16 + d3) * 16 + d4) :: t, rest)
                | _, _ => None
                end
            end
        | [] => None
        end
      else if c <? 32 then None
      else '(t, rest) ← parse_chars r; Some (c :: t, rest)
  end.

Fixpoint parse_digits (s : jsstr) (acc : Z) : Z * jsstr :=
  match s with
  | c :: r => if (48 <=? c) && (c <=? 57) then parse_digits r (acc * 10 + (c - 48)) else (acc, s)
  | [] => (acc, s)
  end.

Definition is_digit (c : Z) : bool := (48 <=? c) && (c <=? 57).

(** An integer: [0] or a non-zero digit followed by digits, no fraction or
    exponent. *)
Definition parse_int (s : jsstr) : option (Z * jsstr) :=
  match s with
  | 48 :: r => match r with c :: _ => if is_digit c || (c =? 46) || (c =? 101) || (c =? 69) then None else Some (0, r) | [] => Some (0, r) end
  | c :: r =>
      if is_digit c then
        let '(n, rest) := parse_digits r (c - 48) in
        match rest with
        | d :: _ => if (d =? 46) || (d =? 101) || (d =? 69) then None else Some (n, rest)
        | [] => Some (n, rest)
        end
      else None
  | [] => None
  end.

Fixpoint strip_prefix (p s : jsstr) : option jsstr :=
  match p, s with
  | [], _ => Some s
  | a :: p', b :: s' => if a =? b then strip_prefix p' s' else None
  | _ :: _, [] => None
  end.

Fixpoint parse_value (fuel : nat) (s : jsstr) : option (json (option Z) * jsstr) :=
  match fuel with
  | O => None
  | S f =>
      match skip_ws s with
      | [] => None
      | c :: r =>
          if c =? 123 then parse_members f (skip_ws r) true []
          else if c =? 91 then parse_elements f (skip_ws r) true []
          else if c =? 34 then '(t, rest) ← parse_chars r; Some (JStr t, rest)
          else if c =? 45 then '(n, rest) ← parse_int r; Some (JNum (Some (- n)), rest)
          else if is_digit c then '(n, rest) ← parse_int (c :: r); Some (JNum (Some n), rest)
          else match strip_prefix (js "true") (c :: r) with
               | Some rest => Some (JBool true, rest)
               | None =>
                   match strip_prefix (js "false") (c :: r) with
                   | Some rest => Some (JBool false, rest)
                   | None => rest ← strip_prefix (js "null") (c :: r); Some (JNull, rest)
                   end
               end
      end
  end
with parse_members (fuel : nat) (s : jsstr) (first : bool)
                   (acc : list (jsstr * json (option Z))) :=
  match fuel with
  | O => None
  | S f =>
      match s with
      | c :: r =>
          if first && (c =? 125) then Some (JObj (rev acc), r)
          else if c =? 34 then
            '(k, r1) ← parse_chars r;
            match skip_ws r1 with
            | d :: r2 =>
                if d =? 58 then
                  '(v, r3) ← parse_value f r2;
                  match skip_ws r3 with
                  | e :: r4 =>
                      if e =? 44 then parse_members f (skip_ws r4) false ((k, v) :: acc)
                      else if e =? 125 then Some (JObj (rev ((k, v) :: acc)), r4)
                      else None
                  | [] => None
                  end
                else None
            | [] => None
            end
          else None
      | [] => None
      end
  end
with parse_elements (fuel : nat) (s : jsstr) (first : bool) (acc : list (json (option Z))) :=
  match fuel with
  | O => None
  | S f =>
      match s with
      | c :: _ =>
          if first && (c =? 93) then Some (JArr (rev acc), tail s)
          else
            '(v, r1) ← parse_value f s;
            match skip_ws r1 with
            | e :: r2 =>
                if e =? 44 then parse_elements f (skip_ws r2) false (v :: acc)
                else if e =? 93 then Some (JArr (rev (v :: acc)), r2)
                else None
            | [] => None
            end
      | [] => None
      end
  end.

(** [JSON.parse(text)]: one value, then only whitespace.  Every nested call
    consumes input, so [length text + 1] steps are enough. *)
Definition parse_json (text : jsstr) : option (json (option Z)) :=
  '(v, rest) ← parse_value (S (List.length text) * 2) text;
  match skip_ws rest with [] => Some v | _ => None end.

(** [JSON.stringify] on these values, compact: the escapes of
    QuoteJSONString for the quote and the backslash, the short control
    escapes and the [u00XX] form; NaN prints as [null].  The indented form
    is printed compactly too. *)
Definition hex_char (d : Z) : Z := if d <? 10 then 48 + d else 87 + d.

Definition quote_unit (c : Z) : jsstr :=
  if c =? 34 then [92; 34] else if c =? 92 then [92; 92]
  else if c =? 8 then [92; 98] else if c =? 12 then [92; 102]
  else if c =? 10 then [92; 110] else if c =? 13 then [92; 114]
  else if c =? 9 then [92; 116]
  else if c <? 32 then [92; 117; 48; 48; hex_char (c / 16); hex_char (c mod 16)]
  else [c].

Definition quote (s : jsstr) : jsstr := 34 :: flat_map quote_unit s ++ [34].

Fixpoint join_comma (l : list jsstr) : jsstr :=
  match l with [] => [] | [x] => x | x :: r => x ++ 44 :: join_comma r end.

Fixpoint stringify (v : json (option Z)) : jsstr :=
  match v with
  | JNull => js "null"
  | JBool b => if b then js "true" else js "false"
  | JNum (Some z) => dec_of_Z z
  | JNum None => js "null"
  | JStr s => quote s
  | JArr items => 91 :: join_comma (map stringify items) ++ [93]
  | JObj fs => 123 :: join_comma (map (fun kv => quote kv.1 ++ 58 :: stringify kv.2) fs) ++ [125]
  end.

(** ASCII letters only: the witnesses display ASCII text. *)
Definition ascii_upper (s : jsstr) : jsstr :=
  map (fun c => if (97 <=? c) && (c <=? 122) then c - 32 else c) s.

#[export] Instance IntRuntime : JsRuntime := {
  num := option Z;
  num_to_string n := match n with Some z => dec_of_Z z | None => js "NaN" end;
  num_add a b := match a, b with Some x, Some y => Some (x + y) | _, _ => None end;
  num_truthy n := match n with Some z => negb (z =? 0) | None => false end;
  num_of_bool b := Some (if b then 1 else 0);
  num_zero := Some 0;
  num_nan := None;
  JSON_parse := parse_json;
  null_read_message k := js "Cannot read properties of null (reading '" ++ k ++ js "')";
  str_to_upper := ascii_upper;
  date_locale_string v := match v with Some (JStr s) => s | _ => js "Invalid Date" end;
  json_stringify _ := stringify;
}.

(** A test line written with single quotes for double quotes. *)
Definition jq (s : String.string) : jsstr := map (fun c => if c =? 39 then 34 else c) (js s).
Arguments jq s%_string_scope.
