(* ===== verification/Uri.v ===== *)
(** * Uri: [encodeURIComponent]

    [ProjectCard.tsx] line 15 builds the placeholder image of a project
    without an image from [encodeURIComponent(project.title)].  The
    function is the host's (ECMA-262, section 19.2.6.5, [Encode]): every
    code unit outside [A-Z a-z 0-9 - _ . ! ~ * ' ( )] is replaced by the
    UTF-8 bytes of its code point, each written [%XX] with upper-case hex
    digits; a surrogate pair is one code point; a lone surrogate throws a
    [URIError].  It is modelled here from the standard, with
    [decodeURIComponent] ([Decode]) as its inverse: [unpct] reads the
    escapes into bytes, [utf8_decode] turns bytes into code points and
    code points into UTF-16 code units.  The round trip
    [decode_encode] is proved for every string of code units. *)

From stdpp Require Import base list.
From Stdlib Require Import ZArith Lia.
From S2P Require Import Prelude JsValue.

(** ** Encoding *)

(** [uriMark] *)
Definition uri_mark : list Z := [45; 95; 46; 33; 126; 42; 39; 40; 41].

(** [uriAlpha], [DecimalDigit] and [uriMark]: left as they are. *)
Definition uri_unescaped (c : Z) : bool :=
  ((65 <=? c) && (c <=? 90)) || ((97 <=? c) && (c <=? 122)) ||
  ((48 <=? c) && (c <=? 57)) || existsb (Z.eqb c) uri_mark.

Definition is_high (c : Z) : bool := (55296 <=? c) && (c <=? 56319).
Definition is_low (c : Z) : bool := (56320 <=? c) && (c <=? 57343).

(** The code point of a surrogate pair. *)
Definition pair_cp (hi lo : Z) : Z := (hi - 55296) * 1024 + (lo - 56320) + 65536.

(** The UTF-8 bytes of a code point. *)
Definition utf8 (cp : Z) : list Z :=
  if cp <? 128 then [cp]
  else if cp <? 2048 then [192 + cp / 64; 128 + cp mod 64]
  else if cp <? 65536 then [224 + cp / 64 / 64; 128 + (cp / 64) mod 64; 128 + cp mod 64]
  else [240 + cp / 64 / 64 / 64; 128 + (cp / 64 / 64) mod 64; 128 + (cp / 64) mod 64;
        128 + cp mod 64].

Definition hex_upper (d : Z) : Z := if d <? 10 then 48 + d else 55 + d.

(** [%XX] *)
Definition pct (b : Z) : jsstr := [37; hex_upper (b / 16); hex_upper (b mod 16)].

Definition uri_error : jsstr := js "URI malformed".

Fixpoint encodeURIComponent (s : jsstr) : exc jsstr :=
  match s with
  | [] => Ok []
  | c :: r =>
      if uri_unescaped c then r' ← encodeURIComponent r; Ok (c :: r')
      else if is_low c then Throw uri_error
      else if is_high c then
        match r with
        | d :: r2 =>
            if is_low d then r' ← encodeURIComponent r2; Ok (flat_map pct (utf8 (pair_cp c d)) ++ r')
            else Throw uri_error
        | [] => Throw uri_error
        end
      else r' ← encodeURIComponent r; Ok (flat_map pct (utf8 c) ++ r')
  end.

(** ** Decoding *)

Inductive token := Raw (c : Z) | Byte (b : Z).

Definition unhex (h : Z) : option Z :=
  if (48 <=? h) && (h <=? 57) then Some (h - 48)
  else if (65 <=? h) && (h <=? 70) then Some (h - 55)
  else if (97 <=? h) && (h <=? 102) then Some (h - 87)
  else None.

Definition byte_of (h1 h2 : Z) : option Z := a ← unhex h1; b ← unhex h2; Some (16 * a + b).

(** The escapes of a string as bytes, the other code units as they are. *)
Fixpoint unpct (s : jsstr) : option (list token) :=
  match s with
  | [] => Some []
  | c :: r =>
      if c =? 37 then
        match r with
        | h1 :: h2 :: r' => b ← byte_of h1 h2; ts ← unpct r'; Some (Byte b :: ts)
        | _ => None
        end
      else if uri_unescaped c then ts ← unpct r; Some (Raw c :: ts)
      else None
  end.

Definition cont (b : Z) : bool := (128 <=? b) && (b <? 192).

(** A code point as UTF-16 code units. *)
Definition utf16 (cp : Z) : jsstr :=
  if cp <? 65536 then [cp] else [55296 + (cp - 65536) / 1024; 56320 + (cp - 65536) mod 1024].

Fixpoint utf8_decode (ts : list token) : option jsstr :=
  match ts with
  | [] => Some []
  | Raw c :: ts' => r ← utf8_decode ts'; Some (c :: r)
  | Byte b1 :: ts' =>
      if b1 <? 128 then r ← utf8_decode ts'; Some (b1 :: r)
      else if (192 <=? b1) && (b1 <? 224) then
        match ts' with
        | Byte b2 :: ts2 =>
            if cont b2 then r ← utf8_decode ts2; Some (utf16 ((b1 - 192) * 64 + (b2 - 128)) ++ r)
            else None
        | _ => None
        end
      else if (224 <=? b1) && (b1 <? 240) then
        match ts' with
        | Byte b2 :: Byte b3 :: ts3 =>
            if cont b2 && cont b3 then
              r ← utf8_decode ts3;
              Some (utf16 ((b1 - 224) * 4096 + (b2 - 128) * 64 + (b3 - 128)) ++ r)
            else None
        | _ => None
        end
      else if (240 <=? b1) && (b1 <? 248) then
        match ts' with
        | Byte b2 :: Byte b3 :: Byte b4 :: ts4 =>
            if cont b2 && cont b3 && cont b4 then
              r ← utf8_decode ts4;
              Some (utf16 ((b1 - 240) * 262144 + (b2 - 128) * 4096 + (b3 - 128) * 64 + (b4 - 128)) ++ r)
            else None
        | _ => None
        end
      else None
  end.

Definition decodeURIComponent (s : jsstr) : option jsstr := ts ← unpct s; utf8_decode ts.

(** ** The round trip *)

Definition unit_range (c : Z) : Prop := 0 <= c < 65536.
Definition byte_range (b : Z) : Prop := 0 <= b < 256.

#[global] Instance unit_range_dec c : Decision (unit_range c).
Proof. unfold unit_range. apply _. Defined.

(** The facts [lia] needs about [x / 64] and [x mod 64]. *)
Ltac div64 x := pose proof (Z.div_mod x 64 ltac:(lia)); pose proof (Z.mod_pos_bound x 64 ltac:(lia)).

Lemma unhex_hex_upper d : 0 <= d < 16 -> unhex (hex_upper d) = Some d.
Proof. intros Hd. unfold unhex, hex_upper. repeat decide_Z_test; f_equal; lia. Qed.

Lemma byte_of_pct b : byte_range b -> byte_of (hex_upper (b / 16)) (hex_upper (b mod 16)) = Some b.
Proof.
  intros Hb. unfold byte_range in Hb. unfold byte_of.
  pose proof (Z.div_mod b 16 ltac:(lia)). pose proof (Z.mod_pos_bound b 16 ltac:(lia)).
  rewrite !unhex_hex_upper by lia. cbn. f_equal. lia.
Qed.

Lemma unpct_pct bs rest :
  Forall byte_range bs ->
  unpct (flat_map pct bs ++ rest) = ts ← unpct rest; Some (map Byte bs ++ ts).
Proof.
  induction 1 as [|b bs Hb _ IH]; cbn; [by destruct (unpct rest)|].
  rewrite byte_of_pct by done. cbn. rewrite IH. by destruct (unpct rest).
Qed.

Lemma utf8_range cp : 0 <= cp < 1114112 -> Forall byte_range (utf8 cp).
Proof.
  intros Hc. unfold utf8, byte_range.
  div64 cp. div64 (cp / 64). div64 (cp / 64 / 64).
  repeat decide_Z_test; repeat constructor; lia.
Qed.

(** Decoding the bytes of a code point gives its UTF-16 code units. *)
Lemma utf8_decode_utf8 cp ts :
  0 <= cp < 1114112 ->
  utf8_decode (map Byte (utf8 cp) ++ ts) = r ← utf8_decode ts; Some (utf16 cp ++ r).
Proof.
  intros Hc. unfold utf8, cont.
  div64 cp. div64 (cp / 64). div64 (cp / 64 / 64).
  repeat (decide_Z_test; cbn [map app utf8_decode andb]);
    repeat match goal with
    | |- context [utf16 ?x] =>
        tryif unify x cp then fail else replace x with cp by lia
    end;
    unfold cont, utf16; repeat (decide_Z_test; cbn [andb]); done.
Qed.

Lemma utf16_unit c : 0 <= c < 65536 -> utf16 c = [c].
Proof. intros Hc. unfold utf16. by decide_Z_test. Qed.

Lemma utf16_pair c d : is_high c = true -> is_low d = true -> utf16 (pair_cp c d) = [c; d].
Proof.
  unfold is_high, is_low, utf16, pair_cp. rewrite !andb_true_iff, !Z.leb_le. intros Hc Hd.
  pose proof (Z.div_mod ((c - 55296) * 1024 + (d - 56320) + 65536 - 65536) 1024 ltac:(lia)).
  pose proof (Z.mod_pos_bound ((c - 55296) * 1024 + (d - 56320) + 65536 - 65536) 1024 ltac:(lia)).
  decide_Z_test. repeat f_equal; lia.
Qed.

Lemma unescaped_not_pct c : uri_unescaped c = true -> (c =? 37) = false.
Proof.
  unfold uri_unescaped, uri_mark. cbn [existsb]. intros Hc. apply Z.eqb_neq. intros ->. done.
Qed.

(** The escapes of an encoding read back as the tokens that decode to the
    string. *)
Lemma encode_tokens n s e :
  (length s <= n)%nat -> Forall unit_range s -> encodeURIComponent s = Ok e ->
  exists ts, unpct e = Some ts /\ utf8_decode ts = Some s.
Proof.
  revert s e. induction n as [|n IH]; intros s e Hn Hs He.
  { destruct s; [|cbn in Hn; lia]. cbn in He. simplify_eq. by exists []. }
  destruct s as [|c r]; [cbn in He; simplify_eq; by exists []|].
  cbn [length] in Hn. inversion Hs as [|? ? Hc Hr]; subst. unfold unit_range in Hc.
  cbn [encodeURIComponent] in He.
  destruct (uri_unescaped c) eqn:Eu; [|destruct (is_low c) eqn:El; [done|]].
  - destruct (encodeURIComponent r) as [r'|] eqn:Er; cbn in He; simplify_eq.
    destruct (IH r r' ltac:(lia) Hr Er) as (ts & Hts & Hd).
    exists (Raw c :: ts). cbn. rewrite unescaped_not_pct, Eu, Hts by done. cbn. by rewrite Hd.
  - destruct (is_high c) eqn:Eh.
    + destruct r as [|d r2]; [done|]. inversion Hr as [|? ? Hd0 Hr2]; subst.
      destruct (is_low d) eqn:Eld; [|done].
      destruct (encodeURIComponent r2) as [r'|] eqn:Er; cbn in He; simplify_eq.
      destruct (IH r2 r' ltac:(cbn in Hn; lia) Hr2 Er) as (ts & Hts & Hd).
      assert (Hcp : 0 <= pair_cp c d < 1114112).
      { unfold pair_cp, is_high, is_low in *. rewrite !andb_true_iff, !Z.leb_le in *. lia. }
      exists (map Byte (utf8 (pair_cp c d)) ++ ts).
      rewrite unpct_pct, Hts by (by apply utf8_range). split; [done|].
      rewrite utf8_decode_utf8, Hd by done. cbn. by rewrite utf16_pair.
    + destruct (encodeURIComponent r) as [r'|] eqn:Er; cbn in He; simplify_eq.
      destruct (IH r r' ltac:(lia) Hr Er) as (ts & Hts & Hd).
      exists (map Byte (utf8 c) ++ ts).
      rewrite unpct_pct, Hts by (apply utf8_range; lia). split; [done|].
      rewrite utf8_decode_utf8, Hd by lia. cbn. by rewrite utf16_unit.
Qed.

Lemma decode_encode s e :
  Forall unit_range s -> encodeURIComponent s = Ok e -> decodeURIComponent e = Some s.
Proof.
  intros Hs He. destruct (encode_tokens (length s) s e ltac:(lia) Hs He) as (ts & Hts & Hd).
  unfold decodeURIComponent. by rewrite Hts.
Qed.

(** ** When it throws *)

(** Well-formed UTF-16: every surrogate is part of a pair. *)
Fixpoint wf_utf16 (s : jsstr) : bool :=
  match s with
  | [] => true
  | c :: r =>
      if is_low c then false
      else if is_high c then
        match r with d :: r2 => is_low d && wf_utf16 r2 | [] => false end
      else wf_utf16 r
  end.

Lemma unescaped_not_surrogate c : uri_unescaped c = true -> is_low c = false /\ is_high c = false.
Proof.
  unfold uri_unescaped, uri_mark, is_low, is_high. cbn [existsb].
  rewrite !orb_true_iff, !andb_true_iff, !Z.leb_le, !Z.eqb_eq. intros Hc.
  split; apply not_true_is_false; rewrite andb_true_iff, !Z.leb_le; lia.
Qed.

(** [encodeURIComponent] returns exactly on well-formed strings and
    throws [URIError: URI malformed] on the others. *)
Lemma encode_ok_iff n s :
  (length s <= n)%nat ->
  (exists e, encodeURIComponent s = Ok e) <-> wf_utf16 s = true.
Proof.
  revert s. induction n as [|n IH]; intros s Hn.
  { destruct s; [|cbn in Hn; lia]. cbn. split; eauto. }
  destruct s as [|c r]; [cbn; split; eauto|]. cbn [length] in Hn.
  cbn [encodeURIComponent wf_utf16].
  destruct (uri_unescaped c) eqn:Eu.
  - destruct (unescaped_not_surrogate c Eu) as [-> ->]. rewrite <- (IH r) by lia.
    destruct (encodeURIComponent r); cbn; split; intros [? ?]; simplify_eq; eauto.
  - destruct (is_low c); [split; [intros [? ?] | intros ?]; discriminate|].
    destruct (is_high c).
    + destruct r as [|d r2]; [split; [intros [? ?] | intros ?]; discriminate|]. cbn [length] in Hn.
      destruct (is_low d); cbn; [|split; [intros [? ?] | intros ?]; discriminate].
      rewrite <- (IH r2) by lia.
      destruct (encodeURIComponent r2); cbn; split; intros [? ?]; simplify_eq; eauto.
    + rewrite <- (IH r) by lia.
      destruct (encodeURIComponent r); cbn; split; intros [? ?]; simplify_eq; eauto.
Qed.

(** The only exception [encodeURIComponent] throws is [URIError]. *)
Lemma encode_throw n s e :
  (length s <= n)%nat -> encodeURIComponent s = Throw e -> e = uri_error.
Proof.
  revert s. induction n as [|n IH]; intros s Hn He.
  { destruct s; [done|cbn in Hn; lia]. }
  destruct s as [|c r]; [done|]. cbn [length] in Hn. cbn [encodeURIComponent] in He.
  unfold mbind, exc_bind in He.
  repeat case_match; simplify_eq; try done; (eapply IH; [|eassumption]); cbn in Hn; lia.
Qed.
