(* ===== verification/LineBuffer.v ===== *)
(** * LineBuffer: the newline-delimited read loop of both hooks

    [useChatStream.ts] lines 70-81 and [useChatNoStream.ts] lines 63-77
    run the same loop over the response body: append the decoded chunk to
    [buffer], split it on ['\n'], keep the last (unterminated) piece in
    [buffer], and hand every complete, non-blank line to a handler; after
    the stream ends the remaining buffer is handled separately.  The
    handler is a parameter here ([on_line] over any state [S]); the hook
    files instantiate it.  The main results: the sequence of lines handled
    and the final buffer are those of [s.split('\n')] on the whole body,
    whatever the chunk boundaries, so the loop's result depends only on the
    concatenated text ([read_loop_chunking]). *)

From stdpp Require Import base list decidable.
From Stdlib Require Import ZArith Lia.
From S2P Require Import Prelude.

Section LineBuffer.
Context {S : Type} (on_line : S -> jsstr -> S).

(** [buffer += chunk; const lines = buffer.split('\n'); buffer = lines.pop() || '';] *)
Definition feed (buffer chunk : jsstr) : list jsstr * jsstr :=
  pop_last (split_nl (buffer ++ chunk)).

(** [for (const line of lines) { if (line.trim() === '') continue; ... }] *)
Definition handle_lines (st : S) (lines : list jsstr) : S :=
  fold_left (fun s line => if is_blank line then s else on_line s line) lines st.

(** [while (true) { const { value, done } = await reader.read(); if (done) break; ... }]
    over the decoded chunks: returns the state and the buffer left at the end. *)
Fixpoint read_loop (st : S) (buffer : jsstr) (chunks : list jsstr) : S * jsstr :=
  match chunks with
  | [] => (st, buffer)
  | c :: cs =>
      let '(lines, buffer') := feed buffer c in
      read_loop (handle_lines st lines) buffer' cs
  end.

(** ** Lemmas *)

Lemma feed_spec buffer chunk :
  (feed buffer chunk).1 ++ [(feed buffer chunk).2] = split_nl (buffer ++ chunk).
Proof. unfold feed. symmetry. apply pop_last_spec, split_nl_nonempty. Qed.

Lemma feed_buffer_no_nl buffer chunk : no_nl (feed buffer chunk).2.
Proof.
  pose proof (split_nl_no_nl (buffer ++ chunk)) as Hall.
  rewrite <- feed_spec in Hall. apply Forall_app in Hall as [_ Hl].
  by invc Hl.
Qed.

Lemma handle_lines_app st l1 l2 :
  handle_lines st (l1 ++ l2) = handle_lines (handle_lines st l1) l2.
Proof. unfold handle_lines. apply fold_left_app. Qed.

(** A property every handled line preserves holds after the loop. *)
Lemma read_loop_preserves (P : S -> Prop) st buffer chunks :
  (forall s line, P s -> P (on_line s line)) -> P st -> P (read_loop st buffer chunks).1.
Proof.
  intros Hstep. revert st buffer.
  induction chunks as [|c cs IH]; intros st buffer Hst; [done|]. simpl.
  destruct (feed buffer c) as [lines b']. apply IH. unfold handle_lines.
  clear IH. revert st Hst. induction lines as [|l ls IHl]; intros st Hst; [done|].
  simpl. apply IHl. destruct (is_blank l); auto.
Qed.

(** The loop handles the complete pieces of [buffer ++ concat chunks], in
    order, and leaves the last piece in the buffer. *)
Lemma read_loop_split st buffer chunks :
  no_nl buffer ->
  read_loop st buffer chunks =
  (handle_lines st (pop_last (split_nl (buffer ++ concat chunks))).1,
   (pop_last (split_nl (buffer ++ concat chunks))).2).
Proof.
  revert st buffer. induction chunks as [|c cs IH]; intros st buffer Hb; simpl.
  - by rewrite app_nil_r, split_nl_no_nl_id.
  - pose proof (feed_buffer_no_nl buffer c) as Hb'.
    destruct (feed buffer c) as [lines buffer'] eqn:E.
    rewrite IH by exact Hb'. rewrite app_assoc, <- (split_nl_app (buffer ++ c)).
    unfold feed in E. rewrite E. simpl.
    rewrite pop_last_app_l by apply split_nl_nonempty.
    cbn [fst snd]. by rewrite handle_lines_app.
Qed.

(** C1: The loop's result depends only on the concatenation of the chunks, not
    on where the chunk boundaries fall. *)
Theorem read_loop_chunking st cs1 cs2 :
  concat cs1 = concat cs2 -> read_loop st [] cs1 = read_loop st [] cs2.
Proof.
  intros Hc. rewrite !read_loop_split by constructor. by rewrite Hc.
Qed.

End LineBuffer.

(** The handler that records the lines it is given. *)
Definition record_line (acc : list jsstr) (line : jsstr) : list jsstr := acc ++ [line].

Lemma handle_lines_record acc lines :
  handle_lines record_line acc lines = acc ++ List.filter (fun l => negb (is_blank l)) lines.
Proof.
  revert acc. induction lines as [|l ls IH]; intros acc; simpl.
  - by rewrite app_nil_r.
  - unfold handle_lines in *. simpl. destruct (is_blank l); simpl; rewrite IH; [done|].
    unfold record_line. by rewrite <- app_assoc.
Qed.

(** C12: The loop hands to its handler exactly the non-blank pieces of the body
    that are followed by a newline, in order, and keeps the unterminated
    rest: those pieces and the rest, joined with newlines, are the body. *)
Theorem read_loop_lines chunks :
  let '(handled, rest) := read_loop record_line [] [] chunks in
  exists lines,
    join_nl (lines ++ [rest]) = concat chunks /\ Forall no_nl (lines ++ [rest]) /\
    handled = List.filter (fun l => negb (is_blank l)) lines.
Proof.
  rewrite read_loop_split by constructor. simpl.
  exists (pop_last (split_nl (concat chunks))).1.
  rewrite handle_lines_record, <- pop_last_spec by apply split_nl_nonempty.
  split_and!; [apply join_split_nl | apply split_nl_no_nl | done].
Qed.

(** ** Runs *)

Example read_loop_chunking_witness :
  concat [js "ab"; js "c"; [NL]; js "d"; [NL]; js "e"] = concat [js "abc"; [NL; 100; NL]; js "e"] /\
  read_loop record_line [] [] [js "ab"; js "c"; [NL]; js "d"; [NL]; js "e"]
  = read_loop record_line [] [] [js "abc"; [NL; 100; NL]; js "e"].
Proof.
  split; [reflexivity|]. apply read_loop_chunking. reflexivity.
Defined.
