(* ===== verification/Message.v ===== *)
(** * Message: chat messages, hook state and the hooks' effect monad

    Data shared by both hooks ([useChatStream.ts] and [useChatNoStream.ts]):
    - [ChatMessage] (the exported interface, lines 3-12 of either hook),
      whose [type] field holds whatever runtime value the code stores
      ([msg_type], with the five literals of the TypeScript union and
      [TOther] for anything else [data.type] may hold);
    - [HookState]: the hook's React state ([messages], [inputValue],
      [isLoading], [threadId]), the requests sent so far, and the number of
      [Date.now()] calls made, which indexes the clock;
    - [M]: state passing plus JavaScript exceptions, so that a [throw]
      inside [try] keeps the state changes made before it (React state
      updates and clock readings are not rolled back);
    - the network as the hooks see it: the [fetch] outcome ([FetchResult]),
      the response ([Response]) and its body as decoded chunks ([Body]). *)

From stdpp Require Import base list decidable.
From Stdlib Require Import ZArith Lia.
From S2P Require Import Prelude JsValue LineBuffer.

Section Message.
Context `{JsRuntime}.

(** ** Messages *)

(** The runtime value of a message's [type]. *)
Inductive msg_type :=
| TUser | TAgent | TToolOutput | TAgentToolCall | TError
| TOther (v : jsval).

(** [type: data.type]: the value read from the wire, seen as a [msg_type]. *)
Definition msg_type_of (v : jsval) : msg_type :=
  if is_str v (js "user") then TUser
  else if is_str v (js "agent") then TAgent
  else if is_str v (js "tool_output") then TToolOutput
  else if is_str v (js "agent_tool_call") then TAgentToolCall
  else if is_str v (js "error") then TError
  else TOther v.

(** [interface ChatMessage]; an absent optional field is [None]
    ([undefined]). *)
Record ChatMessage := mkMessage {
  id : jsstr;
  type : msg_type;
  content : jsval;
  toolName : jsval;
  toolArgs : jsval;
  output : jsval;
  toolCallId : jsval;
  toolCalls : jsval;
}.

(** A message with only [id], [type] and [content] set. *)
Definition simple_message (i : jsstr) (t : msg_type) (c : jsval) : ChatMessage :=
  mkMessage i t c None None None None None.

(** [{ ...msg, content: c }] *)
Definition with_content (c : jsval) (m : ChatMessage) : ChatMessage :=
  mkMessage m.(id) m.(type) c m.(toolName) m.(toolArgs) m.(output)
            m.(toolCallId) m.(toolCalls).

(** ** Requests and responses *)

(** A [fetch] the hook issues: the endpoint and the JSON body fields. *)
Record Request := mkRequest {
  endpoint : jsstr;
  req_message : jsstr;
  req_thread_id : jsstr;
}.

(** A response body as the text [TextDecoder] produces chunk by chunk, and
    whether [reader.read()] rejects after the last chunk. *)
Record Body := mkBody {
  chunks : list jsstr;
  read_error : option jsstr;
}.

Record Response := mkResponse {
  status : Z;
  body : option Body;
  (** what [await response.json()] gives: the parsed body, or the message of
      the error it throws *)
  json_result : exc value;
}.

(** [response.ok] *)
Definition ok (r : Response) : bool := (200 <=? r.(status)) && (r.(status) <=? 299).

(** [await fetch(...)]: a response, or the message of the rejection. *)
Inductive FetchResult :=
| FetchRejected (message : jsstr)
| Fetched (r : Response).

(** ** Hook state *)

Record HookState := mkHookState {
  messages : list ChatMessage;
  inputValue : jsstr;
  isLoading : bool;
  threadId : jsstr;
  sent : list Request;
  ticks : nat;
}.

Definition set_messages_st (f : list ChatMessage -> list ChatMessage) (s : HookState) :=
  mkHookState (f s.(messages)) s.(inputValue) s.(isLoading) s.(threadId) s.(sent) s.(ticks).
Definition set_input_st (v : jsstr) (s : HookState) :=
  mkHookState s.(messages) v s.(isLoading) s.(threadId) s.(sent) s.(ticks).
Definition set_loading_st (b : bool) (s : HookState) :=
  mkHookState s.(messages) s.(inputValue) b s.(threadId) s.(sent) s.(ticks).
Definition send_st (r : Request) (s : HookState) :=
  mkHookState s.(messages) s.(inputValue) s.(isLoading) s.(threadId) (s.(sent) ++ [r]) s.(ticks).
Definition tick_st (s : HookState) :=
  mkHookState s.(messages) s.(inputValue) s.(isLoading) s.(threadId) s.(sent) (S s.(ticks)).

(** ** The effect monad *)

Definition M (A : Type) : Type := HookState -> exc A * HookState.

#[export] Instance M_ret : MRet M := fun _ a s => (Ok a, s).
#[export] Instance M_bind : MBind M := fun _ _ f m s =>
  match m s with
  | (Ok a, s') => f a s'
  | (Throw e, s') => (Throw e, s')
  end.

Definition throw {A} (e : jsstr) : M A := fun s => (Throw e, s).
Definition lift {A} (e : exc A) : M A := fun s => (e, s).
Definition modify (f : HookState -> HookState) : M unit := fun s => (Ok tt, f s).
Definition read {A} (f : HookState -> A) : M A := fun s => (Ok (f s), s).

(** [try { m } catch (e) { h(e.message) }] *)
Definition try_catch {A} (m : M A) (h : jsstr -> M A) : M A := fun s =>
  match m s with
  | (Ok a, s') => (Ok a, s')
  | (Throw e, s') => h e s'
  end.

(** [try { m } finally { f }] where [f] does not throw. *)
Definition try_finally {A} (m : M A) (f : M unit) : M A := fun s =>
  let '(r, s') := m s in
  let '(_, s'') := f s' in (r, s'').

(** [setMessages(prev => f(prev))] *)
Definition setMessages (f : list ChatMessage -> list ChatMessage) : M unit :=
  modify (set_messages_st f).

(** [setMessages(prev => [...prev, m])] *)
Definition append_message (m : ChatMessage) : M unit := setMessages (fun prev => prev ++ [m]).

(** ** Reading a response *)

(** [const response = await fetch(...)]: a rejection throws its error. *)
Definition await_fetch (r : FetchResult) : M Response :=
  match r with
  | FetchRejected e => throw e
  | Fetched resp => mret resp
  end.

(** [if (!response.ok || !response.body) { const errorData = await
    response.json(); throw new Error(`HTTP error! status: ${response.status},
    detail: ${errorData.detail || 'Unknown error'}`); }] *)
Definition check_response (r : Response) : M Body :=
  match ok r, r.(body) with
  | true, Some b => mret b
  | _, _ =>
      errorData ← lift r.(json_result);
      detail ← lift (get errorData KDetail);
      throw (js "HTTP error! status: " ++ dec_of_Z r.(status) ++ js ", detail: "
             ++ to_string (js_or detail (Some (JStr (js "Unknown error")))))
  end.

(** The read loop over the body with a line handler that threads a local
    value of type [A] (the streaming hook's accumulated text).  An exception
    a handler lets escape ends the loop and propagates, as does a rejected
    [reader.read()] after the chunks read before it.  Returns the local value
    and the buffer left when the stream ends. *)
Definition line_step {A} (on_line : jsstr -> A -> M A)
    (cur : exc A * HookState) (line : jsstr) : exc A * HookState :=
  match cur with
  | (Ok a, st) => on_line line a st
  | (Throw e, st) => (Throw e, st)
  end.

Definition read_body {A} (on_line : jsstr -> A -> M A) (b : Body) (a : A) : M (A * jsstr) :=
  fun s =>
    let '((r, s'), buffer) := read_loop (line_step on_line) (Ok a, s) [] b.(chunks) in
    match r with
    | Throw e => (Throw e, s')
    | Ok a' =>
        match b.(read_error) with
        | None => (Ok (a', buffer), s')
        | Some e => (Throw e, s')
        end
    end.

End Message.

Arguments M {_} A.

(** ** The clock *)

Section Clock.
Context `{JsRuntime}.

(** The readings of [Date.now()], in the order of the calls. *)
Variable clock : nat -> Z.

(** [Date.now()] *)
Definition date_now : M Z := fun s => (Ok (clock s.(ticks)), tick_st s).

(** [`${prefix}-${Date.now()}`], the message ids of the hooks. *)
Definition fresh_id (prefix : jsstr) : M jsstr :=
  t ← date_now; mret (prefix ++ js "-" ++ dec_of_Z t).

(** [setMessages(prev => [...prev, { id: `error-${Date.now()}`, type: 'error',
    content: text }])] *)
Definition append_error (text : jsstr) : M unit :=
  i ← fresh_id (js "error");
  append_message (simple_message i TError (Some (JStr text))).

End Clock.

(** Unfold the monad's combinators and run the computation as far as it
    goes on the state at hand. *)
Ltac m_red :=
  cbv [mbind mret M_bind M_ret exc_bind exc_ret lift throw modify read
       try_catch try_finally setMessages append_message fresh_id date_now
       await_fetch json_parse get] in *;
  cbn [fst snd set_messages_st set_input_st set_loading_st send_st tick_st
       messages inputValue isLoading threadId sent ticks] in *.

(** ** Footprint: the part of the state a computation leaves alone *)

Section Footprint.
Context `{JsRuntime}.

(** The thread id and the requests sent: what the handling of a response
    never writes. *)
Definition env (s : HookState) : jsstr * list Request := (s.(threadId), s.(sent)).

Definition keeps_env {A} (m : M A) : Prop := forall s, env (m s).2 = env s.

Lemma keeps_ret {A} (a : A) : keeps_env (mret a).
Proof. done. Qed.

Lemma keeps_bind {A B} (m : M A) (f : A -> M B) :
  keeps_env m -> (forall a, keeps_env (f a)) -> keeps_env (m ≫= f).
Proof.
  intros Hm Hf s. cbv [mbind M_bind]. specialize (Hm s).
  destruct (m s) as [[a|e] s']; simpl in *; [by rewrite Hf|done].
Qed.

Lemma keeps_throw {A} e : keeps_env (throw (A:=A) e).
Proof. done. Qed.

Lemma keeps_lift {A} (r : exc A) : keeps_env (lift r).
Proof. done. Qed.

Lemma keeps_read {A} (f : HookState -> A) : keeps_env (read f).
Proof. done. Qed.

Lemma keeps_try_catch {A} (m : M A) h :
  keeps_env m -> (forall e, keeps_env (h e)) -> keeps_env (try_catch m h).
Proof.
  intros Hm Hh s. unfold try_catch. specialize (Hm s).
  destruct (m s) as [[a|e] s']; simpl in *; [done|by rewrite Hh].
Qed.

Lemma keeps_try_finally {A} (m : M A) f :
  keeps_env m -> keeps_env f -> keeps_env (try_finally m f).
Proof.
  intros Hm Hf s. unfold try_finally. specialize (Hm s).
  destruct (m s) as [r s']. specialize (Hf s'). destruct (f s'). simpl in *. congruence.
Qed.

Lemma keeps_setMessages f : keeps_env (setMessages f).
Proof. by intros []. Qed.

Lemma keeps_append_message m : keeps_env (append_message m).
Proof. by intros []. Qed.

Lemma keeps_set_loading b : keeps_env (modify (set_loading_st b)).
Proof. by intros []. Qed.

Lemma keeps_set_input v : keeps_env (modify (set_input_st v)).
Proof. by intros []. Qed.

Lemma keeps_await_fetch r : keeps_env (await_fetch r).
Proof. by destruct r. Qed.

Lemma keeps_check_response r : keeps_env (check_response r).
Proof.
  intros s. unfold check_response. destruct (ok r), (body r); try done;
    cbv [mbind M_bind lift throw]; repeat case_match; simplify_eq/=; done.
Qed.

Lemma keeps_date_now clock : keeps_env (date_now clock).
Proof. by intros []. Qed.

Lemma keeps_fresh_id clock p : keeps_env (fresh_id clock p).
Proof. apply keeps_bind; [apply keeps_date_now|intros; apply keeps_ret]. Qed.

Lemma keeps_append_error clock text : keeps_env (append_error clock text).
Proof. apply keeps_bind; [apply keeps_fresh_id|intros; apply keeps_append_message]. Qed.

Lemma keeps_read_body {A} (on_line : jsstr -> A -> M A) b a :
  (forall line a, keeps_env (on_line line a)) -> keeps_env (read_body on_line b a).
Proof.
  intros Hl s. unfold read_body.
  pose proof (read_loop_preserves (line_step on_line) (fun p => env p.2 = env s)
                (Ok a, s) [] (chunks b)) as Hp.
  destruct (read_loop _ _ _ _) as [[r s'] buffer]. simpl in Hp.
  assert (Hs' : env s' = env s).
  { apply Hp; [|done]. intros [[a'|e] st] line; simpl; [|done]. by rewrite Hl. }
  by destruct r; [destruct (read_error b)|].
Qed.

End Footprint.

Create HintDb footprint discriminated.
#[export] Hint Resolve keeps_ret keeps_throw keeps_lift keeps_read keeps_setMessages
  keeps_append_message keeps_set_loading keeps_set_input keeps_await_fetch
  keeps_check_response keeps_date_now keeps_fresh_id keeps_append_error : footprint.

(** Prove [keeps_env] of a computation built from the combinators. *)
Ltac keeps :=
  repeat match goal with
  | |- forall _, _ => intros
  | |- keeps_env (mbind _ _) => apply keeps_bind
  | |- keeps_env (try_catch _ _) => apply keeps_try_catch
  | |- keeps_env (try_finally _ _) => apply keeps_try_finally
  | |- keeps_env (read_body _ _ _) => apply keeps_read_body
  | |- keeps_env (match ?x with _ => _ end) => destruct x
  | |- keeps_env _ => solve [eauto with footprint]
  end.
