(* ===== verification/Events.v ===== *)
(** * Events: one wire line as the typed event it carries

    The specification splits the hooks into a StreamIngestor, which turns
    each line into a typed [ChatEvent], and a ConversationStore, which
    applies events to the message list.  The hooks do not have that split:
    they parse and dispatch inside one [try] block.  This file states the
    ingestor's half as a pure function, [decode_line], from a line to the
    event the hooks' dispatch on [data.type] sees; the hook files prove
    that their handlers are [decode_line] followed by a pure application
    of the event ([NoStream.ns_line_refines], [Stream.st_line_refines]).

    [EvMalformed] covers both ways the [try] block throws before dispatch:
    [JSON.parse] fails, or the line parses to [null] and reading
    [data.type] throws a [TypeError].  [EvOther] is a parsed value whose
    [type] is none of the five wire types (including a missing [type]). *)

From stdpp Require Import base list decidable.
From Stdlib Require Import ZArith Lia.
From S2P Require Import Prelude JsValue IntRuntime Message.

Section Events.
Context `{JsRuntime}.

Inductive ChatEvent :=
| EvToken (content : jsval)
| EvFinalResponse (content : jsval)
| EvToolOutput (tool_name tool_args output tool_call_id : jsval)
| EvAgentToolCall (tool_calls : jsval)
| EvError (content : jsval)
| EvOther (ty : jsval)
| EvMalformed.

(** [data.k] on a value that is not [null]. *)
Definition prop (v : value) (k : key) : jsval :=
  match v with
  | JObj fs => lookup_field (key_name k) fs
  | _ => None
  end.

Definition decode_value (data : value) : ChatEvent :=
  let ty := prop data KType in
  if is_str ty (js "token") then EvToken (prop data KContent)
  else if is_str ty (js "final_response") then EvFinalResponse (prop data KContent)
  else if is_str ty (js "tool_output") then
    EvToolOutput (prop data KToolName) (prop data KToolArgs)
                 (prop data KOutput) (prop data KToolCallId)
  else if is_str ty (js "agent_tool_call") then EvAgentToolCall (prop data KToolCalls)
  else if is_str ty (js "error") then EvError (prop data KContent)
  else EvOther ty.

Definition decode_line (line : jsstr) : ChatEvent :=
  match JSON_parse line with
  | None | Some JNull => EvMalformed
  | Some data => decode_value data
  end.

(** The value of [data.type] an event was decoded from. *)
Definition event_type (ev : ChatEvent) : jsval :=
  match ev with
  | EvToken _ => Some (JStr (js "token"))
  | EvFinalResponse _ => Some (JStr (js "final_response"))
  | EvToolOutput _ _ _ _ => Some (JStr (js "tool_output"))
  | EvAgentToolCall _ => Some (JStr (js "agent_tool_call"))
  | EvError _ => Some (JStr (js "error"))
  | EvOther ty => ty
  | EvMalformed => None
  end.

Lemma get_prop v k : v <> JNull -> get v k = Ok (prop v k).
Proof. by destruct v. Qed.

End Events.

(** ** Fixtures for the runs of the hook files *)

Definition clock0 (n : nat) : Z := 1700000000000 + Z.of_nat n.

Definition hook0 : HookState := mkHookState [] [] false (js "thread-1") [] 0.

Definition body_of (cs : list jsstr) : FetchResult :=
  Fetched (mkResponse 200 (Some (mkBody cs None)) (Throw (js "unused"))).

Definition tool_line : jsstr :=
  jq "{'type':'tool_output','tool_name':'weather-data','output':{'currentTemperature':21}}".
Definition final_line : jsstr := jq "{'type':'final_response','content':'It is 21 C'}".
