(* ===== verification/NoStream.v ===== *)
(** * NoStream: the [useChatNoStream] hook

    [src/src/hooks/useChatNoStream.ts], the hook [ChatUI.tsx] uses.  Every
    complete line of the response becomes one new message ([ns_line]: a
    message built from the parsed object by [line_message], or a
    "Failed to parse response" error); the text left in the buffer when
    the stream ends is handled by [ns_final] (with [final_message], which
    differs from [line_message] by the [context-retriever] guard);
    [sendMessage] is the whole handler: guard, user message, request,
    response checks, read loop, final buffer, [catch] and [finally]. *)

From stdpp Require Import base list decidable.
From Stdlib Require Import ZArith Lia.
From S2P Require Import Prelude JsValue LineBuffer Message Events IntRuntime.

Section NoStream.
Context `{JsRuntime}.
Variable clock : nat -> Z.

Definition ns_endpoint : jsstr := js "http://localhost:8000/ai/steve/v1/chat/no-stream".

(** Lines 81-96: [const newMessage = { id: `${data.type}-${Date.now()}`,
    type: data.type }] and the fields each [data.type] sets. *)
Definition line_message (data : value) : M ChatMessage :=
  ty ← lift (get data KType);
  i ← fresh_id clock (to_string ty);
  if is_str ty (js "final_response") then
    c ← lift (get data KContent);
    mret (simple_message i TAgent c)
  else if is_str ty (js "tool_output") then
    tn ← lift (get data KToolName);
    ta ← lift (get data KToolArgs);
    o ← lift (get data KOutput);
    tc ← lift (get data KToolCallId);
    mret (mkMessage i (msg_type_of ty) None tn ta o tc None)
  else if is_str ty (js "agent_tool_call") then
    calls ← lift (get data KToolCalls);
    mret (mkMessage i (msg_type_of ty) None None None None None calls)
  else if is_str ty (js "error") then
    c ← lift (get data KContent);
    mret (simple_message i (msg_type_of ty) (Some (JStr (js "Error: " ++ to_string c))))
  else mret (simple_message i (msg_type_of ty) None).

(** Lines 76-105: the body of the loop over complete lines. *)
Definition ns_line (line : jsstr) : M unit :=
  try_catch
    (data ← lift (json_parse line);
     m ← line_message data;
     append_message m)
    (fun _ => append_error clock (js "Failed to parse response: " ++ line)).

(** Lines 112-125: as [line_message], but a [tool_output] named
    [context-retriever] gets no tool fields. *)
Definition final_message (data : value) : M ChatMessage :=
  ty ← lift (get data KType);
  i ← fresh_id clock (to_string ty);
  if is_str ty (js "final_response") then
    c ← lift (get data KContent);
    mret (simple_message i TAgent c)
  else if is_str ty (js "tool_output") then
    tn ← lift (get data KToolName);
    if negb (is_str tn (js "context-retriever")) then
      ta ← lift (get data KToolArgs);
      o ← lift (get data KOutput);
      tc ← lift (get data KToolCallId);
      mret (mkMessage i (msg_type_of ty) None tn ta o tc None)
    else mret (simple_message i (msg_type_of ty) None)
  else if is_str ty (js "agent_tool_call") then
    calls ← lift (get data KToolCalls);
    mret (mkMessage i (msg_type_of ty) None None None None None calls)
  else if is_str ty (js "error") then
    c ← lift (get data KContent);
    mret (simple_message i (msg_type_of ty) (Some (JStr (js "Error: " ++ to_string c))))
  else mret (simple_message i (msg_type_of ty) None).

(** Lines 108-132: the buffer left when the stream ends. *)
Definition ns_final (buffer : jsstr) : M unit :=
  if is_blank buffer then mret tt
  else try_catch
         (data ← lift (json_parse buffer);
          m ← final_message data;
          append_message m)
         (fun _ => append_error clock (js "Failed to parse final response: " ++ buffer)).

(** Lines 30-141: [sendMessage(message)], given what [fetch] yields. *)
Definition sendMessage (message : jsstr) (resp : FetchResult) : M unit :=
  st ← read (fun s => s);
  if is_blank message || st.(isLoading) then mret tt
  else
    i ← fresh_id clock (js "user");
    append_message (simple_message i TUser (Some (JStr (trim message))));;
    modify (set_input_st []);;
    modify (set_loading_st true);;
    try_finally
      (try_catch
         (modify (send_st (mkRequest ns_endpoint (trim message) st.(threadId)));;
          r ← await_fetch resp;
          b ← check_response r;
          '(_, buffer) ← read_body (fun line _ => ns_line line) b tt;
          ns_final buffer)
         (fun e => append_error clock (js "Network or API error: " ++ e)))
      (modify (set_loading_st false)).

(** ** The pure reading of the handlers *)

(** The message [ns_line] ([final = false]) or [ns_final] ([final = true])
    appends for the event [ev] decoded from [raw], when [Date.now()]
    returns [t]. *)
Definition ns_message (final : bool) (ev : ChatEvent) (raw : jsstr) (t : Z) : ChatMessage :=
  let i := to_string (event_type ev) ++ js "-" ++ dec_of_Z t in
  match ev with
  | EvMalformed =>
      simple_message (js "error" ++ js "-" ++ dec_of_Z t) TError
        (Some (JStr ((if final then js "Failed to parse final response: "
                      else js "Failed to parse response: ") ++ raw)))
  | EvFinalResponse c => simple_message i TAgent c
  | EvToolOutput n a o cid =>
      if final && is_str n (js "context-retriever")
      then simple_message i TToolOutput None
      else mkMessage i TToolOutput None n a o cid None
  | EvAgentToolCall calls => mkMessage i TAgentToolCall None None None None None calls
  | EvError c => simple_message i TError (Some (JStr (js "Error: " ++ to_string c)))
  | EvToken _ | EvOther _ => simple_message i (msg_type_of (event_type ev)) None
  end.

(** Append [ms] and count [n] [Date.now()] calls. *)
Definition add_st (ms : list ChatMessage) (n : nat) (st : HookState) : HookState :=
  mkHookState (st.(messages) ++ ms) st.(inputValue) st.(isLoading) st.(threadId)
              st.(sent) (n + st.(ticks)).

Definition push (m : ChatMessage) (st : HookState) : HookState := add_st [m] 1 st.

(** The messages the loop appends for [lines], the first [Date.now()] call
    being the [k]-th: one per non-blank line, in order. *)
Fixpoint ns_messages (lines : list jsstr) (k : nat) : list ChatMessage :=
  match lines with
  | [] => []
  | l :: ls =>
      if is_blank l then ns_messages ls k
      else ns_message false (decode_line l) l (clock k) :: ns_messages ls (S k)
  end.

Definition nonblank (lines : list jsstr) : list jsstr := List.filter (fun l => negb (is_blank l)) lines.

(** The error message the outer [catch] appends. *)
Definition net_error (e : jsstr) (k : nat) : ChatMessage :=
  simple_message (js "error" ++ js "-" ++ dec_of_Z (clock k)) TError
    (Some (JStr (js "Network or API error: " ++ e))).

(** The messages a response body adds, the first [Date.now()] call being
    the [k]-th: one per non-blank complete line, then either the error of a
    failed [reader.read()] or the message of a non-blank final buffer. *)
Definition ns_body_messages (b : Body) (k : nat) : list ChatMessage :=
  let '(lines, rest) := pop_last (split_nl (concat b.(chunks))) in
  let n := List.length (nonblank lines) in
  ns_messages lines k ++
  match b.(read_error) with
  | Some e => [net_error e (n + k)]
  | None => if is_blank rest then [] else [ns_message true (decode_line rest) rest (clock (n + k))]
  end.

(** The message of the [Error] thrown for a response that is not ok or has
    no body. *)
Definition http_error_text (r : Response) (errorData : value) : jsstr :=
  js "HTTP error! status: " ++ dec_of_Z r.(status) ++ js ", detail: "
  ++ to_string (js_or (prop errorData KDetail) (Some (JStr (js "Unknown error")))).

(** Everything [sendMessage] appends after the user's message. *)
Definition ns_response_messages (resp : FetchResult) (k : nat) : list ChatMessage :=
  match resp with
  | FetchRejected e => [net_error e k]
  | Fetched r =>
      match ok r, r.(body) with
      | true, Some b => ns_body_messages b k
      | _, _ =>
          match r.(json_result) with
          | Throw e => [net_error e k]
          | Ok JNull => [net_error (null_read_message (key_name KDetail)) k]
          | Ok errorData => [net_error (http_error_text r errorData) k]
          end
      end
  end.

(** The user's message and the request of a send. *)
Definition user_message (message : jsstr) (k : nat) : ChatMessage :=
  simple_message (js "user" ++ js "-" ++ dec_of_Z (clock k)) TUser (Some (JStr (trim message))).

Definition ns_request (message : jsstr) (st : HookState) : Request :=
  mkRequest ns_endpoint (trim message) st.(threadId).

(** ** Every line and the final buffer add exactly one message *)

(** The proof of [ns_line_refines], shared with the lemmas that use it. *)
Lemma ns_line_apply line st :
  ns_line line st = (Ok tt, push (ns_message false (decode_line line) line (clock st.(ticks))) st).
Proof.
  unfold ns_line, line_message, append_error, json_parse, decode_line, decode_value.
  destruct (JSON_parse line) as [data|]; [destruct data|]; m_red; try reflexivity.
  repeat case_match; simplify_eq/=; subst_is_str; reflexivity.
Qed.

(** C10: The no-stream line handler is decoding the line into a typed event
    followed by appending the one message the event determines (an error
    message when the line is not JSON or is null). *)
Lemma ns_line_refines line st :
  ns_line line st = (Ok tt, push (ns_message false (decode_line line) line (clock st.(ticks))) st).
Proof. exact (ns_line_apply line st). Qed.

(** The proof of [ns_final_refines], shared with the lemmas that use it. *)
Lemma ns_final_apply buffer st :
  ns_final buffer st =
  (Ok tt, if is_blank buffer then st
          else push (ns_message true (decode_line buffer) buffer (clock st.(ticks))) st).
Proof.
  unfold ns_final. destruct (is_blank buffer); [reflexivity|].
  unfold final_message, append_error, json_parse, decode_line, decode_value.
  destruct (JSON_parse buffer) as [data|]; [destruct data|]; m_red; try reflexivity.
  repeat case_match; simplify_eq/=; subst_is_str; reflexivity.
Qed.

(** C27: The no-stream final-buffer handler is decoding the buffer and
    appending the message the event determines, with tool outputs of the
    context-retriever tool stripped of their fields. *)
Lemma ns_final_refines buffer st :
  ns_final buffer st =
  (Ok tt, if is_blank buffer then st
          else push (ns_message true (decode_line buffer) buffer (clock st.(ticks))) st).
Proof. exact (ns_final_apply buffer st). Qed.

Lemma add_st_app ms1 ms2 n1 n2 st :
  add_st ms2 n2 (add_st ms1 n1 st) = add_st (ms1 ++ ms2) (n2 + n1) st.
Proof. unfold add_st. simpl. by rewrite <- app_assoc, Nat.add_assoc. Qed.

Lemma add_st_nil st : add_st [] 0 st = st.
Proof. destruct st. unfold add_st. simpl. by rewrite app_nil_r. Qed.

(** The loop over complete lines appends [ns_messages] and reads the clock
    once per non-blank line. *)
Lemma ns_handle_lines st lines :
  handle_lines (line_step (fun l _ => ns_line l)) (Ok tt, st) lines =
  (Ok tt, add_st (ns_messages lines st.(ticks)) (List.length (nonblank lines)) st).
Proof.
  revert st. induction lines as [|l ls IH]; intros st; simpl.
  - by rewrite add_st_nil.
  - unfold handle_lines, nonblank in *. simpl. destruct (is_blank l); simpl.
    + apply IH.
    + rewrite ns_line_apply. simpl. rewrite IH.
      unfold push. rewrite add_st_app. simpl. do 2 f_equal. lia.
Qed.

Lemma ns_read_body b st :
  read_body (fun l _ => ns_line l) b tt st =
  (match b.(read_error) with
   | None => Ok (tt, (pop_last (split_nl (concat b.(chunks)))).2)
   | Some e => Throw e
   end,
   add_st (ns_messages (pop_last (split_nl (concat b.(chunks)))).1 st.(ticks))
          (List.length (nonblank (pop_last (split_nl (concat b.(chunks)))).1)) st).
Proof.
  unfold read_body. rewrite read_loop_split by constructor. simpl.
  rewrite ns_handle_lines. by destruct (read_error b).
Qed.

(** The proof of [ns_sendMessage_spec], shared with the lemmas that use it. *)
Lemma ns_sendMessage_run message resp st :
  st.(isLoading) = false -> is_blank message = false ->
  let st' := (sendMessage message resp st).2 in
  st'.(messages) = st.(messages) ++ user_message message st.(ticks)
                   :: ns_response_messages resp (S st.(ticks)) /\
  st'.(isLoading) = false /\ st'.(inputValue) = [] /\
  st'.(sent) = st.(sent) ++ [ns_request message st] /\ st'.(threadId) = st.(threadId).
Proof.
  intros Hl Hb. unfold sendMessage, append_error. m_red. rewrite Hl, Hb.
  cbv [orb]. destruct resp as [e|r]; m_red.
  - split_and!; try done. by rewrite <- app_assoc.
  - unfold check_response, ns_response_messages.
    destruct (ok r), (body r) as [b|]; m_red.
    1: { rewrite ns_read_body. unfold ns_body_messages.
      destruct (pop_last (split_nl (concat (chunks b)))) as [lines rest].
      destruct (read_error b); m_red; [|rewrite ns_final_apply; destruct (is_blank rest)];
        unfold push, add_st; m_red; split_and!; try done;
        by rewrite <- ?app_assoc, ?app_nil_r. }
    all: destruct (json_result r) as [[]|e]; m_red; unfold http_error_text, prop;
        split_and!; try done; by rewrite <- ?app_assoc.
Qed.

(** C2: A non-blank message sent while not loading appends the trimmed user
    message and then exactly the messages the response determines (one
    per non-blank line, the final buffer, or one error), clears the
    input, records one request with the session's thread id, and ends
    with isLoading false. *)
Theorem ns_sendMessage_spec message resp st :
  st.(isLoading) = false -> is_blank message = false ->
  let st' := (sendMessage message resp st).2 in
  st'.(messages) = st.(messages) ++ user_message message st.(ticks)
                   :: ns_response_messages resp (S st.(ticks)) /\
  st'.(isLoading) = false /\ st'.(inputValue) = [] /\
  st'.(sent) = st.(sent) ++ [ns_request message st] /\ st'.(threadId) = st.(threadId).
Proof. exact (ns_sendMessage_run message resp st). Qed.

(** The proof of [ns_sendMessage_ignored], shared with the lemmas that use it. *)
Lemma ns_sendMessage_noop message resp st :
  is_blank message = true \/ st.(isLoading) = true ->
  sendMessage message resp st = (Ok tt, st).
Proof.
  intros Hg. unfold sendMessage. m_red.
  by destruct Hg as [-> | ->]; [| rewrite orb_true_r].
Qed.

(** C20: A blank message, or any message while loading, leaves the hook's
    state unchanged and sends nothing. *)
Theorem ns_sendMessage_ignored message resp st :
  is_blank message = true \/ st.(isLoading) = true ->
  sendMessage message resp st = (Ok tt, st).
Proof. exact (ns_sendMessage_noop message resp st). Qed.

(** The prefix of the id of the message an event gives. *)
Definition id_prefix (ev : ChatEvent) : jsstr :=
  match ev with EvMalformed => js "error" | _ => to_string (event_type ev) end.

Lemma ns_message_id final ev raw t :
  id (ns_message final ev raw t) = id_prefix ev ++ js "-" ++ dec_of_Z t.
Proof. destruct ev; simpl; try reflexivity. by case_match. Qed.

(** C25: Two non-blank lines handled one after the other whose events share an
    id prefix get the same id when [Date.now()] returns the same
    millisecond for both. *)
Theorem ns_duplicate_ids l1 l2 st :
  is_blank l1 = false -> is_blank l2 = false ->
  id_prefix (decode_line l1) = id_prefix (decode_line l2) ->
  clock st.(ticks) = clock (S st.(ticks)) ->
  exists m1 m2,
    (handle_lines (line_step (fun l _ => ns_line l)) (Ok tt, st) [l1; l2]).2.(messages)
      = st.(messages) ++ [m1; m2] /\ m1.(id) = m2.(id).
Proof.
  intros Hb1 Hb2 Hp Hc. rewrite ns_handle_lines. simpl. rewrite Hb1, Hb2.
  do 2 eexists. split; [reflexivity|].
  by rewrite !ns_message_id, Hp, Hc.
Qed.

(** C26: A line whose [type] is none of the wire types is not reported as an
    error: it becomes a message of that [type] with no content. *)
Theorem ns_unknown_type_message line ty st :
  decode_line line = EvOther ty ->
  (ns_line line st).2.(messages) =
  st.(messages) ++ [simple_message (to_string ty ++ js "-" ++ dec_of_Z (clock st.(ticks)))
                                   (msg_type_of ty) None].
Proof. intros He. by rewrite ns_line_apply, He. Qed.

End NoStream.

(** ** Runs on concrete lines *)

Section Runs.

(** Specification scenario 6: one final response gives one agent message
    with its text, after the user's message, and loading is over. *)
Example ns_scenario_final :
  let st := (sendMessage clock0 (js "Hello")
               (body_of [jq "{'type':'final_response','content':'Hi there'}"]) hook0).2 in
  map type st.(messages) = [TUser; TAgent] /\
  map content st.(messages) = [Some (JStr (js "Hello")); Some (JStr (js "Hi there"))] /\
  st.(isLoading) = false.
Proof. split_and!; reflexivity. Qed.

(** Specification scenario 7, with the second line split across two chunks:
    a tool-output message for [weather-data], then the agent's text. *)
Example ns_scenario_tool_then_final :
  let st := (sendMessage clock0 (js "weather?")
               (body_of [tool_line ++ [NL] ++ take 20 final_line; drop 20 final_line]) hook0).2 in
  map type st.(messages) = [TUser; TToolOutput; TAgent] /\
  map toolName st.(messages) = [None; Some (JStr (js "weather-data")); None] /\
  map content st.(messages) = [Some (JStr (js "weather?")); None; Some (JStr (js "It is 21 C"))].
Proof. split_and!; reflexivity. Qed.

Lemma ns_sendMessage_spec_witness :
  isLoading hook0 = false /\ is_blank (js "Hello") = false /\
  (let st' := (sendMessage clock0 (js "Hello") (body_of [final_line]) hook0).2 in
   st'.(messages) = hook0.(messages) ++ user_message clock0 (js "Hello") hook0.(ticks)
                    :: ns_response_messages clock0 (body_of [final_line]) (S hook0.(ticks)) /\
   st'.(isLoading) = false /\ st'.(inputValue) = [] /\
   st'.(sent) = hook0.(sent) ++ [ns_request (js "Hello") hook0] /\
   st'.(threadId) = hook0.(threadId)).
Proof.
  split; [reflexivity|]. split; [reflexivity|].
  exact (ns_sendMessage_spec clock0 (js "Hello") (body_of [final_line]) hook0 eq_refl eq_refl).
Defined.

Lemma ns_sendMessage_ignored_witness :
  (is_blank (js "   ") = true \/ hook0.(isLoading) = true) /\
  sendMessage clock0 (js "   ") (body_of [final_line]) hook0 = (Ok tt, hook0).
Proof.
  split; [left; reflexivity|].
  exact (ns_sendMessage_ignored clock0 (js "   ") (body_of [final_line]) hook0 (or_introl eq_refl)).
Defined.

Lemma ns_duplicate_ids_witness :
  is_blank (js "oops") = false /\ is_blank (js "bad!") = false /\
  id_prefix (decode_line (js "oops")) = id_prefix (decode_line (js "bad!")) /\
  (fun _ : nat => 5%Z) hook0.(ticks) = (fun _ : nat => 5%Z) (S hook0.(ticks)) /\
  exists m1 m2,
    (handle_lines (line_step (fun l _ => ns_line (fun _ => 5%Z) l)) (Ok tt, hook0)
       [js "oops"; js "bad!"]).2.(messages)
      = hook0.(messages) ++ [m1; m2] /\ m1.(id) = m2.(id).
Proof.
  split; [reflexivity|]. split; [reflexivity|]. split; [reflexivity|].
  split; [reflexivity|].
  exact (ns_duplicate_ids (fun _ => 5%Z) (js "oops") (js "bad!") hook0
           eq_refl eq_refl eq_refl eq_refl).
Defined.

Lemma ns_unknown_type_message_witness :
  decode_line (jq "{'type':'bogus'}") = EvOther (Some (JStr (js "bogus"))) /\
  (ns_line clock0 (jq "{'type':'bogus'}") hook0).2.(messages) =
  hook0.(messages) ++ [simple_message (to_string (Some (JStr (js "bogus"))) ++ js "-"
                                        ++ dec_of_Z (clock0 hook0.(ticks)))
                                     (msg_type_of (Some (JStr (js "bogus")))) None].
Proof.
  split; [reflexivity|].
  exact (ns_unknown_type_message clock0 (jq "{'type':'bogus'}") (Some (JStr (js "bogus"))) hook0
           eq_refl).
Defined.

End Runs.
