(* ===== verification/Typing.v ===== *)
(** * Typing: the hook's messages against [interface ChatMessage]

    [useChatNoStream.ts] lines 3-12 declare what a message is: an [id]
    string, a [type] among five literals, an optional string [content],
    [toolName] and [toolCallId], and optional [toolCalls], an array of
    objects with a string [name].  The declaration is only checked at
    compile time: the hook stores what [JSON.parse] returns ([any]), so
    at run time a message conforms to its type only when the server sent
    fields of the types the wire format gives.  [msg_conforms] is the
    declared type as a run-time check; [event_typed] is the wire format of
    the no-stream endpoint (section 3 of the specification: the four
    event types, string [content], [tool_name] and [tool_call_id], and
    tool calls with a string [name]).  The theorem [sendMessage_well_typed]
    is the type-preservation statement: from well-typed state and a
    well-typed response, [sendMessage] leaves only well-typed messages. *)

From stdpp Require Import base list decidable.
From Stdlib Require Import ZArith Lia.
From S2P Require Import Prelude JsValue IntRuntime LineBuffer Message Events NoStream.

Section Typing.
Context `{JsRuntime}.
Variable clock : nat -> Z.

(** ** The declared type *)

(** [?: string]: absent or a string. *)
Definition opt_str (v : jsval) : bool :=
  match v with None | Some (JStr _) => true | _ => false end.

(** [{ name: string; args: any }] *)
Definition tool_call_typed (v : value) : bool :=
  match prop v KName with Some (JStr _) => true | _ => false end.

(** [toolCalls?: Array<{ name: string; args: any }>] *)
Definition calls_typed (v : jsval) : bool :=
  match v with
  | None => true
  | Some (JArr items) => forallb tool_call_typed items
  | _ => false
  end.

(** [type: 'user' | 'agent' | 'tool_output' | 'agent_tool_call' | 'error'] *)
Definition known_type (t : msg_type) : bool :=
  match t with TOther _ => false | _ => true end.

(** [interface ChatMessage] (lines 3-12) as a check on a run-time value;
    [id] is a string by construction, [toolArgs] and [output] are [any]. *)
Definition msg_conforms (m : ChatMessage) : bool :=
  known_type m.(type) && opt_str m.(content) && opt_str m.(toolName) &&
  opt_str m.(toolCallId) && calls_typed m.(toolCalls).

(** ** The wire format *)

(** A line of the no-stream reply as the wire format types it; a line
    that is not JSON is handled by the code and counts as typed. *)
Definition event_typed (ev : ChatEvent) : bool :=
  match ev with
  | EvFinalResponse c => opt_str c
  | EvToolOutput n _ _ cid => opt_str n && opt_str cid
  | EvAgentToolCall calls => calls_typed calls
  | EvError _ | EvMalformed => true
  | EvToken _ | EvOther _ => false
  end.

Definition line_typed (l : jsstr) : bool := is_blank l || event_typed (decode_line l).

(** Every line of the body, the final buffer included, is typed. *)
Definition body_typed (b : Body) : bool :=
  let '(lines, rest) := pop_last (split_nl (concat b.(chunks))) in
  forallb line_typed lines && line_typed rest.

Definition resp_typed (resp : FetchResult) : bool :=
  match resp with
  | Fetched r => match ok r, r.(body) with true, Some b => body_typed b | _, _ => true end
  | FetchRejected _ => true
  end.

(** ** Lemmas *)

Definition all_conform (ms : list ChatMessage) : Prop := Forall (fun m => msg_conforms m = true) ms.

Lemma ns_message_conforms final ev raw t :
  event_typed ev = true -> msg_conforms (ns_message final ev raw t) = true.
Proof.
  unfold ns_message, msg_conforms. intros Hev.
  destruct ev; cbn in Hev; try done; rewrite ?andb_true_iff in Hev; destruct_and?;
    cbn -[is_str]; try case_match; cbn;
    repeat match goal with H : ?b = true |- _ => rewrite H; clear H end; by rewrite ?andb_true_r.
Qed.

Lemma net_error_conforms e k : msg_conforms (net_error clock e k) = true.
Proof. done. Qed.

Lemma user_message_conforms m k : msg_conforms (user_message clock m k) = true.
Proof. done. Qed.

Lemma ns_messages_conform lines k :
  forallb line_typed lines = true -> all_conform (ns_messages clock lines k).
Proof.
  revert k. induction lines as [|l ls IH]; intros k Ht; cbn in *; [constructor|].
  apply andb_true_iff in Ht as [Hl Hls]. unfold line_typed in Hl.
  destruct (is_blank l); [by apply IH|]. constructor; [|by apply IH].
  by apply ns_message_conforms.
Qed.

Lemma ns_response_messages_conform resp k :
  resp_typed resp = true -> all_conform (ns_response_messages clock resp k).
Proof.
  unfold resp_typed, ns_response_messages. intros Ht.
  destruct resp as [e|r]; [repeat constructor|].
  destruct (ok r), (body r) as [b|];
    [| (destruct (json_result r) as [[]|]; repeat constructor)..].
  unfold ns_body_messages, body_typed in *.
  destruct (pop_last _) as [lines rest]. apply andb_true_iff in Ht as [Hls Hr].
  apply Forall_app. split; [by apply ns_messages_conform|].
  destruct (read_error b); [repeat constructor|]. unfold line_typed in Hr.
  destruct (is_blank rest); [constructor|]. constructor; [|constructor].
  by apply ns_message_conforms.
Qed.

(** ** Type preservation *)

(** C34: [sendMessage] preserves the declared type of the messages: when
    every message already stored conforms to [interface ChatMessage] and
    every line of the response has the types of the wire format, every
    message stored afterwards conforms, the user's message, the error
    messages of every failure path and the messages of the lines
    included. *)
Theorem sendMessage_well_typed message resp st :
  all_conform st.(messages) -> resp_typed resp = true ->
  all_conform (sendMessage clock message resp st).2.(messages).
Proof.
  intros Hs Hr.
  destruct (is_blank message || isLoading st) eqn:E.
  - rewrite ns_sendMessage_noop; [done|]. apply orb_true_iff in E. tauto.
  - apply orb_false_iff in E as [Eb El].
    destruct (ns_sendMessage_run clock message resp st El Eb) as [-> _].
    apply Forall_app. split; [done|]. constructor; [done|].
    by apply ns_response_messages_conform.
Qed.

End Typing.

Section Runs.

(** A reply with a tool output and the final answer is well typed. *)
Lemma sendMessage_well_typed_witness :
  all_conform (sendMessage clock0 (js "Hi") (body_of [tool_line ++ [NL] ++ final_line]) hook0).2.(messages).
Proof.
  apply sendMessage_well_typed; [constructor | vm_compute; reflexivity].
Defined.

End Runs.
