(* ===== verification/Stream.v ===== *)
(** * Stream: the [useChatStream] hook

    [src/src/hooks/useChatStream.ts].  Unlike the no-stream hook, this one
    appends one empty agent message per turn (the placeholder, id
    [agent-<t>]) and then rewrites every message carrying that id as events
    arrive ([update_agent]): [token] appends to the local
    [agentMessageContent] with JavaScript [+], [final_response] replaces it
    with [data.content || ''], [tool_output] and [agent_tool_call] turn the
    placeholder into a tool message (keeping its content), [error] and
    unparsable lines append an error message, any other [type] is ignored
    ([st_line]).  The buffer left at the end is handled by [st_final], which
    only knows [final_response] and appends its content with [+=].
    [st_apply] is the pure reading of one line, and [st_line_refines] shows
    the handler computes it. *)

From stdpp Require Import base list decidable.
From Stdlib Require Import ZArith Lia.
From S2P Require Import Prelude JsValue IntRuntime LineBuffer Message Events.

(** The hook's definitions are named as in the source; the module keeps
    [sendMessage] apart from the one of [useChatNoStream]. *)
Module UseChatStream.

Section Stream.
Context `{JsRuntime}.
Variable clock : nat -> Z.

Definition st_endpoint : jsstr := js "http://localhost:8000/ai/steve/v1/chat/stream-tokens".

(** [prev.map(msg => msg.id === agentMessageId ? f(msg) : msg)] *)
Definition map_agent (aid : jsstr) (f : ChatMessage -> ChatMessage) (msgs : list ChatMessage) :=
  map (fun m => if bool_decide (m.(id) = aid) then f m else m) msgs.

Definition update_agent (aid : jsstr) (f : ChatMessage -> ChatMessage) : M unit :=
  setMessages (map_agent aid f).

(** [{ ...msg, type: 'tool_output', toolName, toolArgs, output, toolCallId }] *)
Definition to_tool_output (tn ta o tc : jsval) (m : ChatMessage) : ChatMessage :=
  mkMessage m.(id) TToolOutput m.(content) tn ta o tc m.(toolCalls).

(** [{ ...msg, type: 'agent_tool_call', toolCalls }] *)
Definition to_tool_call (calls : jsval) (m : ChatMessage) : ChatMessage :=
  mkMessage m.(id) TAgentToolCall m.(content) m.(toolName) m.(toolArgs) m.(output)
            m.(toolCallId) calls.

(** Lines 80-141: one complete line; [acc] is [agentMessageContent]. *)
Definition st_line (aid : jsstr) (line : jsstr) (acc : jsval) : M jsval :=
  try_catch
    (data ← lift (json_parse line);
     ty ← lift (get data KType);
     if is_str ty (js "token") then
       c ← lift (get data KContent);
       let acc' := Some (js_add acc c) in
       update_agent aid (with_content acc');;
       mret acc'
     else if is_str ty (js "final_response") then
       c ← lift (get data KContent);
       let acc' := js_or c (Some (JStr [])) in
       update_agent aid (with_content acc');;
       mret acc'
     else if is_str ty (js "tool_output") then
       tn ← lift (get data KToolName);
       ta ← lift (get data KToolArgs);
       o ← lift (get data KOutput);
       tc ← lift (get data KToolCallId);
       update_agent aid (to_tool_output tn ta o tc);;
       mret acc
     else if is_str ty (js "agent_tool_call") then
       calls ← lift (get data KToolCalls);
       update_agent aid (to_tool_call calls);;
       mret acc
     else if is_str ty (js "error") then
       c ← lift (get data KContent);
       append_error clock (js "Error: " ++ to_string c);;
       mret acc
     else mret acc)
    (fun _ => append_error clock (js "Failed to parse response: " ++ line);; mret acc).

(** Lines 144-163: the buffer left when the stream ends. *)
Definition st_final (aid : jsstr) (buffer : jsstr) (acc : jsval) : M unit :=
  if is_blank buffer then mret tt
  else
    try_catch
      (data ← lift (json_parse buffer);
       ty ← lift (get data KType);
       if is_str ty (js "final_response") then
         c ← lift (get data KContent);
         let acc' := Some (js_add acc (js_or c (Some (JStr [])))) in
         update_agent aid (with_content acc')
       else mret tt)
      (fun _ => append_error clock (js "Failed to parse final response: " ++ buffer)).

(** Lines 30-172: [sendMessage(message)], given what [fetch] yields. *)
Definition sendMessage (message : jsstr) (resp : FetchResult) : M unit :=
  st ← read (fun s => s);
  if is_blank message || st.(isLoading) then mret tt
  else
    i ← fresh_id clock (js "user");
    append_message (simple_message i TUser (Some (JStr (trim message))));;
    modify (set_input_st []);;
    modify (set_loading_st true);;
    try_finally
      (try_catch
         (modify (send_st (mkRequest st_endpoint (trim message) st.(threadId)));;
          r ← await_fetch resp;
          b ← check_response r;
          aid ← fresh_id clock (js "agent");
          append_message (simple_message aid TAgent (Some (JStr [])));;
          '(acc, buffer) ← read_body (st_line aid) b (Some (JStr []));
          st_final aid buffer acc)
         (fun e => append_error clock (js "Network or API error: " ++ e)))
      (modify (set_loading_st false)).

(** ** The pure reading of a line *)

Definition error_message (text : jsstr) (t : Z) : ChatMessage :=
  simple_message (js "error" ++ js "-" ++ dec_of_Z t) TError (Some (JStr text)).

(** The messages and the new [agentMessageContent] after the event [ev]
    decoded from [raw], when [Date.now()] would return [t]. *)
Definition st_apply (aid : jsstr) (ev : ChatEvent) (raw : jsstr) (acc : jsval) (t : Z)
    (msgs : list ChatMessage) : list ChatMessage * jsval :=
  match ev with
  | EvToken c => let acc' := Some (js_add acc c) in (map_agent aid (with_content acc') msgs, acc')
  | EvFinalResponse c =>
      let acc' := js_or c (Some (JStr [])) in (map_agent aid (with_content acc') msgs, acc')
  | EvToolOutput n a o cid => (map_agent aid (to_tool_output n a o cid) msgs, acc)
  | EvAgentToolCall calls => (map_agent aid (to_tool_call calls) msgs, acc)
  | EvError c => (msgs ++ [error_message (js "Error: " ++ to_string c) t], acc)
  | EvOther _ => (msgs, acc)
  | EvMalformed => (msgs ++ [error_message (js "Failed to parse response: " ++ raw) t], acc)
  end.

(** Whether handling the event reads [Date.now()]. *)
Definition st_reads_clock (ev : ChatEvent) : nat :=
  match ev with EvError _ | EvMalformed => 1 | _ => 0 end.

Definition with_messages (msgs : list ChatMessage) (n : nat) (st : HookState) : HookState :=
  mkHookState msgs st.(inputValue) st.(isLoading) st.(threadId) st.(sent) (n + st.(ticks)).

(** The proof of [st_line_refines], shared with the lemmas that use it. *)
Lemma st_line_apply aid line acc st :
  st_line aid line acc st =
  let '(msgs, acc') := st_apply aid (decode_line line) line acc (clock st.(ticks)) st.(messages) in
  (Ok acc', with_messages msgs (st_reads_clock (decode_line line)) st).
Proof.
  destruct st as [ms iv ld th sn tk].
  unfold st_line, append_error, update_agent, json_parse, decode_line, decode_value.
  destruct (JSON_parse line) as [data|]; [destruct data|]; m_red; try reflexivity.
  repeat case_match; simplify_eq/=; subst_is_str; reflexivity.
Qed.

(** C11: The streaming line handler is decoding the line into a typed event
    followed by a pure update of the message list and of the accumulated
    agent text. *)
Lemma st_line_refines aid line acc st :
  st_line aid line acc st =
  let '(msgs, acc') := st_apply aid (decode_line line) line acc (clock st.(ticks)) st.(messages) in
  (Ok acc', with_messages msgs (st_reads_clock (decode_line line)) st).
Proof. exact (st_line_apply aid line acc st). Qed.

Lemma st_final_refines aid buffer acc st :
  st_final aid buffer acc st =
  (Ok tt,
   if is_blank buffer then st
   else match decode_line buffer with
        | EvFinalResponse c =>
            with_messages (map_agent aid (with_content (Some (js_add acc (js_or c (Some (JStr []))))))
                                     st.(messages)) 0 st
        | EvMalformed =>
            with_messages (st.(messages) ++ [error_message (js "Failed to parse final response: "
                                                            ++ buffer) (clock st.(ticks))]) 1 st
        | _ => st
        end).
Proof.
  destruct st as [ms iv ld th sn tk].
  unfold st_final. destruct (is_blank buffer); [reflexivity|].
  unfold append_error, update_agent, json_parse, decode_line, decode_value.
  destruct (JSON_parse buffer) as [data|]; [destruct data|]; m_red; try reflexivity.
  repeat case_match; simplify_eq/=; subst_is_str; reflexivity.
Qed.

(** ** Rewriting the placeholder *)

Lemma map_agent_compose aid f g msgs :
  (forall m, (g m).(id) = m.(id)) ->
  map_agent aid f (map_agent aid g msgs) = map_agent aid (fun m => f (g m)) msgs.
Proof.
  intros Hg. unfold map_agent. rewrite map_map. apply map_ext. intros m.
  destruct (decide (m.(id) = aid)) as [E|E].
  - rewrite (bool_decide_eq_true_2 _ E), bool_decide_eq_true_2; [done|]. by rewrite Hg.
  - by rewrite !(bool_decide_eq_false_2 _ E).
Qed.

Lemma with_content_twice x y m : with_content x (with_content y m) = with_content x m.
Proof. reflexivity. Qed.

Lemma js_add_str a b : js_add (Some (JStr a)) (Some (JStr b)) = JStr (a ++ b).
Proof. reflexivity. Qed.

(** Token lines with string contents [toks] append their texts, in order,
    to the placeholder's content. *)
Theorem st_tokens_accumulate aid st a lines toks :
  Forall2 (fun l t => is_blank l = false /\ decode_line l = EvToken (Some (JStr t))) lines toks ->
  handle_lines (line_step (st_line aid)) (Ok (Some (JStr a)), st) lines =
  (Ok (Some (JStr (a ++ concat toks))),
   with_messages (match toks with
                  | [] => st.(messages)
                  | _ => map_agent aid (with_content (Some (JStr (a ++ concat toks)))) st.(messages)
                  end) 0 st).
Proof.
  intros Hf. revert a st. induction Hf as [|l t ls ts [Hb Hd] Hf IH]; intros a st.
  - destruct st. by rewrite app_nil_r.
  - unfold handle_lines. simpl. rewrite Hb. simpl. rewrite st_line_apply, Hd. simpl.
    change (fold_left _ ls ?x) with (handle_lines (line_step (st_line aid)) x ls).
    rewrite js_add_str, IH.
    rewrite <- app_assoc. destruct ts; simpl; [by rewrite app_nil_r|].
    rewrite map_agent_compose by done. reflexivity.
Qed.

Lemma js_or_str f : js_or (Some (JStr f)) (Some (JStr [])) = Some (JStr f).
Proof. unfold js_or. simpl. case_bool_decide; [done|]. by destruct f. Qed.

(** C22: A [tool_output] event turns the placeholder into a tool message; the
    [final_response] that follows sets the content of that same message, so
    the turn ends with no agent message. *)
Theorem st_tool_output_absorbs_final aid st acc l1 l2 n a o cid c :
  is_blank l1 = false -> is_blank l2 = false ->
  decode_line l1 = EvToolOutput n a o cid -> decode_line l2 = EvFinalResponse c ->
  handle_lines (line_step (st_line aid)) (Ok acc, st) [l1; l2] =
  (Ok (js_or c (Some (JStr []))),
   with_messages (map_agent aid (fun m => with_content (js_or c (Some (JStr [])))
                                           (to_tool_output n a o cid m)) st.(messages)) 0 st).
Proof.
  intros Hb1 Hb2 Hd1 Hd2. unfold handle_lines. simpl. rewrite Hb1, Hb2. simpl.
  rewrite st_line_apply, Hd1. simpl. rewrite st_line_apply, Hd2. simpl.
  by rewrite map_agent_compose.
Qed.

(** The same [final_response] line replaces the accumulated text when it is
    newline-terminated, but is appended to it when it is the unterminated
    last line of the stream. *)
Theorem st_final_response_appends aid st prev f line :
  decode_line line = EvFinalResponse (Some (JStr f)) -> is_blank line = false ->
  (st_line aid line (Some (JStr prev)) st).2.(messages)
    = map_agent aid (with_content (Some (JStr f))) st.(messages) /\
  (st_final aid line (Some (JStr prev)) st).2.(messages)
    = map_agent aid (with_content (Some (JStr (prev ++ f)))) st.(messages).
Proof.
  intros Hd Hb. rewrite st_line_apply, st_final_refines, Hd, Hb. simpl.
  by rewrite js_or_str.
Qed.

(** An [error] event is reported when it arrives on a complete line, and
    dropped without trace when it is the unterminated last line. *)
Theorem st_final_drops_error aid st acc line c :
  decode_line line = EvError c ->
  (st_line aid line acc st).2.(messages)
    = st.(messages) ++ [error_message (js "Error: " ++ to_string c) (clock st.(ticks))] /\
  (st_final aid line acc st).2 = st.
Proof.
  intros Hd. rewrite st_line_apply, st_final_refines, Hd. simpl.
  split; [done|]. by destruct (is_blank line).
Qed.

End Stream.

(** ** Runs on concrete lines *)

Section Runs.

Definition aid0 : jsstr := js "agent-1".

Definition turn0 : HookState :=
  mkHookState [simple_message aid0 TAgent (Some (JStr []))] [] true (js "thread-1") [] 0.

(** Specification scenario 7 in the streaming hook: the turn ends with the
    user's message and one tool-output message holding the final text. *)
Example st_scenario_tool_then_final :
  let st := (sendMessage clock0 (js "weather?") (body_of [tool_line ++ [NL] ++ final_line]) hook0).2 in
  map type st.(messages) = [TUser; TToolOutput] /\
  map content st.(messages) = [Some (JStr (js "weather?")); Some (JStr (js "It is 21 C"))] /\
  st.(isLoading) = false.
Proof. split_and!; reflexivity. Qed.

Lemma st_tokens_accumulate_witness :
  Forall2 (fun l t => is_blank l = false /\ decode_line l = EvToken (Some (JStr t)))
    [jq "{'type':'token','content':'Hel'}"; jq "{'type':'token','content':'lo'}"]
    [js "Hel"; js "lo"] /\
  handle_lines (line_step (st_line clock0 aid0)) (Ok (Some (JStr [])), turn0)
    [jq "{'type':'token','content':'Hel'}"; jq "{'type':'token','content':'lo'}"] =
  (Ok (Some (JStr ([] ++ concat [js "Hel"; js "lo"]))),
   with_messages (map_agent aid0 (with_content (Some (JStr ([] ++ concat [js "Hel"; js "lo"]))))
                            turn0.(messages)) 0 turn0).
Proof.
  assert (Hf : Forall2 (fun l t => is_blank l = false /\ decode_line l = EvToken (Some (JStr t)))
    [jq "{'type':'token','content':'Hel'}"; jq "{'type':'token','content':'lo'}"]
    [js "Hel"; js "lo"]) by (repeat constructor).
  split; [exact Hf|].
  exact (st_tokens_accumulate clock0 aid0 turn0 [] _ _ Hf).
Defined.

Definition tool_output_value : jsval :=
  Some (JObj [(js "currentTemperature", JNum (Some 21%Z))]).

Lemma st_tool_output_absorbs_final_witness :
  is_blank tool_line = false /\ is_blank final_line = false /\
  decode_line tool_line = EvToolOutput (Some (JStr (js "weather-data"))) None tool_output_value None /\
  decode_line final_line = EvFinalResponse (Some (JStr (js "It is 21 C"))) /\
  handle_lines (line_step (st_line clock0 aid0)) (Ok (Some (JStr [])), turn0) [tool_line; final_line] =
  (Ok (js_or (Some (JStr (js "It is 21 C"))) (Some (JStr []))),
   with_messages (map_agent aid0 (fun m => with_content (js_or (Some (JStr (js "It is 21 C"))) (Some (JStr [])))
                   (to_tool_output (Some (JStr (js "weather-data"))) None tool_output_value None m))
                 turn0.(messages)) 0 turn0).
Proof.
  split; [reflexivity|]. split; [reflexivity|]. split; [reflexivity|]. split; [reflexivity|].
  exact (st_tool_output_absorbs_final clock0 aid0 turn0 (Some (JStr [])) tool_line final_line
           (Some (JStr (js "weather-data"))) None tool_output_value None
           (Some (JStr (js "It is 21 C"))) eq_refl eq_refl eq_refl eq_refl).
Defined.

Lemma st_final_response_appends_witness :
  decode_line final_line = EvFinalResponse (Some (JStr (js "It is 21 C"))) /\
  is_blank final_line = false /\
  (st_line clock0 aid0 final_line (Some (JStr (js "Hi"))) turn0).2.(messages)
    = map_agent aid0 (with_content (Some (JStr (js "It is 21 C")))) turn0.(messages) /\
  (st_final clock0 aid0 final_line (Some (JStr (js "Hi"))) turn0).2.(messages)
    = map_agent aid0 (with_content (Some (JStr (js "Hi" ++ js "It is 21 C")))) turn0.(messages).
Proof.
  split; [reflexivity|]. split; [reflexivity|].
  exact (st_final_response_appends clock0 aid0 turn0 (js "Hi") (js "It is 21 C") final_line
           eq_refl eq_refl).
Defined.

Lemma st_final_drops_error_witness :
  decode_line (jq "{'type':'error','content':'boom'}") = EvError (Some (JStr (js "boom"))) /\
  (st_line clock0 aid0 (jq "{'type':'error','content':'boom'}") (Some (JStr [])) turn0).2.(messages)
    = turn0.(messages) ++ [error_message (js "Error: " ++ to_string (Some (JStr (js "boom"))))
                                         (clock0 turn0.(ticks))] /\
  (st_final clock0 aid0 (jq "{'type':'error','content':'boom'}") (Some (JStr [])) turn0).2 = turn0.
Proof.
  split; [reflexivity|].
  exact (st_final_drops_error clock0 aid0 turn0 (Some (JStr []))
           (jq "{'type':'error','content':'boom'}") (Some (JStr (js "boom"))) eq_refl).
Defined.

End Runs.

End UseChatStream.
