(* ===== verification/RateLimiter.v ===== *)
(** * RateLimiter: the message limit of [ChatAssistant]

    [src/src/components/ChatUI.tsx] keeps the rate limit in the component:
    [messageLimit] (a [MessageLimit] window: [count], [timestamp] of the
    window's first message, [cooldownEnd]), [timeRemaining] (the cooldown
    countdown that disables the input), [showLimitAlert], the [networkId]
    the limit is stored under, and the [localStorage] entries
    [chat-limit-<networkId>] holding [JSON.stringify] of a window ([store];
    a stored window reads back as itself).  Its operations:
    - [handleSendMessage] (lines 171-214), with the window update
      [window_step] (lines 177-197): accept and record, or reject with the
      alert;
    - [load_limit], the effect that reads the stored window when
      [networkId] is known (lines 73-92);
    - [tick], one firing of the one-second countdown (lines 95-110);
    - [alert_timeout], the [setTimeout] that hides the alert (line 181);
    - [formatTimeRemaining] (lines 217-221).
    [lim_step] collects them as the component's transition relation. *)

From stdpp Require Import base list decidable gmap countable relations.
From Stdlib Require Import ZArith Lia.
From S2P Require Import Prelude.

Open Scope Z_scope.

Definition MESSAGE_LIMIT : Z := 10.
Definition COOLDOWN_PERIOD : Z := 60 * 60 * 1000.

Record MessageLimit := mkLimit {
  count : Z;
  timestamp : Z;
  cooldownEnd : Z;
}.

Record LimiterState := mkLimiter {
  messageLimit : option MessageLimit;
  timeRemaining : Z;
  showLimitAlert : bool;
  networkId : jsstr;
  store : gmap jsstr MessageLimit;
}.

(** [`chat-limit-${networkId}`] *)
Definition limit_key (nid : jsstr) : jsstr := js "chat-limit-" ++ nid.

(** Lines 177-197: the window after one more message, or [None] when the
    window is current and full. *)
Definition window_step (ml : option MessageLimit) (now : Z) : option MessageLimit :=
  match ml with
  | Some l =>
      if now - l.(timestamp) <? COOLDOWN_PERIOD then
        if MESSAGE_LIMIT <=? l.(count) then None
        else Some (mkLimit (l.(count) + 1) l.(timestamp) l.(cooldownEnd))
      else Some (mkLimit 1 now now)
  | None => Some (mkLimit 1 now now)
  end.

(** Lines 171-214: returns the new state and the text handed to the hook's
    [sendMessage], if any. *)
Definition handleSendMessage (inputValue : jsstr) (now : Z) (s : LimiterState)
    : LimiterState * option jsstr :=
  if is_blank inputValue then (s, None)
  else
    match window_step s.(messageLimit) now with
    | None =>
        (mkLimiter s.(messageLimit) s.(timeRemaining) true s.(networkId) s.(store), None)
    | Some nl =>
        let '(newLimit, tr) :=
          if MESSAGE_LIMIT <=? nl.(count)
          then (mkLimit nl.(count) nl.(timestamp) (now + COOLDOWN_PERIOD), COOLDOWN_PERIOD)
          else (nl, s.(timeRemaining)) in
        (mkLimiter (Some newLimit) tr s.(showLimitAlert) s.(networkId)
                   (<[limit_key s.(networkId) := newLimit]> s.(store)),
         Some inputValue)
    end.

(** Lines 73-92: with a known [networkId], a stored window is removed and
    [messageLimit] cleared, whether or not its cooldown is over. *)
Definition load_limit (now : Z) (s : LimiterState) : LimiterState :=
  if bool_decide (s.(networkId) = []) then s
  else
    match s.(store) !! limit_key s.(networkId) with
    | None => s
    | Some l =>
        if now <? l.(cooldownEnd)
        then mkLimiter None s.(timeRemaining) s.(showLimitAlert) s.(networkId)
                       (delete (limit_key s.(networkId)) s.(store))
        else mkLimiter None 0 s.(showLimitAlert) s.(networkId)
                       (delete (limit_key s.(networkId)) s.(store))
    end.

(** Lines 97-106: one firing of the interval, which runs while
    [timeRemaining > 0]. *)
Definition tick (s : LimiterState) : LimiterState :=
  let newTime := s.(timeRemaining) - 1000 in
  if newTime <=? 0
  then mkLimiter None newTime s.(showLimitAlert) s.(networkId)
                 (delete (limit_key s.(networkId)) s.(store))
  else mkLimiter s.(messageLimit) newTime s.(showLimitAlert) s.(networkId) s.(store).

(** Line 181: [setTimeout(() => setShowLimitAlert(false), 3000)] fires. *)
Definition alert_timeout (s : LimiterState) : LimiterState :=
  mkLimiter s.(messageLimit) s.(timeRemaining) false s.(networkId) s.(store).

(** Lines 64-70: [setNetworkId(id)] once the network lookup answers. *)
Definition set_network_id (nid : jsstr) (s : LimiterState) : LimiterState :=
  mkLimiter s.(messageLimit) s.(timeRemaining) s.(showLimitAlert) nid s.(store).

(** [s.padStart(n, c)] with a one-character pad string *)
Definition pad_start (n : nat) (c : Z) (s : jsstr) : jsstr := repeat c (n - List.length s) ++ s.

(** [n.toString().padStart(2, '0')] *)
Definition pad2 (n : Z) : jsstr := pad_start 2 48 (dec_of_Z n).

(** Lines 217-221 *)
Definition formatTimeRemaining (ms : Z) : jsstr :=
  let minutes := ms / 60000 in
  let seconds := Z.rem ms 60000 / 1000 in
  dec_of_Z minutes ++ js ":" ++ pad2 seconds.

(** ** The component as a transition system *)

Inductive lim_step : LimiterState -> LimiterState -> Prop :=
| LimSend input now s : lim_step s (handleSendMessage input now s).1
| LimTick s : 0 < s.(timeRemaining) -> lim_step s (tick s)
| LimLoad now s : lim_step s (load_limit now s)
| LimAlertOff s : lim_step s (alert_timeout s)
| LimIdentify nid s : lim_step s (set_network_id nid s).

(** The state when the component mounts: no window, no countdown, whatever
    [localStorage] holds. *)
Definition lim_init (st : gmap jsstr MessageLimit) : LimiterState := mkLimiter None 0 false [] st.

Inductive reachable : LimiterState -> Prop :=
| reach_init st : reachable (lim_init st)
| reach_step s s' : reachable s -> lim_step s s' -> reachable s'.

(** ** Invariant *)

(** A window holds between 1 and [MESSAGE_LIMIT] messages; the countdown
    is a whole number of seconds between 0 and one hour. *)
Definition lim_inv (s : LimiterState) : Prop :=
  (forall l, s.(messageLimit) = Some l -> 1 <= l.(count) <= MESSAGE_LIMIT) /\
  0 <= s.(timeRemaining) <= COOLDOWN_PERIOD /\
  s.(timeRemaining) mod 1000 = 0.

Lemma window_step_count ml now nl :
  (forall l, ml = Some l -> 1 <= l.(count) <= MESSAGE_LIMIT) ->
  window_step ml now = Some nl -> 1 <= nl.(count) <= MESSAGE_LIMIT.
Proof.
  unfold window_step, MESSAGE_LIMIT. intros Hml Hw.
  destruct ml as [l|]; [|by injection Hw as <-].
  specialize (Hml l eq_refl).
  destruct (_ <? _); [|by injection Hw as <-].
  destruct (Z.leb_spec 10 l.(count)); [done|]. injection Hw as <-. simpl. lia.
Qed.

Lemma lim_step_inv s s' : lim_inv s -> lim_step s s' -> lim_inv s'.
Proof.
  unfold lim_inv, COOLDOWN_PERIOD. intros (Hc & Ht & Hm) Hs. destruct Hs as [input now s|s Hpos|now s|s|nid s].
  - unfold handleSendMessage. destruct (is_blank input); [done|].
    destruct (window_step (messageLimit s) now) as [nl|] eqn:Hw; [|done].
    pose proof (window_step_count _ _ _ Hc Hw) as Hnl.
    destruct (MESSAGE_LIMIT <=? count nl); simpl; unfold COOLDOWN_PERIOD in *.
    + split_and!; [intros l [= <-]; exact Hnl | lia | lia | reflexivity].
    + split_and!; [intros l [= <-]; exact Hnl | lia | lia | done].
  - unfold tick.
    assert (Hq : timeRemaining s = 1000 * (timeRemaining s / 1000))
      by (pose proof (Z.div_mod (timeRemaining s) 1000); lia).
    set (q := timeRemaining s / 1000) in *. rewrite Hq in Hpos |- *.
    replace (1000 * q - 1000) with ((q - 1) * 1000) by lia.
    destruct (Z.leb_spec ((q - 1) * 1000) 0); simpl; split_and!; try done; try lia;
      by rewrite Z.mod_mul.
  - unfold load_limit. case_bool_decide; [done|].
    destruct (store s !! limit_key (networkId s)); [|done].
    case_Z_tests; simpl; split_and!; try (intros ? [=]); try done; lia.
  - done.
  - done.
Qed.

(** The proof of [lim_reachable_inv], shared with the lemmas that use it. *)
Theorem reachable_lim_inv s : reachable s -> lim_inv s.
Proof.
  induction 1 as [st|s s' _ IH Hs].
  - unfold lim_inv, COOLDOWN_PERIOD. simpl. split_and!; [done|lia|lia|done].
  - by apply (lim_step_inv s).
Qed.

(** C5: In every reachable limiter state a window holds between 1 and 10
    messages and the countdown is a whole number of seconds between 0
    and one hour. *)
Theorem lim_reachable_inv s : reachable s -> lim_inv s.
Proof. exact (reachable_lim_inv s). Qed.

Lemma reachable_rtc s s' : reachable s -> rtc lim_step s s' -> reachable s'.
Proof. intros Hr Hs. induction Hs as [|x y z Hxy _ IH]; [done|]. apply IH. by econstructor. Qed.

Lemma load_limit_alert now s : (load_limit now s).(showLimitAlert) = s.(showLimitAlert).
Proof.
  unfold load_limit. case_bool_decide; [done|].
  destruct (_ !! _); [|done]. by destruct (now <? _).
Qed.

Lemma tick_alert s : (tick s).(showLimitAlert) = s.(showLimitAlert).
Proof. unfold tick. by destruct (_ <=? 0). Qed.

(** A full window is always cooling down: the send that fills it starts
    the countdown, and the tick that ends the countdown drops the window. *)
Definition cooling_inv (s : LimiterState) : Prop :=
  forall l, s.(messageLimit) = Some l -> MESSAGE_LIMIT <= l.(count) -> 0 < s.(timeRemaining).

Lemma lim_step_cooling s s' : cooling_inv s -> lim_step s s' -> cooling_inv s'.
Proof.
  unfold cooling_inv. intros Hc Hs. destruct Hs as [input now s|s Hpos|now s|s|nid s].
  - unfold handleSendMessage. destruct (is_blank input); [done|].
    destruct (window_step (messageLimit s) now) as [nl|]; [|done].
    destruct (Z.leb_spec MESSAGE_LIMIT (count nl)); simpl; intros l [= <-]; simpl;
      unfold COOLDOWN_PERIOD; lia.
  - unfold tick. destruct (Z.leb_spec (timeRemaining s - 1000) 0); simpl; [done|lia].
  - unfold load_limit. case_bool_decide; [done|].
    destruct (store s !! limit_key (networkId s)); [|done]. by case_Z_tests.
  - done.
  - done.
Qed.

Lemma lim_reachable_cooling s : reachable s -> cooling_inv s.
Proof.
  induction 1 as [st|s s' _ IH Hs]; [by intros l ?|]. by apply (lim_step_cooling s).
Qed.

(** With no countdown running, a window in the state is not full, so a
    non-blank send is handed on and the alert is left as it was. *)
Lemma send_accepted_when_idle input now s :
  lim_inv s -> cooling_inv s -> s.(timeRemaining) <= 0 -> is_blank input = false ->
  (handleSendMessage input now s).2 = Some input /\
  (handleSendMessage input now s).1.(showLimitAlert) = s.(showLimitAlert).
Proof.
  intros [Hcnt _] Hc Ht Hb. unfold handleSendMessage. rewrite Hb.
  destruct (window_step (messageLimit s) now) as [nl|] eqn:Hw.
  - by destruct (MESSAGE_LIMIT <=? count nl).
  - exfalso. unfold window_step in Hw.
    destruct (messageLimit s) as [l|] eqn:Hl; [|done].
    destruct (_ <? _); [|done].
    destruct (Z.leb_spec MESSAGE_LIMIT (count l)); [|done].
    specialize (Hc l Hl). lia.
Qed.

(** ** Bursts of sends *)

Definition accepted (r : option jsstr) : bool := match r with Some _ => true | None => false end.

(** [handleSendMessage] with the same input at each of [times], without any
    other event in between; returns the final state and which calls were
    handed on. *)
Fixpoint send_burst (input : jsstr) (times : list Z) (s : LimiterState) : LimiterState * list bool :=
  match times with
  | [] => (s, [])
  | t :: ts =>
      let '(s', r) := handleSendMessage input t s in
      let '(s'', bs) := send_burst input ts s' in
      (s'', accepted r :: bs)
  end.

Definition n_accepted (bs : list bool) : nat := List.length (List.filter (fun b => b) bs).

Lemma send_burst_window input s l times :
  is_blank input = false -> s.(messageLimit) = Some l -> 1 <= l.(count) <= MESSAGE_LIMIT ->
  (forall t, In t times -> t - l.(timestamp) < COOLDOWN_PERIOD) ->
  Z.of_nat (n_accepted (send_burst input times s).2) + l.(count) <= MESSAGE_LIMIT.
Proof.
  unfold n_accepted. intros Hb. revert s l.
  induction times as [|t ts IH]; intros s l Hl Hc Ht; simpl; [lia|].
  unfold handleSendMessage. rewrite Hb, Hl. simpl.
  destruct (Z.ltb_spec (t - timestamp l) COOLDOWN_PERIOD) as [Hw|Hw];
    [|specialize (Ht t (or_introl eq_refl)); lia].
  destruct (Z.leb_spec MESSAGE_LIMIT (count l)) as [Hf|Hf].
  - match goal with
    | |- context [send_burst input ts ?s'] =>
        pose proof (IH s' l eq_refl Hc (fun t' Hin => Ht t' (or_intror Hin))) as IH';
        destruct (send_burst input ts s') as [s'' bs]
    end. simpl in *. lia.
  - assert (Hc' : 1 <= count l + 1 <= MESSAGE_LIMIT) by lia.
    assert (Ht' : forall t', In t' ts -> t' - timestamp l < COOLDOWN_PERIOD)
      by (intros t' Hin; apply Ht; by right).
    cbn [count timestamp cooldownEnd].
    destruct (MESSAGE_LIMIT <=? count l + 1); cbn zeta iota beta;
      match goal with
      | |- context [send_burst input ts ?s'] =>
          pose proof (IH s' _ eq_refl Hc' Ht') as IH';
          destruct (send_burst input ts s') as [s'' bs]
      end; simpl in *; lia.
Qed.

(** C14: At most [MESSAGE_LIMIT] sends are handed on while the window opened by
    the first one lasts. *)
Theorem at_most_limit_per_window input s t0 times :
  is_blank input = false -> s.(messageLimit) = None ->
  (forall t, In t times -> t - t0 < COOLDOWN_PERIOD) ->
  (n_accepted (send_burst input (t0 :: times) s).2 <= Z.to_nat MESSAGE_LIMIT)%nat.
Proof.
  intros Hb Hn Ht. simpl. unfold handleSendMessage. rewrite Hb, Hn. simpl.
  assert (Hc : 1 <= count (mkLimit 1 t0 t0) <= MESSAGE_LIMIT) by (simpl; unfold MESSAGE_LIMIT; lia).
  match goal with
  | |- context [send_burst input times ?s'] =>
      pose proof (send_burst_window input s' (mkLimit 1 t0 t0) times Hb eq_refl Hc Ht) as H;
      destruct (send_burst input times s') as [s'' bs]
  end.
  unfold n_accepted, MESSAGE_LIMIT in *. simpl in *. lia.
Qed.

(** Specification property 3: eleven sends in the same millisecond from a
    fresh state: the first ten are handed on, the eleventh is refused with
    the alert shown, and the countdown reads one hour. *)
Theorem burst_of_eleven input t s :
  is_blank input = false -> s.(messageLimit) = None ->
  let '(s', bs) := send_burst input (repeat t 11) s in
  bs = repeat true 10 ++ [false] /\
  s'.(messageLimit) = Some (mkLimit 10 t (t + COOLDOWN_PERIOD)) /\
  s'.(timeRemaining) = COOLDOWN_PERIOD /\ s'.(showLimitAlert) = true.
Proof.
  intros Hb Hn. destruct s as [ml tr al nid st]. simpl in Hn. subst ml.
  cbv [send_burst repeat handleSendMessage window_step COOLDOWN_PERIOD MESSAGE_LIMIT].
  rewrite Hb.
  repeat (cbn [fst snd messageLimit timeRemaining showLimitAlert networkId store
               count timestamp cooldownEnd accepted] in *;
          rewrite ?Z.sub_diag; decide_Z_test).
  split_and!; reflexivity.
Qed.

(** C16: Specification property 4: once [COOLDOWN_PERIOD] has passed since the
    window's first message, a send is handed on and opens a new window. *)
Theorem window_expired_accepts input now s l :
  is_blank input = false -> s.(messageLimit) = Some l ->
  COOLDOWN_PERIOD <= now - l.(timestamp) ->
  (handleSendMessage input now s).2 = Some input /\
  (handleSendMessage input now s).1.(messageLimit) = Some (mkLimit 1 now now).
Proof.
  intros Hb Hl Hw. unfold handleSendMessage. rewrite Hb, Hl. simpl.
  destruct (Z.ltb_spec (now - timestamp l) COOLDOWN_PERIOD); [lia|]. done.
Qed.

(** C15: Reloading the page during a cooldown forgets the window: the effect
    that reads [localStorage] removes the stored window, and the next send
    opens a new window of one message. *)
Theorem reload_resets_window input now s l :
  is_blank input = false -> s.(networkId) <> [] ->
  s.(store) !! limit_key s.(networkId) = Some l -> now < l.(cooldownEnd) ->
  handleSendMessage input now (load_limit now s) =
  (mkLimiter (Some (mkLimit 1 now now)) s.(timeRemaining) s.(showLimitAlert) s.(networkId)
             (<[limit_key s.(networkId) := mkLimit 1 now now]>
                (delete (limit_key s.(networkId)) s.(store))),
   Some input).
Proof.
  intros Hb Hn Hs Hc. unfold load_limit. rewrite bool_decide_eq_false_2 by done.
  rewrite Hs. destruct (Z.ltb_spec now (cooldownEnd l)); [|lia].
  unfold handleSendMessage. by rewrite Hb.
Qed.

(** ** The countdown *)

Lemma tick_timeRemaining s : (tick s).(timeRemaining) = s.(timeRemaining) - 1000.
Proof. unfold tick. by destruct (_ <=? 0). Qed.

Lemma tick_networkId s : (tick s).(networkId) = s.(networkId).
Proof. unfold tick. by destruct (_ <=? 0). Qed.

Lemma iter_tick_timeRemaining j s :
  (Nat.iter j tick s).(timeRemaining) = s.(timeRemaining) - 1000 * Z.of_nat j.
Proof.
  induction j as [|j IH]; simpl; [lia|]. rewrite tick_timeRemaining, IH. lia.
Qed.

Lemma iter_tick_networkId j s : (Nat.iter j tick s).(networkId) = s.(networkId).
Proof. induction j as [|j IH]; simpl; [done|]. by rewrite tick_networkId. Qed.

(** C17: A countdown of [k + 1] seconds takes exactly [k + 1] ticks: the input
    stays disabled ([timeRemaining > 0], so every tick is a step of the
    component) before each of them, and the last one clears the window,
    its stored copy and the countdown. *)
Theorem cooldown_ticks k s :
  s.(timeRemaining) = 1000 * Z.of_nat (S k) ->
  (forall j, (j <= k)%nat -> 0 < (Nat.iter j tick s).(timeRemaining)) /\
  (Nat.iter (S k) tick s).(messageLimit) = None /\
  (Nat.iter (S k) tick s).(timeRemaining) = 0 /\
  (Nat.iter (S k) tick s).(store) !! limit_key s.(networkId) = None.
Proof.
  intros Ht. split; [intros j Hj; rewrite iter_tick_timeRemaining; lia|].
  change (Nat.iter (S k) tick s) with (tick (Nat.iter k tick s)).
  pose proof (iter_tick_timeRemaining k s) as Hk. pose proof (iter_tick_networkId k s) as Hn.
  rewrite Ht in Hk. remember (Nat.iter k tick s) as sk eqn:Esk. clear Esk.
  unfold tick. rewrite Hk, <- Hn.
  destruct (Z.leb_spec (1000 * Z.of_nat (S k) - 1000 * Z.of_nat k - 1000) 0); [|lia].
  simpl. split_and!; [done|lia|]. apply lookup_delete_eq.
Qed.

(** ** The countdown display *)

Lemma pad2_length n : 0 <= n < 60 -> List.length (pad2 n) = 2%nat.
Proof.
  intros Hn.
  assert (Hall : Forall (fun m => List.length (pad2 m) = 2%nat) (map Z.of_nat (seq 0 60)))
    by (vm_compute; repeat constructor).
  rewrite List.Forall_forall in Hall. apply Hall, in_map_iff.
  exists (Z.to_nat n). split; [lia|]. apply in_seq. lia.
Qed.

(** C18: The display is [m:ss] with two-digit seconds below 60, and it shows the
    remaining time in whole seconds exactly. *)
Theorem format_time_exact ms :
  0 <= ms ->
  exists m sec,
    formatTimeRemaining ms = dec_of_Z m ++ js ":" ++ pad2 sec /\
    List.length (pad2 sec) = 2%nat /\ 0 <= sec < 60 /\ 60 * m + sec = ms / 1000.
Proof.
  intros Hms. exists (ms / 60000), (Z.rem ms 60000 / 1000).
  split; [reflexivity|]. rewrite Z.rem_mod_nonneg by lia.
  assert (0 <= ms mod 60000 / 1000 < 60).
  { pose proof (Z.mod_pos_bound ms 60000). split; [apply Z.div_pos; lia|].
    apply Z.div_lt_upper_bound; lia. }
  split_and!; [by apply pad2_length | lia | lia |].
  pose proof (Z.div_mod ms 60000). pose proof (Z.mod_pos_bound ms 60000).
  rewrite (Z.div_mod ms 60000) at 3 by lia.
  replace (60000 * (ms / 60000)) with ((60 * (ms / 60000)) * 1000) by lia.
  rewrite Z.div_add_l by lia. lia.
Qed.

(** ** Runs *)

Definition lim0 : LimiterState := lim_init ∅.
Definition nid0 : jsstr := js "203.0.113.7".

(** The countdown display at the start of a cooldown and one second before
    its end. *)
Example format_time_runs :
  formatTimeRemaining COOLDOWN_PERIOD = js "60:00" /\
  formatTimeRemaining 59000 = js "0:59" /\ formatTimeRemaining 61000 = js "1:01".
Proof. split_and!; reflexivity. Qed.

Lemma lim_reachable_inv_witness :
  reachable (handleSendMessage (js "hi") 0 lim0).1 /\
  lim_inv (handleSendMessage (js "hi") 0 lim0).1.
Proof.
  assert (H : reachable (handleSendMessage (js "hi") 0 lim0).1)
    by (eapply reach_step; [apply reach_init | apply LimSend]).
  split; [exact H | exact (lim_reachable_inv _ H)].
Defined.

Lemma at_most_limit_per_window_witness :
  (n_accepted (send_burst (js "hi") (0%Z :: repeat 0%Z 12) lim0).2 <= Z.to_nat MESSAGE_LIMIT)%nat.
Proof.
  apply (at_most_limit_per_window (js "hi") lim0 0 (repeat 0 12) eq_refl eq_refl).
  intros t Ht. apply repeat_spec in Ht. subst t. unfold COOLDOWN_PERIOD. lia.
Defined.

Lemma burst_of_eleven_witness :
  let '(s', bs) := send_burst (js "hi") (repeat 5 11) lim0 in
  bs = repeat true 10 ++ [false] /\
  s'.(messageLimit) = Some (mkLimit 10 5 (5 + COOLDOWN_PERIOD)) /\
  s'.(timeRemaining) = COOLDOWN_PERIOD /\ s'.(showLimitAlert) = true.
Proof. exact (burst_of_eleven (js "hi") 5 lim0 eq_refl eq_refl). Defined.

(** A full window whose [cooldownEnd] is still ahead: an hour after its
    first message the send is accepted all the same. *)
Definition full_window : LimiterState :=
  mkLimiter (Some (mkLimit 10 0 (2 * COOLDOWN_PERIOD))) 0 false nid0 ∅.

Lemma window_expired_accepts_witness :
  (handleSendMessage (js "hi") COOLDOWN_PERIOD full_window).2 = Some (js "hi") /\
  (handleSendMessage (js "hi") COOLDOWN_PERIOD full_window).1.(messageLimit) =
    Some (mkLimit 1 COOLDOWN_PERIOD COOLDOWN_PERIOD).
Proof.
  apply (window_expired_accepts (js "hi") COOLDOWN_PERIOD full_window
           (mkLimit 10 0 (2 * COOLDOWN_PERIOD)) eq_refl eq_refl).
  unfold COOLDOWN_PERIOD. simpl. lia.
Defined.

(** A page that stored a full window in cooldown and is reloaded a second
    later. *)
Definition cooling : LimiterState :=
  mkLimiter None 0 false nid0 {[limit_key nid0 := mkLimit 10 0 COOLDOWN_PERIOD]}.

Lemma reload_resets_window_witness :
  handleSendMessage (js "hi") 1000 (load_limit 1000 cooling) =
  (mkLimiter (Some (mkLimit 1 1000 1000)) 0 false nid0
             (<[limit_key nid0 := mkLimit 1 1000 1000]>
                (delete (limit_key nid0) {[limit_key nid0 := mkLimit 10 0 COOLDOWN_PERIOD]})),
   Some (js "hi")).
Proof.
  apply (reload_resets_window (js "hi") 1000 cooling (mkLimit 10 0 COOLDOWN_PERIOD)
           eq_refl); [discriminate | reflexivity | reflexivity].
Defined.

Lemma cooldown_ticks_witness :
  let s := mkLimiter (Some (mkLimit 10 0 COOLDOWN_PERIOD)) 3000 false nid0
                     {[limit_key nid0 := mkLimit 10 0 COOLDOWN_PERIOD]} in
  (forall j, (j <= 2)%nat -> 0 < (Nat.iter j tick s).(timeRemaining)) /\
  (Nat.iter 3 tick s).(messageLimit) = None /\
  (Nat.iter 3 tick s).(timeRemaining) = 0 /\
  (Nat.iter 3 tick s).(store) !! limit_key s.(networkId) = None.
Proof. intros s. exact (cooldown_ticks 2 s eq_refl). Defined.

Lemma format_time_exact_witness :
  exists m sec,
    formatTimeRemaining 3599000 = dec_of_Z m ++ js ":" ++ pad2 sec /\
    List.length (pad2 sec) = 2%nat /\ 0 <= sec < 60 /\ 60 * m + sec = 3599000 / 1000.
Proof. apply format_time_exact. lia. Defined.
