(* ===== verification/Controller.v ===== *)
(** * Controller: the chat widget as one event-driven system

    [src/src/components/ChatUI.tsx] ([ChatAssistant]) composes the rate
    limiter of [RateLimiter.v] with the [useChatNoStream] hook of
    [NoStream.v], and [Layout.tsx] decides whether it is shown.  This file
    models the component's own state ([UiState], lines 46-58), its
    handlers and effects, and the whole widget as a transition system over
    user, timer and network events ([ctl_step]).

    The hook's [sendMessage] suspends at [await fetch(...)]; other events
    (timer ticks, the alert timeout, layout changes) can run before the
    response arrives.  The handler is therefore split at that point into
    [ns_start] (up to and including the call to [fetch]) and [ns_finish]
    (from the awaited response to the [finally] block), and
    [sendMessage_phases] proves that running one after the other is
    [NoStream.sendMessage].  The events that can fire while the request is
    in flight are exactly those whose controls are enabled. *)

From stdpp Require Import base list decidable gmap.
From Stdlib Require Import ZArith Lia.
From S2P Require Import Prelude JsValue IntRuntime LineBuffer Message Events NoStream RateLimiter.

(** ** The no-stream hook split at its [await] *)

Section Phases.
Context `{JsRuntime}.
Variable clock : nat -> Z.

(** [useChatNoStream.ts] lines 30-49: the guard, the user message, the
    state updates and the call to [fetch]; returns whether a request was
    issued. *)
Definition ns_start (message : jsstr) : M bool :=
  st ← read (fun s => s);
  if is_blank message || st.(isLoading) then mret false
  else
    i ← fresh_id clock (js "user");
    append_message (simple_message i TUser (Some (JStr (trim message))));;
    modify (set_input_st []);;
    modify (set_loading_st true);;
    modify (send_st (mkRequest ns_endpoint (trim message) st.(threadId)));;
    mret true.

(** Lines 42-140 from the awaited response on: the checks, the read loop,
    the final buffer, the [catch] and the [finally]. *)
Definition ns_finish (resp : FetchResult) : M unit :=
  try_finally
    (try_catch
       (r ← await_fetch resp;
        b ← check_response r;
        '(_, buffer) ← read_body (fun line _ => ns_line clock line) b tt;
        ns_final clock buffer)
       (fun e => append_error clock (js "Network or API error: " ++ e)))
    (modify (set_loading_st false)).

(** The no-stream hook's sendMessage equals its part up to the call to
    fetch followed, when a request was issued, by its part from the
    awaited response to the finally block. *)
Lemma sendMessage_phases (message : jsstr) (resp : FetchResult) (st : HookState) :
  sendMessage clock message resp st =
  (ns_start message ≫= fun b : bool => if b then ns_finish resp else mret tt) st.
Proof.
  unfold sendMessage, ns_start, ns_finish. m_red.
  destruct (is_blank message || isLoading st); reflexivity.
Qed.

End Phases.

(** ** The component's own state and handlers *)

(** [ChatUI.tsx] lines 46-51 and 57-58: the [useState] hooks of
    [ChatAssistant] that are not the rate limiter's. *)
Record UiState := mkUi {
  isComponentRendered : bool;
  isChatExpanded : bool;
  isInputFocused : bool;
  isVoiceMode : bool;
  isListening : bool;
  isMobile : bool;
  loadingToolOutputId : option jsstr;
  isSkeletonLoading : bool;
}.

Definition ui0 : UiState := mkUi false false false false false false None false.

(** Lines 114-116: [checkMobile], run on mount and on every [resize]. *)
Definition checkMobile (innerWidth : Z) (u : UiState) : UiState :=
  mkUi u.(isComponentRendered) u.(isChatExpanded) u.(isInputFocused) u.(isVoiceMode)
       u.(isListening) (innerWidth <? 768) u.(loadingToolOutputId) u.(isSkeletonLoading).

(** Lines 234-241.  [setIsChatExpanded(prev => !prev)]; the focus flag is
    computed from the value before the toggle. *)
Definition toggleChatExpansion (u : UiState) : UiState :=
  let focused :=
    if negb u.(isChatExpanded) && negb u.(isMobile) then true
    else if negb u.(isMobile) then false
    else u.(isInputFocused) in
  mkUi u.(isComponentRendered) (negb u.(isChatExpanded)) focused u.(isVoiceMode)
       u.(isListening) u.(isMobile) u.(loadingToolOutputId) u.(isSkeletonLoading).

Definition set_focused (b : bool) (u : UiState) : UiState :=
  mkUi u.(isComponentRendered) u.(isChatExpanded) b u.(isVoiceMode)
       u.(isListening) u.(isMobile) u.(loadingToolOutputId) u.(isSkeletonLoading).

(** Line 243 *)
Definition handleInputFocus (u : UiState) : UiState := set_focused true u.

(** Lines 244-248 *)
Definition handleInputBlur (u : UiState) : UiState :=
  if negb u.(isChatExpanded) && negb u.(isMobile) then set_focused false u else u.

(** Lines 250-260: both flags are set from the value before the toggle. *)
Definition toggleVoiceMode (u : UiState) : UiState :=
  mkUi u.(isComponentRendered) u.(isChatExpanded) u.(isInputFocused)
       (negb u.(isVoiceMode)) (negb u.(isVoiceMode)) u.(isMobile)
       u.(loadingToolOutputId) u.(isSkeletonLoading).

(** Lines 225-227: the part of [handleEnterPress] that expands the chat. *)
Definition expand_on_enter (u : UiState) : UiState :=
  if negb u.(isChatExpanded) && negb u.(isMobile)
  then mkUi u.(isComponentRendered) true u.(isInputFocused) u.(isVoiceMode)
            u.(isListening) u.(isMobile) u.(loadingToolOutputId) u.(isSkeletonLoading)
  else u.

(** Lines 289-302: a [mousedown] outside [#chat-container] or an [Escape]
    keydown collapses an expanded chat; the listeners are only installed
    off mobile (line 287). *)
Definition collapse_listener (u : UiState) : UiState :=
  if negb u.(isMobile) && u.(isChatExpanded) then toggleChatExpansion u else u.

(** ** The widget *)

Section Widget.
Context `{JsRuntime}.
Variable clock : nat -> Z.

Definition is_tool_output (m : ChatMessage) : bool :=
  match m.(type) with TToolOutput => true | _ => false end.

(** Lines 136-146: after [messages] changes, the latest [tool_output]
    message, if it is not the one already marked, is marked and shown as a
    skeleton; returns whether a 2-second timeout was scheduled. *)
Definition skeleton_effect (msgs : list ChatMessage) (u : UiState) : UiState * bool :=
  match List.find is_tool_output (rev msgs) with
  | Some m =>
      if bool_decide (Some m.(id) = u.(loadingToolOutputId)) then (u, false)
      else (mkUi u.(isComponentRendered) u.(isChatExpanded) u.(isInputFocused)
                 u.(isVoiceMode) u.(isListening) u.(isMobile) (Some m.(id)) true, true)
  | None => (u, false)
  end.

(** Line 143: the skeleton's timeout fires. *)
Definition skeleton_timeout (u : UiState) : UiState :=
  mkUi u.(isComponentRendered) u.(isChatExpanded) u.(isInputFocused) u.(isVoiceMode)
       u.(isListening) u.(isMobile) u.(loadingToolOutputId) false.

(** Lines 154-157: the mount effect. *)
Definition set_rendered (u : UiState) : UiState :=
  mkUi true u.(isChatExpanded) u.(isInputFocused) u.(isVoiceMode)
       u.(isListening) u.(isMobile) u.(loadingToolOutputId) u.(isSkeletonLoading).

(** [ChatUI.tsx] lines 22-30: [getNetworkIdentifier], given what
    [await response.json()] gives for the lookup (its error if [fetch] or
    [json()] throws); reading [data.ip] on [null] throws too. *)
Definition getNetworkIdentifier (r : exc value) : jsval :=
  match (data ← r; get data KIp) with
  | Ok ip => ip
  | Throw _ => Some (JStr (js "unknown"))
  end.

(** [useChatNoStream.ts] line 22: the hook's state on the first render;
    [localStorage.getItem(...) || `thread-${Date.now()}`] reads the clock
    only when nothing (or the empty string) is stored. *)
Definition init_hook (stored : option jsstr) : HookState :=
  match stored with
  | Some s => if bool_decide (s = []) then mkHookState [] [] false (js "thread-" ++ dec_of_Z (clock 0)) [] 1
              else mkHookState [] [] false s [] 0
  | None => mkHookState [] [] false (js "thread-" ++ dec_of_Z (clock 0)) [] 1
  end.

(** The widget: the limiter's state (with the [chat-limit-*] entries of
    [localStorage]), the hook's, the component's, [Layout]'s
    [isChatUiVisible], the [steve_chat_thread_id] entry of [localStorage],
    and what is pending: the network lookup, the chat request, and the
    scheduled [setTimeout]s. *)
Record CtlState := mkCtl {
  lim : LimiterState;
  hook : HookState;
  ui : UiState;
  isVisible : bool;
  threadStore : option jsstr;
  ipPending : bool;
  inflight : bool;
  alertTimers : nat;
  skeletonTimers : nat;
}.

(** The first render of [Layout] (line 23: visible) with what
    [localStorage] holds. *)
Definition ctl_init (stored : option jsstr) (st : gmap jsstr MessageLimit) : CtlState :=
  mkCtl (lim_init st) (init_hook stored) ui0 true stored false false 0 0.

Definition set_ui (u : UiState) (c : CtlState) : CtlState :=
  mkCtl c.(lim) c.(hook) u c.(isVisible) c.(threadStore) c.(ipPending) c.(inflight)
        c.(alertTimers) c.(skeletonTimers).
Definition set_lim (l : LimiterState) (c : CtlState) : CtlState :=
  mkCtl l c.(hook) c.(ui) c.(isVisible) c.(threadStore) c.(ipPending) c.(inflight)
        c.(alertTimers) c.(skeletonTimers).
Definition set_hook (h : HookState) (c : CtlState) : CtlState :=
  mkCtl c.(lim) h c.(ui) c.(isVisible) c.(threadStore) c.(ipPending) c.(inflight)
        c.(alertTimers) c.(skeletonTimers).

(** [ChatUI.tsx] line 313 and 316: the full view, with its input row, is
    rendered. *)
Definition input_shown (c : CtlState) : bool :=
  c.(isVisible) && negb (c.(ui).(isMobile) && negb c.(ui).(isChatExpanded)).

(** Line 604 *)
Definition input_disabled (c : CtlState) : bool :=
  c.(hook).(isLoading) || c.(ui).(isListening) || (0 <? c.(lim).(timeRemaining)).

(** Line 645 *)
Definition send_disabled (c : CtlState) : bool :=
  is_blank c.(hook).(inputValue) || input_disabled c.

(** A button that toggles the chat is rendered: the mobile bubble (line
    323), the header's close button (375), the desktop chevrons (562, 657). *)
Definition toggle_shown (c : CtlState) : bool :=
  c.(isVisible) &&
  ((c.(ui).(isMobile) && negb c.(ui).(isChatExpanded)) || c.(ui).(isChatExpanded) ||
   (negb c.(ui).(isMobile) && negb c.(ui).(isChatExpanded) && bool_decide (c.(hook).(messages) <> []))).

(** The effects that depend on [messages] (line 136-146), run after the
    hook changed them. *)
Definition after_messages (c : CtlState) : CtlState :=
  let '(u, scheduled) := skeleton_effect c.(hook).(messages) c.(ui) in
  mkCtl c.(lim) c.(hook) u c.(isVisible) c.(threadStore) c.(ipPending) c.(inflight)
        c.(alertTimers) (if scheduled then S c.(skeletonTimers) else c.(skeletonTimers)).

Definition exc_default {A} (d : A) (r : exc A) : A :=
  match r with Ok a => a | Throw _ => d end.

(** Lines 171-214, [handleSendMessage] of the component: the limiter reads
    [Date.now()] unless the input is blank; a refused send shows the alert
    and schedules its timeout (lines 180-181); an accepted one calls the
    hook's [sendMessage(inputValue)], which runs up to its [await]. *)
Definition chat_send (c : CtlState) : CtlState :=
  let input := c.(hook).(inputValue) in
  let h := if is_blank input then c.(hook) else tick_st c.(hook) in
  let '(l, r) := handleSendMessage input (clock c.(hook).(ticks)) c.(lim) in
  match r with
  | None =>
      mkCtl l h c.(ui) c.(isVisible) c.(threadStore) c.(ipPending) c.(inflight)
            (if is_blank input then c.(alertTimers) else S c.(alertTimers)) c.(skeletonTimers)
  | Some m =>
      let '(b, h') := ns_start clock m h in
      after_messages
        (mkCtl l h' c.(ui) c.(isVisible) c.(threadStore) c.(ipPending)
               (c.(inflight) || exc_default false b) c.(alertTimers) c.(skeletonTimers))
  end.

(** The events the widget reacts to. *)
Inductive ctl_event :=
| Mount (innerWidth : Z)            (** first commit: the mount effects *)
| Resize (innerWidth : Z)           (** [resize] on [window] *)
| FooterIntersect (b : bool)        (** [Layout.tsx] lines 59-64 *)
| IpResolved (r : exc value)        (** [getNetworkIdentifier] settles *)
| TypeInput (v : jsstr)             (** [onChange] of the input *)
| InputKey (k : jsstr)              (** [keydown] in the input *)
| DocKey (k : jsstr)                (** [keydown] elsewhere in the page *)
| OutsideClick                      (** [mousedown] outside the widget *)
| ClickToggle | ClickVoice | ClickSend
| FocusInput | BlurInput
| FetchSettled (r : FetchResult)    (** the chat request's [await] resumes *)
| TimerTick                         (** the cooldown's [setInterval] fires *)
| AlertTimeout | SkeletonTimeout.   (** a [setTimeout] fires *)

(** Lines 63-70 and 73-92: the identifier is stored, and the effect on
    [networkId] runs when it changed (it was [''] until now); it reads
    [Date.now()] when a window is stored under the identifier. *)
Definition on_identified (nid : jsstr) (c : CtlState) : CtlState :=
  let l := set_network_id nid c.(lim) in
  let h := if bool_decide (nid = []) then c.(hook)
           else match c.(lim).(store) !! limit_key nid with
                | Some _ => tick_st c.(hook)
                | None => c.(hook)
                end in
  mkCtl (load_limit (clock c.(hook).(ticks)) l) h c.(ui) c.(isVisible) c.(threadStore)
        false c.(inflight) c.(alertTimers) c.(skeletonTimers).

(** One event: [None] when it cannot happen in the state (its control is
    not rendered or is disabled, or nothing is pending for it). *)
Definition ctl_run (c : CtlState) (e : ctl_event) : option CtlState :=
  let mounted := c.(ui).(isComponentRendered) in
  match e with
  | Mount w =>
      if mounted then None
      else Some (mkCtl c.(lim) c.(hook) (set_rendered (checkMobile w c.(ui))) c.(isVisible)
                       (Some c.(hook).(threadId)) true c.(inflight) c.(alertTimers)
                       c.(skeletonTimers))
  | Resize w => if mounted then Some (set_ui (checkMobile w c.(ui)) c) else None
  | FooterIntersect b =>
      Some (mkCtl c.(lim) c.(hook) c.(ui) (negb b) c.(threadStore) c.(ipPending)
                  c.(inflight) c.(alertTimers) c.(skeletonTimers))
  | IpResolved r =>
      if c.(ipPending) then
        match getNetworkIdentifier r with
        | Some (JStr nid) => Some (on_identified nid c)
        | _ => None
        end
      else None
  | TypeInput v =>
      if input_shown c && negb (input_disabled c)
      then Some (set_hook (set_input_st v c.(hook)) c) else None
  | InputKey k =>
      if input_shown c && negb (input_disabled c) then
        let c1 :=
          if bool_decide (k = js "Enter") && negb (is_blank c.(hook).(inputValue))
          then chat_send (set_ui (expand_on_enter c.(ui)) c) else c in
        Some (if bool_decide (k = js "Escape") then set_ui (collapse_listener c1.(ui)) c1 else c1)
      else None
  | DocKey k =>
      if mounted then
        Some (if bool_decide (k = js "Escape") then set_ui (collapse_listener c.(ui)) c else c)
      else None
  | OutsideClick =>
      if mounted && c.(isVisible) then Some (set_ui (collapse_listener c.(ui)) c) else None
  | ClickToggle => if toggle_shown c then Some (set_ui (toggleChatExpansion c.(ui)) c) else None
  | ClickVoice => if input_shown c then Some (set_ui (toggleVoiceMode c.(ui)) c) else None
  | ClickSend => if input_shown c && negb (send_disabled c) then Some (chat_send c) else None
  | FocusInput =>
      if input_shown c && negb (input_disabled c) then Some (set_ui (handleInputFocus c.(ui)) c)
      else None
  | BlurInput => if input_shown c then Some (set_ui (handleInputBlur c.(ui)) c) else None
  | FetchSettled r =>
      if c.(inflight) then
        let '(_, h) := ns_finish clock r c.(hook) in
        Some (after_messages (mkCtl c.(lim) h c.(ui) c.(isVisible) c.(threadStore)
                                    c.(ipPending) false c.(alertTimers) c.(skeletonTimers)))
      else None
  | TimerTick => if 0 <? c.(lim).(timeRemaining) then Some (set_lim (tick c.(lim)) c) else None
  | AlertTimeout =>
      match c.(alertTimers) with
      | S n => Some (mkCtl (alert_timeout c.(lim)) c.(hook) c.(ui) c.(isVisible) c.(threadStore)
                           c.(ipPending) c.(inflight) n c.(skeletonTimers))
      | O => None
      end
  | SkeletonTimeout =>
      match c.(skeletonTimers) with
      | S n => Some (mkCtl c.(lim) c.(hook) (skeleton_timeout c.(ui)) c.(isVisible)
                           c.(threadStore) c.(ipPending) c.(inflight) c.(alertTimers) n)
      | O => None
      end
  end.

(** A run of events from the first render. *)
Fixpoint ctl_trace (c : CtlState) (es : list ctl_event) : option CtlState :=
  match es with
  | [] => Some c
  | e :: es' => c' ← ctl_run c e; ctl_trace c' es'
  end.

Inductive ctl_reachable : CtlState -> Prop :=
| ctl_reach_init stored st : ctl_reachable (ctl_init stored st)
| ctl_reach_step c e c' : ctl_reachable c -> ctl_run c e = Some c' -> ctl_reachable c'.

(** ** What each part of a step does *)

Lemma ns_start_run m h :
  (ns_start clock m h).1 = Ok (negb (is_blank m || isLoading h)) /\
  isLoading (ns_start clock m h).2 = isLoading h || negb (is_blank m || isLoading h).
Proof.
  unfold ns_start. m_red.
  destruct (is_blank m || isLoading h); simpl; by rewrite ?orb_false_r, ?orb_true_r.
Qed.

(** The [finally] block: whatever the response, loading is over. *)
Lemma ns_finish_not_loading r h : isLoading (ns_finish clock r h).2 = false.
Proof.
  unfold ns_finish, try_finally.
  destruct (try_catch _ _ h) as [x h']. reflexivity.
Qed.

Lemma after_messages_shape c :
  exists u n, after_messages c =
    mkCtl c.(lim) c.(hook) u c.(isVisible) c.(threadStore) c.(ipPending) c.(inflight)
          c.(alertTimers) n.
Proof. unfold after_messages. destruct (skeleton_effect _ _). eauto. Qed.

Ltac after_shape :=
  match goal with
  | |- context [after_messages ?x] => destruct (after_messages_shape x) as (? & ? & ->)
  end.

Lemma chat_send_lim c :
  (chat_send c).(lim) = (handleSendMessage c.(hook).(inputValue) (clock c.(hook).(ticks)) c.(lim)).1.
Proof.
  unfold chat_send. destruct (handleSendMessage _ _ _) as [l [m|]]; [|done].
  destruct (ns_start _ _ _). after_shape.
  done.
Qed.

Lemma chat_send_loading c :
  c.(inflight) = c.(hook).(isLoading) ->
  (chat_send c).(inflight) = (chat_send c).(hook).(isLoading).
Proof.
  intros Hi. unfold chat_send.
  destruct (handleSendMessage _ _ _) as [l [m|]].
  - pose proof (ns_start_run m (if is_blank (inputValue (hook c)) then hook c else tick_st (hook c)))
      as [Hr Hl].
    destruct (ns_start _ _ _) as [r h']. simpl in Hr, Hl. subst r.
    after_shape. simpl.
    rewrite Hl, Hi. by destruct (is_blank (inputValue (hook c))).
  - simpl. rewrite Hi. by destruct (is_blank (inputValue (hook c))).
Qed.

Lemma chat_send_alertTimers c :
  (handleSendMessage c.(hook).(inputValue) (clock c.(hook).(ticks)) c.(lim)).2 <> None ->
  (chat_send c).(alertTimers) = c.(alertTimers).
Proof.
  unfold chat_send. destruct (handleSendMessage _ _ _) as [l [m|]]; simpl; [|done].
  intros _. destruct (ns_start _ _ _).
  by after_shape.
Qed.

(** Every event moves the limiter's part of the state along [lim_step]. *)
Lemma ctl_run_lim c e c' : ctl_run c e = Some c' -> rtc lim_step c.(lim) c'.(lim).
Proof.
  intros Hr. destruct e; cbn [ctl_run] in Hr; repeat case_match; simplify_eq/=;
    try reflexivity.
  - (* IpResolved *)
    eapply rtc_l; [apply LimIdentify|]. apply rtc_once, LimLoad.
  - (* Enter *) apply rtc_once. rewrite chat_send_lim. apply LimSend.
  - (* Enter and Escape *) apply rtc_once. rewrite chat_send_lim. apply LimSend.
  - apply rtc_once. rewrite chat_send_lim. apply LimSend.
  - after_shape. reflexivity.
  - apply rtc_once, LimTick. lia.
  - apply rtc_once, LimAlertOff.
Qed.

(** A non-blank message while not loading: the user message (its id
    reading the clock once), the input cleared, loading set and the request
    recorded. *)
Lemma ns_start_issue m h :
  is_blank m = false -> isLoading h = false ->
  ns_start clock m h =
  (Ok true, mkHookState (messages h ++ [user_message clock m (ticks h)]) [] true (threadId h)
                        (sent h ++ [ns_request m h]) (S (ticks h))).
Proof. intros Hb Hl. destruct h. unfold ns_start. m_red. by rewrite Hb, Hl. Qed.

Lemma ns_start_threadId m h : threadId (ns_start clock m h).2 = threadId h.
Proof. unfold ns_start. m_red. by destruct (_ || _). Qed.

(** Handling a response writes neither the thread id nor the requests. *)
Lemma ns_finish_keeps r : keeps_env (ns_finish clock r).
Proof.
  unfold ns_finish, ns_line, ns_final, line_message, final_message. keeps.
Qed.


(** ** Invariants of the widget *)

(** The no-alert part of the invariant: the alert is hidden, no timeout
    for it is pending, and the hook is loading exactly while a request is
    in flight. *)
Definition ctl_inv (c : CtlState) : Prop :=
  c.(lim).(showLimitAlert) = false /\ c.(alertTimers) = 0%nat /\
  c.(inflight) = c.(hook).(isLoading).

Lemma chat_send_inv c :
  reachable c.(lim) -> ctl_inv c -> c.(lim).(timeRemaining) <= 0 -> ctl_inv (chat_send c).
Proof.
  intros Hr (Ha & Ht & Hi) Htr.
  destruct (is_blank (inputValue (hook c))) eqn:Hb.
  - unfold chat_send, handleSendMessage. rewrite Hb. by split_and!.
  - destruct (send_accepted_when_idle (inputValue (hook c)) (clock (ticks (hook c))) (lim c))
      as [Hacc Hal]; [by apply reachable_lim_inv | by apply lim_reachable_cooling | done | done |].
    split_and!.
    + by rewrite chat_send_lim, Hal.
    + rewrite chat_send_alertTimers; [done|]. by rewrite Hacc.
    + by apply chat_send_loading.
Qed.

Lemma input_enabled_idle c :
  input_shown c && negb (input_disabled c) = true -> c.(lim).(timeRemaining) <= 0.
Proof.
  unfold input_disabled. intros [_ Hd]%andb_prop.
  apply negb_true_iff, orb_false_iff in Hd as [_ Hd]. by apply Z.ltb_ge in Hd.
Qed.

Lemma send_enabled_idle c :
  input_shown c && negb (send_disabled c) = true -> c.(lim).(timeRemaining) <= 0.
Proof.
  unfold send_disabled. intros [Hs Hd]%andb_prop.
  apply negb_true_iff, orb_false_iff in Hd as [_ Hd].
  apply input_enabled_idle. by rewrite Hs, Hd.
Qed.

Lemma ctl_run_inv c e c' :
  reachable c.(lim) -> ctl_inv c -> ctl_run c e = Some c' -> ctl_inv c'.
Proof.
  intros Hr Hinv Hrun. pose proof Hinv as (Ha & Ht & Hi).
  assert (Hui : forall u c0, ctl_inv c0 -> ctl_inv (set_ui u c0)) by done.
  destruct e; cbn [ctl_run] in Hrun; repeat case_match; simplify_eq/=; try done.
  - unfold ctl_inv, on_identified. cbn. rewrite load_limit_alert.
    repeat case_match; by split_and!.
  - apply Hui, chat_send_inv; [done | by apply Hui | by apply (input_enabled_idle c)].
  - apply chat_send_inv; [done | by apply Hui | by apply (input_enabled_idle c)].
  - by apply chat_send_inv; [..| apply send_enabled_idle].
  - after_shape. unfold ctl_inv. cbn. split_and!; [done | done |].
    match goal with H : ns_finish _ _ _ = (_, ?h) |- _ =>
      pose proof (ns_finish_not_loading r (hook c)) as Hl; rewrite H in Hl; cbn in Hl end.
    by rewrite Hl.
  - unfold ctl_inv. cbn. by rewrite tick_alert.
Qed.

Lemma ctl_init_loading stored : isLoading (init_hook stored) = false.
Proof. unfold init_hook. repeat case_match; done. Qed.

Lemma ctl_reachable_inv c : ctl_reachable c -> reachable c.(lim) /\ ctl_inv c.
Proof.
  induction 1 as [stored st|c e c' _ [Hr Hi] Hrun].
  - split; [constructor|]. unfold ctl_inv. cbn. by rewrite ctl_init_loading.
  - split; [eapply reachable_rtc; [done|by eapply ctl_run_lim] | by eapply ctl_run_inv].
Qed.

(** ** The widget's guarantees *)

(** C4: The limiter inside the widget is the limiter of [RateLimiter.v]:
    every state it reaches is reachable there, so its invariants hold. *)
Theorem ctl_refines_limiter c : ctl_reachable c -> reachable c.(lim) /\ lim_inv c.(lim).
Proof.
  intros Hc. destruct (ctl_reachable_inv c Hc) as [Hr _].
  split; [done|]. by apply reachable_lim_inv.
Qed.

(** C3: The "Message limit reached" alert is never shown: the input and the
    send button are disabled while the countdown runs, and a full window
    always has a countdown running, so the limiter never refuses a send
    that reaches it. *)
Theorem ctl_alert_never_shown c :
  ctl_reachable c -> c.(lim).(showLimitAlert) = false /\ c.(alertTimers) = 0%nat.
Proof. intros Hc. destruct (ctl_reachable_inv c Hc) as [_ (Ha & Ht & _)]. done. Qed.

(** The proof of [ctl_loading_iff_inflight], shared with the lemmas that use it. *)
Theorem ctl_reachable_loading c : ctl_reachable c -> c.(inflight) = c.(hook).(isLoading).
Proof. intros Hc. by destruct (ctl_reachable_inv c Hc) as [_ (_ & _ & Hi)]. Qed.

(** C6: [isLoading] is true exactly while a chat request is in flight. *)
Theorem ctl_loading_iff_inflight c : ctl_reachable c -> c.(inflight) = c.(hook).(isLoading).
Proof. exact (ctl_reachable_loading c). Qed.

Lemma on_identified_env nid c : env (on_identified nid c).(hook) = env c.(hook).
Proof. unfold on_identified. cbn. by repeat case_match. Qed.

(** C7: Sends are serialized: while a request is in flight no event issues
    another one or changes the thread id. *)
Theorem ctl_no_send_in_flight c e c' :
  ctl_reachable c -> c.(inflight) = true -> ctl_run c e = Some c' ->
  c'.(hook).(sent) = c.(hook).(sent) /\ c'.(hook).(threadId) = c.(hook).(threadId).
Proof.
  intros Hc Hf Hrun. pose proof (ctl_reachable_loading c Hc) as Hl. rewrite Hf in Hl.
  cut (env c'.(hook) = env c.(hook)); [by intros [= -> ->]|].
  destruct e; cbn [ctl_run] in Hrun; repeat case_match; simplify_eq/=; try done;
    try (unfold send_disabled, input_disabled in *; rewrite <- Hl in *;
         rewrite ?orb_true_r, ?andb_false_r in *; discriminate).
  - apply on_identified_env.
  - after_shape. cbn. match goal with H : ns_finish _ _ _ = (_, ?h) |- _ =>
      pose proof (ns_finish_keeps r (hook c)) as Hk; rewrite H in Hk; exact Hk end.
Qed.

(** C8: Every response ends the loading state, whatever it is. *)
Theorem ctl_response_clears_loading c r :
  ctl_reachable c -> c.(inflight) = true ->
  exists c', ctl_run c (FetchSettled r) = Some c' /\
             c'.(inflight) = false /\ c'.(hook).(isLoading) = false.
Proof.
  intros _ Hf. cbn [ctl_run]. rewrite Hf.
  pose proof (ns_finish_not_loading r (hook c)) as Hl.
  destruct (ns_finish clock r (hook c)) as [x h]. cbn in Hl.
  eexists. split; [reflexivity|]. after_shape. done.
Qed.

Lemma send_enabled_facts c :
  input_shown c && negb (send_disabled c) = true ->
  is_blank c.(hook).(inputValue) = false /\ c.(hook).(isLoading) = false /\
  c.(lim).(timeRemaining) <= 0.
Proof.
  intros He. pose proof (send_enabled_idle c He) as Ht.
  unfold send_disabled, input_disabled in He.
  destruct (is_blank _), (isLoading _); cbn in He; rewrite ?andb_false_r in He; done.
Qed.

(** C9: Clicking "send" in a reachable state: the limiter accepts and
    records the message, the user message is appended (its id reads the
    clock after the limiter did), the input is cleared, loading starts and
    exactly one request, with the trimmed text and the session's thread
    id, is issued. *)
Theorem ctl_click_send c c' :
  ctl_reachable c -> ctl_run c ClickSend = Some c' ->
  let input := c.(hook).(inputValue) in
  let t := c.(hook).(ticks) in
  (handleSendMessage input (clock t) c.(lim)).2 = Some input /\
  c'.(lim) = (handleSendMessage input (clock t) c.(lim)).1 /\
  c'.(hook) = mkHookState (c.(hook).(messages) ++ [user_message clock input (S t)]) [] true
                          c.(hook).(threadId) (c.(hook).(sent) ++ [ns_request input c.(hook)])
                          (S (S t)) /\
  c'.(inflight) = true.
Proof.
  intros Hc Hrun. cbn [ctl_run] in Hrun.
  destruct (input_shown c && negb (send_disabled c)) eqn:He; [|done]. injection Hrun as <-.
  destruct (send_enabled_facts c He) as (Hb & Hl & Ht).
  destruct (ctl_reachable_inv c Hc) as [Hr _].
  destruct (send_accepted_when_idle (inputValue (hook c)) (clock (ticks (hook c))) (lim c))
    as [Hacc _]; [by apply reachable_lim_inv | by apply lim_reachable_cooling | done | done |].
  cbn zeta. split; [done|].
  unfold chat_send. rewrite Hb.
  destruct (handleSendMessage _ _ _) as [l r]. cbn in Hacc. subst r.
  rewrite ns_start_issue by done. after_shape. cbn. split_and!; [reflexivity | reflexivity | apply orb_true_r].
Qed.

Lemma skeleton_rendered msgs u :
  isComponentRendered (skeleton_effect msgs u).1 = isComponentRendered u.
Proof. unfold skeleton_effect. by repeat case_match. Qed.

Lemma after_messages_rendered c :
  isComponentRendered (after_messages c).(ui) = isComponentRendered c.(ui) /\
  (after_messages c).(threadStore) = c.(threadStore) /\ (after_messages c).(hook) = c.(hook).
Proof.
  unfold after_messages. pose proof (skeleton_rendered (messages (hook c)) (ui c)).
  destruct (skeleton_effect _ _). by split_and!.
Qed.

Lemma chat_send_thread c :
  threadId (chat_send c).(hook) = threadId c.(hook) /\
  (chat_send c).(threadStore) = c.(threadStore) /\
  isComponentRendered (chat_send c).(ui) = isComponentRendered c.(ui).
Proof.
  unfold chat_send. destruct (handleSendMessage _ _ _) as [l [m|]]; [|by destruct (is_blank _)].
  pose proof (ns_start_threadId m (if is_blank (inputValue (hook c)) then hook c else tick_st (hook c))).
  destruct (ns_start _ _ _) as [r h'] eqn:E.
  match goal with |- context [after_messages ?x] => destruct (after_messages_rendered x) as (-> & -> & ->) end.
  cbn in *. split_and!; [|done|done]. by destruct (is_blank _).
Qed.

Lemma collapse_rendered u : isComponentRendered (collapse_listener u) = isComponentRendered u.
Proof. unfold collapse_listener. by case_match. Qed.

Lemma expand_rendered u : isComponentRendered (expand_on_enter u) = isComponentRendered u.
Proof. unfold expand_on_enter. by case_match. Qed.

(** What a step does to the thread id and its stored copy: the id never
    changes, and only the mount effect writes [localStorage]. *)
Lemma ctl_run_thread c e c' :
  ctl_run c e = Some c' ->
  threadId c'.(hook) = threadId c.(hook) /\
  ((c'.(threadStore) = c.(threadStore) /\
    isComponentRendered c'.(ui) = isComponentRendered c.(ui)) \/
   (c'.(threadStore) = Some (threadId c.(hook)) /\ isComponentRendered c'.(ui) = true)).
Proof.
  intros Hrun.
  destruct e; cbn [ctl_run] in Hrun; repeat case_match; simplify_eq/=;
    try (split; [done|left; split; [done|]]);
    try (unfold collapse_listener, toggleChatExpansion, handleInputBlur, expand_on_enter;
         by repeat case_match).
  - split; [done|by right].
  - split; [by repeat case_match | by left].
  - pose proof (chat_send_thread (set_ui (expand_on_enter (ui c)) c)) as (Ht & Hs & Hr).
    cbn in *. split; [done|left]. split; [done|]. by rewrite collapse_rendered, Hr, expand_rendered.
  - pose proof (chat_send_thread (set_ui (expand_on_enter (ui c)) c)) as (Ht & Hs & Hr).
    cbn in *. split; [done|left]. split; [done|]. by rewrite Hr, expand_rendered.
  - pose proof (chat_send_thread c) as (Ht & Hs & Hr). split; [done|by left].
  - match goal with |- context [after_messages ?x] => destruct (after_messages_rendered x) as (-> & -> & ->) end.
    cbn. split; [|by left].
    match goal with H : ns_finish _ _ _ = (_, ?h) |- _ =>
      pose proof (ns_finish_keeps r (hook c)) as Hk; rewrite H in Hk; by injection Hk end.
Qed.

Lemma init_hook_threadId stored :
  threadId (init_hook stored) <> [] /\
  forall t, stored = Some t -> t <> [] -> threadId (init_hook stored) = t.
Proof.
  unfold init_hook. split.
  - repeat case_match; cbn; [discriminate|by case_bool_decide|discriminate].
  - intros t -> Ht. by rewrite bool_decide_eq_false_2.
Qed.

(** C13: The thread is resumed after a reload: once mounted, the widget has
    written its thread id to [localStorage], and a page that starts from
    that storage gets the same thread id back. *)
Theorem ctl_thread_resumed c :
  ctl_reachable c -> isComponentRendered c.(ui) = true ->
  c.(threadStore) = Some c.(hook).(threadId) /\
  threadId (init_hook c.(threadStore)) = c.(hook).(threadId).
Proof.
  intros Hc Hm.
  assert (Hinv : threadId c.(hook) <> [] /\
                 (isComponentRendered c.(ui) = true -> c.(threadStore) = Some c.(hook).(threadId))).
  { clear Hm. induction Hc as [stored st|c e c' _ [Hne Hs] Hrun].
    - split; [apply init_hook_threadId|done].
    - destruct (ctl_run_thread c e c' Hrun) as (-> & [[-> Hr] | [-> Hr]]);
        [split; [done|rewrite Hr; intros ->%Hs; congruence] | done]. }
  destruct Hinv as [Hne Hs]. specialize (Hs Hm). split; [done|].
  rewrite Hs. by apply init_hook_threadId.
Qed.

Lemma ctl_trace_reachable c es c' :
  ctl_reachable c -> ctl_trace c es = Some c' -> ctl_reachable c'.
Proof.
  revert c. induction es as [|e es IH]; intros c Hc Ht; simpl in Ht; [by simplify_eq|].
  destruct (ctl_run c e) as [c1|] eqn:E; [|done]. apply (IH c1); [|done].
  by apply (ctl_reach_step c e).
Qed.

End Widget.

(** ** Runs *)

Section Runs.

Definition ip_reply : exc value := Ok (JObj [(js "ip", JStr (js "203.0.113.7"))]).

(** A first visit: mount on a desktop, the network lookup answers, the user
    types and clicks "send". *)
Definition visit_events : list ctl_event :=
  [Mount 1280; IpResolved ip_reply; TypeInput (js " hello "); ClickSend].

Definition visit_state : CtlState :=
  mkCtl (mkLimiter (Some (mkLimit 1 (clock0 1) (clock0 1))) 0 false (js "203.0.113.7")
                   {[limit_key (js "203.0.113.7") := mkLimit 1 (clock0 1) (clock0 1)]})
        (mkHookState [user_message clock0 (js " hello ") 2] [] true (js "thread-" ++ dec_of_Z (clock0 0))
                     [mkRequest ns_endpoint (js "hello") (js "thread-" ++ dec_of_Z (clock0 0))] 3)
        (mkUi true false false false false false None false) true
        (Some (js "thread-" ++ dec_of_Z (clock0 0))) false true 0 0.

Lemma visit_trace : ctl_trace clock0 (ctl_init clock0 None ∅) visit_events = Some visit_state.
Proof. reflexivity. Qed.

Lemma visit_reachable : ctl_reachable clock0 visit_state.
Proof. eapply ctl_trace_reachable; [constructor|exact visit_trace]. Qed.

Definition typed_state : CtlState :=
  match ctl_trace clock0 (ctl_init clock0 None ∅) (take 3 visit_events) with
  | Some c => c | None => ctl_init clock0 None ∅
  end.

Lemma typed_reachable : ctl_reachable clock0 typed_state.
Proof.
  apply (ctl_trace_reachable clock0 (ctl_init clock0 None ∅) (take 3 visit_events));
    [constructor|reflexivity].
Qed.

(** The reply to the request: a tool output, then the final answer. *)
Definition visit_reply : FetchResult := body_of [tool_line ++ [NL] ++ final_line].

Definition answered_state : CtlState :=
  match ctl_run clock0 visit_state (FetchSettled visit_reply) with
  | Some c => c | None => visit_state
  end.

(** The whole visit: the user message, the tool card and the answer are
    shown, loading is over, and the tool card is marked as the latest one
    with its skeleton timeout scheduled. *)
Example visit_answered :
  map type answered_state.(hook).(messages) = [TUser; TToolOutput; TAgent] /\
  answered_state.(hook).(isLoading) = false /\ answered_state.(inflight) = false /\
  answered_state.(ui).(isSkeletonLoading) = true /\ answered_state.(skeletonTimers) = 1%nat.
Proof. split_and!; reflexivity. Qed.

Lemma ctl_refines_limiter_witness :
  reachable visit_state.(lim) /\ lim_inv visit_state.(lim).
Proof. exact (ctl_refines_limiter clock0 visit_state visit_reachable). Defined.

Lemma ctl_alert_never_shown_witness :
  visit_state.(lim).(showLimitAlert) = false /\ visit_state.(alertTimers) = 0%nat.
Proof. exact (ctl_alert_never_shown clock0 visit_state visit_reachable). Defined.

Lemma ctl_loading_iff_inflight_witness :
  visit_state.(inflight) = visit_state.(hook).(isLoading).
Proof. exact (ctl_loading_iff_inflight clock0 visit_state visit_reachable). Defined.

Lemma ctl_no_send_in_flight_witness :
  answered_state.(hook).(sent) = visit_state.(hook).(sent) /\
  answered_state.(hook).(threadId) = visit_state.(hook).(threadId).
Proof.
  exact (ctl_no_send_in_flight clock0 visit_state (FetchSettled visit_reply) answered_state
           visit_reachable eq_refl eq_refl).
Defined.

Lemma ctl_response_clears_loading_witness :
  exists c', ctl_run clock0 visit_state (FetchSettled visit_reply) = Some c' /\
             c'.(inflight) = false /\ c'.(hook).(isLoading) = false.
Proof. exact (ctl_response_clears_loading clock0 visit_state visit_reply visit_reachable eq_refl). Defined.

Lemma ctl_click_send_witness :
  let input := typed_state.(hook).(inputValue) in
  let t := typed_state.(hook).(ticks) in
  (handleSendMessage input (clock0 t) typed_state.(lim)).2 = Some input /\
  visit_state.(lim) = (handleSendMessage input (clock0 t) typed_state.(lim)).1 /\
  visit_state.(hook) =
    mkHookState (typed_state.(hook).(messages) ++ [user_message clock0 input (S t)]) [] true
                typed_state.(hook).(threadId)
                (typed_state.(hook).(sent) ++ [ns_request input typed_state.(hook)]) (S (S t)) /\
  visit_state.(inflight) = true.
Proof. exact (ctl_click_send clock0 typed_state visit_state typed_reachable eq_refl). Defined.

Lemma ctl_thread_resumed_witness :
  visit_state.(threadStore) = Some visit_state.(hook).(threadId) /\
  threadId (init_hook clock0 visit_state.(threadStore)) = visit_state.(hook).(threadId).
Proof. exact (ctl_thread_resumed clock0 visit_state visit_reachable eq_refl). Defined.

End Runs.
