(* ===== verification/View.v ===== *)
(** * View: what the chat widget renders

    The render functions of [src/src/components/ChatUI.tsx] (lines 262-284
    and 313-693), [ToolOutputDisplay.tsx] and the tool cards under
    [src/src/components/tools/], as functions from the widget's state
    ([Controller.CtlState]) to a tree of elements ([vnode]).  The tree keeps
    the element types, the text, and the attributes the code computes
    (ids, keys, placeholders, [disabled], the class strings of
    [getChatContainerStyles] and [getChatBoxStyles]); static class names
    and icons' styling are left out; the skeletons keep their element
    structure and the [shimmer] keyframes.

    Rendering can throw: a property read or a method call on the wrong
    value inside a render function throws, and React, with no error
    boundary in the tree, unmounts the whole page.  So a render returns
    [exc]. JSX children follow React: [undefined], [null] and booleans
    render nothing, numbers and strings render as text, arrays render
    each element, and a plain object throws. *)

From stdpp Require Import base list decidable gmap.
From Stdlib Require Import ZArith Lia.
From S2P Require Import Prelude JsValue IntRuntime Message Events NoStream RateLimiter Controller.

Section View.
Context `{JsRuntime}.

(** ** Elements *)

#[local] Set Warnings "-register-all".

Inductive vnode :=
| VText (s : jsstr)
(** an element: its type and the attributes the code computes, named as
    in the JSX, and its children *)
| VEl (tag : String.string) (props : list (String.string * jsstr)) (children : list vnode)
(** [<ReactMarkdown>{source}</ReactMarkdown>], a library component *)
| VMarkdown (source : jsval).

Definition el (tag : String.string) (children : list vnode) : vnode := VEl tag [] children.
Definition txt (s : String.string) : vnode := VText (js s).
Definition icon (name : String.string) : vnode := VEl name [] [].
Arguments VEl tag%_string_scope props children.

(** An attribute set in the JSX: [name={value}]. *)
Definition jsx_prop (name : String.string) (v : jsstr) : String.string * jsstr := (name, v).
Arguments jsx_prop name%_string_scope v.
Arguments el tag%_string_scope children.
Arguments txt s%_string_scope.
Arguments icon name%_string_scope.

(** [{v}] as a JSX child. *)
Fixpoint child_value (v : value) : exc (list vnode) :=
  match v with
  | JNull | JBool _ => Ok []
  | JNum n => Ok [VText (num_to_string n)]
  | JStr s => Ok [VText s]
  | JArr items =>
      (fix go (l : list value) : exc (list vnode) :=
         match l with
         | [] => Ok []
         | x :: r => a ← child_value x; b ← go r; Ok (a ++ b)
         end) items
  | JObj _ => Throw (js "Objects are not valid as a React child")
  end.

Definition child (v : jsval) : exc (list vnode) :=
  match v with None => Ok [] | Some x => child_value x end.

(** [{v && node}]: a falsy [v] is itself the child. *)
Definition and_child (v : jsval) (node : exc (list vnode)) : exc (list vnode) :=
  if truthy v then node else child v.

(** An attribute whose value is a JavaScript value: omitted for
    [undefined], [null] and booleans, else the value's string. *)
Definition attr (name : String.string) (v : jsval) : list (String.string * jsstr) :=
  match v with
  | None | Some JNull | Some (JBool _) => []
  | Some x => [(name, to_str x)]
  end.
Arguments attr name%_string_scope v.

(** A boolean attribute such as [disabled]: present when true. *)
Definition bool_attr (name : String.string) (b : bool) : list (String.string * jsstr) :=
  if b then [(name, [])] else [].
Arguments bool_attr name%_string_scope b.

(** [o.k] where [o] may be [undefined]. *)
Definition read_prop (o : jsval) (k : key) : exc jsval :=
  match o with
  | None => Throw (js "Cannot read properties of undefined (reading '" ++ key_name k ++ js "')")
  | Some x => get x k
  end.

(** [v.toUpperCase()] *)
Definition call_upper (v : jsval) : exc jsstr :=
  match v with
  | Some (JStr s) => Ok (str_to_upper s)
  | None => Throw (js "Cannot read properties of undefined (reading 'toUpperCase')")
  | Some JNull => Throw (js "Cannot read properties of null (reading 'toUpperCase')")
  | Some _ => Throw (js "toUpperCase is not a function")
  end.

(** [JSON.stringify(v)] or [JSON.stringify(v, null, n)] as a child:
    [undefined] stringifies to [undefined], which renders nothing. *)
Definition stringify_child (indent : option nat) (v : jsval) : list vnode :=
  match v with None => [] | Some x => [VText (json_stringify indent x)] end.

(** ** Tool cards *)

(** The skeletons: [<Skeleton>] placeholders whose classes (sizes,
    gradients, animation) are static, and the [<style>] element holding
    the [shimmer] keyframes as the template literal writes them. *)
Definition Skeleton : vnode := el "Skeleton" [].

Definition shimmer_css : jsstr :=
  join_nl [[]; js "        @keyframes shimmer {";
           js "          0% { background-position: -200% 0; }";
           js "          100% { background-position: 200% 0; }";
           js "        }"; js "      "].

Definition skeleton_card (header_icon : vnode) (content : list vnode) : vnode :=
  el "Card" [el "CardHeader" [el "CardTitle" [Skeleton]; header_icon];
             el "CardContent" content;
             el "style" [VText shimmer_css]].

(** [WeatherCard.tsx] lines 71-102 *)
Definition WeatherCardSkeleton : vnode :=
  skeleton_card Skeleton
    [el "div" [el "div" [Skeleton; Skeleton]; Skeleton];
     el "div" [Skeleton; Skeleton];
     Skeleton].

(** [GithubCard.tsx] lines 128-173 *)
Definition GithubCardSkeleton : vnode :=
  skeleton_card Skeleton
    [el "div" [el "div" [Skeleton; Skeleton]; Skeleton; Skeleton];
     el "div" [Skeleton; Skeleton; Skeleton];
     el "div" [el "div" [el "div" [Skeleton; Skeleton]; el "div" [Skeleton; Skeleton]]; Skeleton]].

(** [LinkedInCard.tsx] lines 62-105 *)
Definition LinkedInCardSkeleton : vnode :=
  skeleton_card Skeleton
    [el "div" [Skeleton; el "div" [Skeleton; Skeleton]];
     el "div" [el "div" [Skeleton; Skeleton]; el "div" [Skeleton; Skeleton]];
     el "div" [el "div" [Skeleton; Skeleton]; Skeleton]].

(** The text after the temperature: the source holds the UTF-8 bytes of
    the degree sign read as Latin-1 and saved again, U+00C2 U+00B0. *)
Definition degree_text : jsstr := [194; 176] ++ js "C".

(** [WeatherCard.tsx] lines 19-69: the JSX expressions are evaluated in
    order (a [toUpperCase] on a non-string throws), then React renders the
    children (an object child throws). *)
Definition WeatherCard (output : jsval) : exc vnode :=
  temp ← read_prop output KCurrentTemperature;
  rain ← read_prop output KCurrentRain;
  city ← read_prop output KCity;
  region ← read_prop output KRegion; region_u ← call_upper region;
  country ← read_prop output KCountry; country_u ← call_upper country;
  time ← read_prop output KCurrentTime;
  temp_n ← child temp; rain_n ← child rain; city_n ← child city;
  Ok (el "Card" [
        el "CardHeader" [el "CardTitle" [txt "Current Weather"]; icon "Cloud"];
        el "CardContent" [
          el "div" [
            el "div" [el "div" (icon "Thermometer" :: temp_n ++ [VText degree_text]);
                      el "div" (icon "Droplets" :: rain_n ++ [txt "% rain"])];
            el "div" [icon "MapPin";
                      el "span" (city_n ++ [txt ", "; VText region_u; txt ", "; VText country_u])]];
          el "div" [icon "Clock"; el "span" [txt "Updated: "; VText (date_locale_string time)]]]]).

(** [GithubCard.tsx] lines 35-88; the button reads [profile_url] only
    when clicked. *)
Definition GithubCard (output : jsval) : exc vnode :=
  name ← read_prop output KName; user ← read_prop output KUsername;
  bio ← read_prop output KBio; loc ← read_prop output KLocation;
  repos ← read_prop output KNumRepos; repo ← read_prop output KRepo;
  title ← child (js_or name user); handle ← child user;
  bio_n ← and_child bio (b ← child bio; Ok [el "p" b]);
  loc_n ← and_child loc (l ← child loc; Ok [el "div" (icon "MapPin" :: l)]);
  repos_n ← child repos;
  Ok (el "Card" [
        el "CardHeader" [el "CardTitle" [txt "GitHub Profile"]; icon "GithubIcon"];
        el "CardContent" [
          el "div" (el "h3" title :: el "CardDescription" (txt "@" :: handle) :: bio_n);
          el "div" (loc_n ++
                    [el "div" (icon "Code" :: repos_n ++ [txt " repositories"]);
                     el "div" [icon "Star"; VEl "a" (attr "href" repo) [txt "Featured Repository"]]]);
          el "Button" [icon "GithubIcon"; txt "View on GitHub"]]]).

(** [LinkedInCard.tsx] lines 19-60 *)
Definition LinkedInCard (output : jsval) : exc vnode :=
  name ← read_prop output KName; headline ← read_prop output KHeadline;
  loc ← read_prop output KLocation; conns ← read_prop output KConnections;
  name_n ← child name; headline_n ← child headline;
  loc_n ← and_child loc (l ← child loc; Ok [el "div" (icon "MapPin" :: l)]);
  conns_n ← and_child conns (k ← child conns; Ok [el "div" (icon "Users" :: k ++ [txt " connections"])]);
  Ok (el "Card" [
        el "CardHeader" [el "CardTitle" [txt "LinkedIn Profile"]; icon "LinkedinIcon"];
        el "CardContent" [
          el "div" [el "h3" name_n; el "CardDescription" headline_n];
          el "div" (loc_n ++ conns_n);
          el "Button" [icon "LinkedinIcon"; txt "View on LinkedIn"]]]).

(** [ToolOutputDisplay.tsx] lines 14-40: [switch (toolName)] compares with
    [===]; [github-repo] renders nothing. *)
Definition ToolOutputDisplay (toolName toolArgs output toolCallId : jsval) (isLoading : bool)
    : exc (list vnode) :=
  if is_str toolName (js "weather-data") then
    if isLoading then Ok [WeatherCardSkeleton] else n ← WeatherCard output; Ok [n]
  else if is_str toolName (js "github-profile") then
    if isLoading then Ok [GithubCardSkeleton] else n ← GithubCard output; Ok [n]
  else if is_str toolName (js "linkedin-profile") then
    if isLoading then Ok [LinkedInCardSkeleton] else n ← LinkedInCard output; Ok [n]
  else if is_str toolName (js "github-repo") then Ok []
  else
    tn ← child toolName; tc ← child toolCallId;
    Ok [el "div" [el "p" (txt "Tool Invoked: " :: tn);
                  el "p" (txt "Arguments: " :: stringify_child None toolArgs);
                  el "p" [txt "Output:"];
                  el "pre" (stringify_child (Some 2%nat) output);
                  el "p" (txt "Tool Call ID: " :: tc)]].

(** ** The chat widget *)

(** [ChatUI.tsx] lines 263-273 *)
Definition getChatContainerStyles (u : UiState) : jsstr :=
  if u.(isMobile) then
    if u.(isChatExpanded) then js "fixed inset-0 z-50 bg-app"
    else js "fixed bottom-4 right-4 z-40 w-16 h-16"
  else js "fixed bottom-8 left-1/2 -translate-x-1/2 z-40 transition-all duration-300 ease-in-out "
       ++ (if u.(isChatExpanded) then js "w-full max-w-2xl h-[85vh]" else js "w-full max-w-lg h-auto").

(** Lines 275-284 *)
Definition getChatBoxStyles (u : UiState) : jsstr :=
  let active := u.(isInputFocused) || u.(isChatExpanded) in
  let baseOpacity := if active then js "bg-app" else js "bg-app/95" in
  let baseShadow := if active then js "shadow-2xl shadow-glow-purple" else js "shadow-lg" in
  if u.(isMobile) && negb u.(isChatExpanded) then
    baseOpacity ++ js " " ++ baseShadow
    ++ js " rounded-full border-2 border-primary/20 hover:border-primary/40 transition-all duration-300"
  else baseOpacity ++ js " " ++ baseShadow ++ js " rounded-xl border border-border-main transition-all duration-300".

(** The runtime value of a message's [type], for [msg.type === '...']. *)
Definition type_value (t : msg_type) : jsval :=
  match t with
  | TUser => Some (JStr (js "user")) | TAgent => Some (JStr (js "agent"))
  | TToolOutput => Some (JStr (js "tool_output"))
  | TAgentToolCall => Some (JStr (js "agent_tool_call"))
  | TError => Some (JStr (js "error"))
  | TOther v => v
  end.

Definition type_is (m : ChatMessage) (s : String.string) : bool := is_str (type_value m.(type)) (js s).
Arguments type_is m s%_string_scope.

Definition avatar : vnode :=
  el "Avatar" [el "AvatarImage" []; el "AvatarFallback" [txt "S"]].

(** An element of [Array.prototype.join]: [undefined] and [null] give the
    empty string. *)
Definition join_elem (v : jsval) : jsstr :=
  match v with None | Some JNull => [] | Some x => to_str x end.

Fixpoint join_with (sep : jsstr) (l : list jsstr) : jsstr :=
  match l with [] => [] | [x] => x | x :: r => x ++ sep ++ join_with sep r end.

Fixpoint exc_map {A B} (f : A -> exc B) (l : list A) : exc (list B) :=
  match l with
  | [] => Ok []
  | x :: r => y ← f x; ys ← exc_map f r; Ok (y :: ys)
  end.

(** Line 487: [msg.toolCalls.map(tc => tc.name).join(', ')]; [map] on
    anything but an array throws, and so does [tc.name] on [null]. *)
Definition tool_call_names (v : jsval) : exc jsstr :=
  match v with
  | Some (JArr items) => names ← exc_map (fun tc => get tc KName) items;
                         Ok (join_with (js ", ") (map join_elem names))
  | None => Throw (js "Cannot read properties of undefined (reading 'map')")
  | Some JNull => Throw (js "Cannot read properties of null (reading 'map')")
  | Some _ => Throw (js "msg.toolCalls.map is not a function")
  end.

(** Lines 414-516: one message of the list.  [loadingId] and [skeleton]
    are [loadingToolOutputId] and [isSkeletonLoading]; [rendered] is
    [isComponentRendered]. *)
Definition render_message (m : ChatMessage) (loadingId : option jsstr) (skeleton rendered : bool)
    : exc vnode :=
  tool ← (if type_is m "tool_output" then
            and_child m.(toolName) (and_child m.(output)
              (t ← ToolOutputDisplay m.(toolName) m.(toolArgs) m.(output)
                                     (js_or m.(toolCallId) (Some (JStr [])))
                                     (bool_decide (Some m.(id) = loadingId) && skeleton);
               Ok [el "div" t]))
          else Ok []);
  user ← (if type_is m "user" then c ← child m.(content); Ok [el "div" [el "Card" [el "CardContent" c]]]
          else Ok []);
  let agent := if type_is m "agent"
               then [el "div" [avatar; el "Card" [el "CardContent" [VMarkdown m.(content)]]]] else [] in
  calls ← (if type_is m "agent_tool_call" then
             and_child m.(toolCalls)
               (names ← tool_call_names m.(toolCalls);
                Ok [el "div" [avatar; el "Card" [el "CardContent" [el "div" [
                      el "div" [];
                      el "span" [txt (if rendered then "Used" else "Using"); txt " "; VText names; txt "..."]]]]]])
           else Ok []);
  err ← (if type_is m "error" then c ← child m.(content); Ok [el "Card" [el "CardContent" [el "div" c]]]
         else Ok []);
  Ok (VEl "div" [jsx_prop "key" (m.(id));
                      jsx_prop "className" (if type_is m "user" then js "flex justify-end" else js "flex justify-start")]
          (tool ++ user ++ agent ++ calls ++ err)).

(** Lines 349-388: the header of the expanded chat. *)
Definition render_header (c : CtlState) : vnode :=
  el "div" [
    el "div" [avatar; el "div" [el "h3" [txt "Steve Assistant"];
                                el "p" [txt (if c.(hook).(isLoading) then "Typing..." else "Online")]]];
    el "div" ((if c.(ui).(isVoiceMode)
               then [el "Badge" [txt (if c.(ui).(isListening) then "Listening..." else "Voice Mode")]]
               else []) ++
              [el "Tooltip" [el "Button" [icon (if c.(ui).(isMobile) then "Minimize2" else "X")];
                             el "TooltipContent" [el "p" [txt (if c.(ui).(isMobile) then "Minimize" else "Close")]]]])].

(** Lines 395-411 *)
Definition welcome_card : vnode :=
  el "Card" [el "CardContent" [
    avatar; el "h4" [txt "Hello! I'm Steve"];
    el "p" [txt "Your AI assistant ready to help with questions about Jomar's profile, projects, or anything else."];
    el "div" [el "Badge" [txt "Profile Info"]; el "Badge" [txt "Projects"]; el "Badge" [txt "General Help"]]]].

(** Lines 520-539 *)
Definition thinking_indicator : vnode :=
  el "div" [avatar; el "Card" [el "CardContent" [el "div" [
    el "div" [el "div" []; el "div" []; el "div" []]; el "span" [txt "Steve is thinking..."]]]]].

(** Lines 390-544: the message list of the expanded chat. *)
Definition render_messages (c : CtlState) : exc vnode :=
  let msgs := c.(hook).(messages) in
  items ← exc_map (fun m => render_message m c.(ui).(loadingToolOutputId) c.(ui).(isSkeletonLoading)
                                           c.(ui).(isComponentRendered)) msgs;
  Ok (el "ScrollArea" [el "div" ((if bool_decide (msgs = []) then [welcome_card] else []) ++ items ++
                                 (if c.(hook).(isLoading) then [thinking_indicator] else []) ++
                                 [VEl "div" [jsx_prop "ref" (js "messagesEndRef")] []])]).

(** Lines 587-595 *)
Definition placeholder (c : CtlState) : jsstr :=
  if 0 <? c.(lim).(timeRemaining)
  then js "Please wait " ++ formatTimeRemaining c.(lim).(timeRemaining) ++ js " before sending more messages"
  else if c.(ui).(isListening) then js "Listening..."
  else if c.(hook).(isLoading) then js "Steve is thinking..."
  else js "Ask Steve anything...".

Definition tooltip_button (ic label : String.string) : vnode :=
  el "Tooltip" [el "Button" [icon ic]; el "TooltipContent" [el "p" [txt label]]].
Arguments tooltip_button ic%_string_scope label%_string_scope.

(** Lines 546-690: the alert, the input row and the counter. *)
Definition render_input (c : CtlState) : vnode :=
  let u := c.(ui) in
  let l := c.(lim) in
  let counting := 0 <? l.(timeRemaining) in
  el "div" (
    (if l.(showLimitAlert)
     then [el "Alert" [icon "AlertCircle"; el "AlertDescription" [
             txt "Message limit reached. Please wait "; VText (formatTimeRemaining l.(timeRemaining));
             txt " before sending more messages."]]]
     else []) ++
    [el "div" (
       (if negb u.(isMobile) && negb u.(isChatExpanded) && bool_decide (c.(hook).(messages) <> [])
        then [tooltip_button "ChevronUp" "Expand chat"] else []) ++
       [el "div" (VEl "Input" ([jsx_prop "placeholder" (placeholder c); jsx_prop "value" (c.(hook).(inputValue))] ++
                                    bool_attr "disabled" (c.(hook).(isLoading) || u.(isListening) || counting)) [] ::
                  (if u.(isVoiceMode) then [el "Badge" [txt "Voice"]] else []));
        el "Tooltip" [el "Button" [icon (if u.(isListening) then "MicOff" else "Mic")];
                      el "TooltipContent" [el "p" [txt (if u.(isVoiceMode) then "Disable voice mode" else "Enable voice mode")]]];
        el "Tooltip" [VEl "Button" ([jsx_prop "type" (js "submit")] ++
                                         bool_attr "disabled" (is_blank c.(hook).(inputValue) ||
                                                               c.(hook).(isLoading) || u.(isListening) || counting))
                          [icon "Send"];
                      el "TooltipContent" [el "p" [txt "Send message"]]]] ++
       (if negb u.(isMobile) && u.(isChatExpanded) then [tooltip_button "ChevronDown" "Collapse chat"] else []))] ++
    match l.(messageLimit) with
    | Some ml =>
        [el "div" (el "span" [txt "Messages: "; VText (dec_of_Z ml.(count)); txt "/"; VText (dec_of_Z MESSAGE_LIMIT)] ::
                   (if counting then [el "span" [txt "Cooldown: "; VText (formatTimeRemaining l.(timeRemaining))]] else []))]
    | None => []
    end).

(** Lines 316-341: the collapsed chat on a phone, a round button whose
    badge counts the agent's messages. *)
Definition render_bubble (c : CtlState) : vnode :=
  let msgs := c.(hook).(messages) in
  VEl "div" [jsx_prop "className" (getChatContainerStyles c.(ui))] [
    el "Tooltip" [
      VEl "Button" [jsx_prop "className" (js "w-full h-full " ++ getChatBoxStyles c.(ui) ++
                           js " flex items-center justify-center hover:scale-110 active:scale-95 transition-transform duration-200")]
          (icon "MessageCircle" ::
           (if bool_decide (msgs <> [])
            then [el "Badge" [VText (dec_of_Z (Z.of_nat (List.length (List.filter (fun m => type_is m "agent") msgs))))]]
            else []));
      el "TooltipContent" [el "p" [txt "Chat with Steve"]]]].

(** Lines 313-693: [ChatAssistant]'s render; [None] is [return null]. *)
Definition render (c : CtlState) : exc (option vnode) :=
  if negb c.(isVisible) then Ok None
  else if c.(ui).(isMobile) && negb c.(ui).(isChatExpanded) then Ok (Some (render_bubble c))
  else
    body ← (if c.(ui).(isChatExpanded)
            then ms ← render_messages c; Ok [render_header c; ms]
            else Ok []);
    Ok (Some (VEl "div" [jsx_prop "id" (js "chat-container"); jsx_prop "className" (getChatContainerStyles c.(ui))]
              [VEl "Card" [jsx_prop "className" (js "flex flex-col h-full " ++ getChatBoxStyles c.(ui) ++ js " border-0")]
                   (body ++ [render_input c])])).

(** ** Rendering errors *)

Lemma is_str_self s : is_str (Some (JStr s)) s = true.
Proof. unfold is_str. by apply bool_decide_eq_true. Qed.

Lemma exc_map_throw {A B} (f : A -> exc B) l x e :
  In x l -> f x = Throw e -> exists e', exc_map f l = Throw e'.
Proof.
  induction l as [|y l IH]; [done|]. intros [->|Hin] Hf; simpl.
  - rewrite Hf. eauto.
  - destruct (f y); [|eauto]. destruct (IH Hin Hf) as [e' ->]. eauto.
Qed.

Lemma read_prop_obj o k : truthy (Some o) = true -> read_prop (Some o) k = Ok (prop o k).
Proof. intros Ht. apply get_prop. by intros ->. Qed.

(** A weather card whose output has no string [region] throws. *)
Lemma WeatherCard_region_throws o :
  truthy (Some o) = true -> (forall s, prop o KRegion <> Some (JStr s)) ->
  exists e, WeatherCard (Some o) = Throw e.
Proof.
  intros Ht Hr. unfold WeatherCard. rewrite !read_prop_obj by done. cbn.
  destruct (prop o KRegion) as [[| | | s | |]|] eqn:E; try by eexists.
  by destruct (Hr s).
Qed.

(** C19: The expanded chat cannot be rendered once it holds a weather tool
    output whose [region] is not a string (the tool's reply may omit it),
    unless that card is the one shown as a skeleton: [toUpperCase] throws
    and, with no error boundary, React unmounts the page. *)
Theorem render_weather_crash c m o :
  c.(isVisible) = true -> c.(ui).(isChatExpanded) = true ->
  In m c.(hook).(messages) -> m.(type) = TToolOutput ->
  is_str m.(toolName) (js "weather-data") = true -> m.(output) = Some o -> truthy (Some o) = true ->
  bool_decide (Some m.(id) = c.(ui).(loadingToolOutputId)) && c.(ui).(isSkeletonLoading) = false ->
  (forall s, prop o KRegion <> Some (JStr s)) ->
  exists e, render c = Throw e.
Proof.
  intros Hv He Hin Ht Hn Ho Htr Hsk Hr.
  destruct (WeatherCard_region_throws o Htr Hr) as [e Hw].
  assert (Hm : exists e', render_message m (loadingToolOutputId (ui c)) (isSkeletonLoading (ui c))
                                         (isComponentRendered (ui c)) = Throw e').
  { assert (Htool : type_is m "tool_output" = true) by (unfold type_is; rewrite Ht; reflexivity).
    apply is_str_true in Hn.
    assert (Htn : truthy (toolName m) = true) by (rewrite Hn; reflexivity).
    unfold render_message, and_child. rewrite Htool, Htn, Ho, Htr.
    unfold ToolOutputDisplay. rewrite Hn, is_str_self, Hsk, Hw. by eexists. }
  destruct Hm as [e' Hm].
  destruct (exc_map_throw (fun m => render_message m (loadingToolOutputId (ui c))
                                   (isSkeletonLoading (ui c)) (isComponentRendered (ui c)))
                          _ m e' Hin Hm) as [e'' Hl].
  unfold render, render_messages. rewrite Hv, He, Hl. cbn. rewrite andb_false_r. by eexists.
Qed.

End View.

(** ** Runs *)

Section Runs.

(** The visit of [Controller.v] goes on: the answer with the weather card
    has arrived while the chat was collapsed; the user expands it and the
    skeleton's timeout fires. *)
Definition crash_events : list ctl_event :=
  visit_events ++ [FetchSettled visit_reply; ClickToggle; SkeletonTimeout].

Definition crash_state : CtlState :=
  match ctl_trace clock0 (ctl_init clock0 None ∅) crash_events with
  | Some c => c | None => ctl_init clock0 None ∅
  end.

Definition weather_msg : ChatMessage :=
  nth 1 crash_state.(hook).(messages) (simple_message [] TUser None).

Definition weather_out : value :=
  match weather_msg.(output) with Some o => o | None => JNull end.

Lemma some_default {A} (o : option A) d : match o with Some _ => true | None => false end = true -> o = Some (default d o).
Proof. by destruct o. Qed.

Lemma is_tool_output_type m : is_tool_output m = true -> m.(type) = TToolOutput.
Proof. unfold is_tool_output. by destruct (type m). Qed.

Lemma render_weather_crash_witness :
  ctl_trace clock0 (ctl_init clock0 None ∅) crash_events = Some crash_state /\
  exists e, render crash_state = Throw e.
Proof.
  split; [apply some_default; vm_compute; reflexivity|].
  apply (render_weather_crash crash_state weather_msg weather_out);
    [vm_compute; reflexivity | vm_compute; reflexivity |
     apply nth_In; vm_compute; lia | apply is_tool_output_type; vm_compute; reflexivity |
     vm_compute; reflexivity | vm_compute; reflexivity | vm_compute; reflexivity |
     vm_compute; reflexivity |].
  intros s. vm_compute. discriminate.
Defined.

End Runs.
