(* ===== verification/ViewControls.v ===== *)
(** * ViewControls: the rendered controls agree with the controller

    [Controller.ctl_run] lets typing, key presses and a click on "send"
    through only when the input row is shown and the corresponding control
    is enabled.  This file locates those controls in [View.render]'s tree:
    it holds exactly one [Input] element and one submit [Button], and only
    in the full view ([render_controls]); no message, tool card or header
    contains a control ([no_controls]).  [Effects] uses this to resolve
    [inputRef]. *)

From stdpp Require Import base list decidable gmap.
From Stdlib Require Import ZArith Lia String.
From S2P Require Import Prelude JsValue IntRuntime Message Events NoStream RateLimiter Controller View.

Section Controls.
Context `{JsRuntime}.

(** The attribute lists of the elements of a tree that [p] selects, in
    document order. *)
Fixpoint collect (p : String.string -> list (String.string * jsstr) -> bool) (t : vnode)
    : list (list (String.string * jsstr)) :=
  match t with
  | VEl tag props ch => (if p tag props then [props] else []) ++ flat_map (collect p) ch
  | _ => []
  end.

(** [<Input>], [<Button type=...>] and the [disabled] attribute. *)
Definition is_input (tag : String.string) (props : list (String.string * jsstr)) : bool :=
  String.eqb tag "Input".
Definition is_submit (tag : String.string) (props : list (String.string * jsstr)) : bool :=
  String.eqb tag "Button" && existsb (fun kv => String.eqb kv.1 "type") props.
Definition disabled_of (props : list (String.string * jsstr)) : bool :=
  existsb (fun kv => String.eqb kv.1 "disabled") props.

Lemma disabled_bool_attr b : disabled_of (bool_attr "disabled" b) = b.
Proof. by destruct b. Qed.

Definition is_text (n : vnode) : Prop := match n with VText _ => True | _ => False end.

Lemma texts_collect p ns : Forall is_text ns -> flat_map (collect p) ns = [].
Proof. induction 1 as [|[] ns' Hx _ IH]; simpl in *; try done. Qed.

Lemma child_value_texts v ns : child_value v = Ok ns -> Forall is_text ns.
Proof.
  revert v ns. fix IH 1. intros [| | n | s | items | fs] ns Hv; simpl in Hv; simplify_eq;
    try by repeat constructor.
  revert ns Hv. induction items as [|x r IHr]; intros ns Hv; simplify_eq; [constructor|].
  cbv [mbind exc_bind] in Hv.
  destruct (child_value x) as [a|] eqn:Ex; [|done].
  match type of Hv with
  | (match ?g with _ => _ end) = _ => destruct g as [b|] eqn:Er; [|done]
  end.
  simplify_eq. apply Forall_app. split; [exact (IH x a Ex)|]. by apply IHr.
Qed.

Definition no_controls (ns : list vnode) : Prop :=
  forall p, In p [is_input; is_submit] -> flat_map (collect p) ns = [].

Lemma child_no_controls v ns : child v = Ok ns -> no_controls ns.
Proof.
  intros Hc p _. apply texts_collect. destruct v as [x|]; simplify_eq/=; [|done].
  by apply (child_value_texts x).
Qed.

Lemma stringify_no_controls i v : no_controls (stringify_child i v).
Proof. intros p _. by destruct v. Qed.

Ltac nc_tac :=
  let p := fresh "p" in let Hp := fresh "Hp" in
  intros p Hp; destruct Hp as [<-|[<-|[]]];
  repeat progress (rewrite ?flat_map_app; simpl);
  repeat match goal with
  | H : child _ = Ok ?ns |- context [flat_map (collect ?p) ?ns] =>
      rewrite (child_no_controls _ _ H p) by (simpl; auto)
  | H : no_controls ?ns |- context [flat_map (collect ?p) ?ns] =>
      rewrite (H p) by (simpl; first [left; reflexivity | right; left; reflexivity])
  | |- context [flat_map (collect ?p) (stringify_child ?i ?v)] =>
      rewrite (stringify_no_controls i v p) by (simpl; auto)
  end; rewrite ?app_nil_r; reflexivity.

Ltac exc_cases H :=
  cbv [mbind exc_bind and_child] in H; repeat (case_match; simplify_eq); simplify_eq.

Lemma WeatherCard_no_controls o n : WeatherCard o = Ok n -> no_controls [n].
Proof. unfold WeatherCard. intros Hw. exc_cases Hw. nc_tac. Qed.

Lemma GithubCard_no_controls o n : GithubCard o = Ok n -> no_controls [n].
Proof. unfold GithubCard. intros Hw. exc_cases Hw; nc_tac. Qed.

Lemma LinkedInCard_no_controls o n : LinkedInCard o = Ok n -> no_controls [n].
Proof. unfold LinkedInCard. intros Hw. exc_cases Hw; nc_tac. Qed.

Lemma ToolOutputDisplay_no_controls a b c d l ns :
  ToolOutputDisplay a b c d l = Ok ns -> no_controls ns.
Proof.
  unfold ToolOutputDisplay. intros Hw.
  repeat case_match; exc_cases Hw;
    repeat match goal with
    | H : WeatherCard _ = Ok _ |- _ => apply WeatherCard_no_controls in H
    | H : GithubCard _ = Ok _ |- _ => apply GithubCard_no_controls in H
    | H : LinkedInCard _ = Ok _ |- _ => apply LinkedInCard_no_controls in H
    end;
    first [assumption | nc_tac].
Qed.

Lemma render_message_no_controls m lid sk r n :
  render_message m lid sk r = Ok n -> no_controls [n].
Proof.
  unfold render_message. intros Hw. exc_cases Hw;
    repeat match goal with
    | H : ToolOutputDisplay _ _ _ _ _ = Ok _ |- _ => apply ToolOutputDisplay_no_controls in H
    end; nc_tac.
Qed.

Lemma exc_map_no_controls {A} (f : A -> exc vnode) l ns :
  (forall x n, f x = Ok n -> no_controls [n]) -> exc_map f l = Ok ns -> no_controls ns.
Proof.
  intros Hf. revert ns. induction l as [|x l IH]; intros ns Hl p Hp; simpl in Hl.
  - by simplify_eq.
  - cbv [mbind exc_bind] in Hl. destruct (f x) as [n|] eqn:Ex; [|done].
    destruct (exc_map f l) as [ns'|] eqn:El; [|done]. simplify_eq/=.
    pose proof (Hf x n Ex p Hp) as Hn. simpl in Hn. rewrite app_nil_r in Hn.
    rewrite Hn. by apply IH.
Qed.

Lemma render_messages_no_controls c t : render_messages c = Ok t -> no_controls [t].
Proof.
  unfold render_messages. intros Hw. exc_cases Hw;
  match goal with H : exc_map _ _ = Ok ?a |- _ =>
    assert (no_controls a)
      by (eapply exc_map_no_controls; [intros ? ?; apply render_message_no_controls | exact H])
  end;
  unfold welcome_card, thinking_indicator; repeat case_match; nc_tac.
Qed.

Lemma render_header_no_controls c : no_controls [render_header c].
Proof. unfold render_header. repeat case_match; nc_tac. Qed.

Lemma disabled_controls c :
  map disabled_of (collect is_input (render_input c)) = [input_disabled c] /\
  map disabled_of (collect is_submit (render_input c)) = [send_disabled c].
Proof.
  unfold render_input, input_disabled, send_disabled, input_disabled.
  repeat case_match; simpl; rewrite ?disabled_bool_attr, ?orb_assoc; split; reflexivity.
Qed.

Lemma no_controls_single n : no_controls [n] -> forall p, In p [is_input; is_submit] -> collect p n = [].
Proof. intros Hn p Hp. specialize (Hn p Hp). simpl in Hn. by rewrite app_nil_r in Hn. Qed.

(** The controls of a rendered tree. *)
Lemma render_controls c t :
  render c = Ok (Some t) ->
  map disabled_of (collect is_input t) = (if input_shown c then [input_disabled c] else []) /\
  map disabled_of (collect is_submit t) = (if input_shown c then [send_disabled c] else []).
Proof.
  unfold render, input_shown. intros Hr.
  destruct (isVisible c); [|done]. simpl in Hr |- *.
  destruct (isMobile (ui c) && negb (isChatExpanded (ui c))) eqn:Hm; simpl.
  - injection Hr as <-. unfold render_bubble. repeat case_match; simpl; split; reflexivity.
  - destruct (disabled_controls c) as [Hi Hs].
    destruct (isChatExpanded (ui c)).
    + cbv [mbind exc_bind] in Hr. destruct (render_messages c) as [ms|] eqn:Em; [|done].
      injection Hr as <-. apply render_messages_no_controls in Em.
      pose proof (render_header_no_controls c) as Eh.
      pose proof (no_controls_single _ Em) as Em'. pose proof (no_controls_single _ Eh) as Eh'.
      clear Em Eh. rename Em' into Em. rename Eh' into Eh. cbn -[render_header render_input]. rewrite !app_nil_r.
      rewrite (Em is_input), (Em is_submit), (Eh is_input), (Eh is_submit)
        by (simpl; first [left; reflexivity | right; left; reflexivity]).
      rewrite ?app_nil_r. by split.
    + injection Hr as <-. simpl. rewrite !app_nil_r. by split.
Qed.

End Controls.
