(* ===== verification/Effects.v ===== *)
(** * Effects: the DOM calls of [ChatAssistant]'s commit effects

    Two effects of [ChatUI.tsx] act on the DOM rather than on React state:
    the scroll effect (lines 159-161, deps [[messages, scrollToBottom]])
    calls [scrollToBottom] (lines 148-151), which scrolls the
    [<div ref={messagesEndRef}>] at the end of the message list into
    view; the focus effect (lines 164-168, deps [[isChatExpanded,
    isMobile]]) focuses [inputRef]'s input when the chat is expanded on a
    desktop.  Both use optional chaining, so a call whose ref is [null]
    does nothing.

    React runs an effect after a commit whose deps changed, and every
    effect after the first commit (the mount), in declaration order.  A
    commit here is one [Controller.ctl_run] step whose render
    ([View.render]) returns; a ref is attached when its element is in the
    committed tree.  [messages] is compared by reference: every
    [setMessages] of the hook appends a message, so the array changed
    exactly when its length did.  The [focus] event the call may fire is
    the controller's own [FocusInput] event. *)

From stdpp Require Import base list decidable gmap.
From Stdlib Require Import ZArith Lia String.
From S2P Require Import Prelude JsValue IntRuntime Message Events NoStream RateLimiter Controller View ViewControls.

(** A DOM call made by an effect; [attached] is whether its ref pointed
    to an element, so that the call scrolled or focused. *)
Inductive dom_call :=
| ScrollIntoView (attached : bool)
| FocusInputRef (attached : bool).

Section Effects.
Context `{JsRuntime}.
Variable clock : nat -> Z.

(** An element given the JSX prop [ref={name}]. *)
Definition has_ref (name : String.string) (tag : String.string) (props : list (String.string * jsstr)) : bool :=
  existsb (fun kv => String.eqb kv.1 "ref" && bool_decide (kv.2 = js name)) props.

(** [ref.current] after the commit of [c]: the element [p] selects is
    in the rendered tree. *)
Definition ref_current (p : String.string -> list (String.string * jsstr) -> bool) (c : CtlState) : bool :=
  match render c with Ok (Some t) => bool_decide (collect p t <> []) | _ => false end.

(** Line 541: [<div ref={messagesEndRef} />] *)
Definition messagesEndRef_current : CtlState -> bool := ref_current (has_ref "messagesEndRef").
(** Line 585: the ref is on the only [Input] element ([render_controls]). *)
Definition inputRef_current : CtlState -> bool := ref_current is_input.

(** Lines 148-151 *)
Definition scrollToBottom (c : CtlState) : dom_call := ScrollIntoView (messagesEndRef_current c).

(** Lines 164-168 *)
Definition focus_effect (c : CtlState) : list dom_call :=
  if c.(ui).(isChatExpanded) && negb c.(ui).(isMobile) then [FocusInputRef (inputRef_current c)] else [].

(** The calls after the commit of [c'] that followed [c]; [first] is the
    mount. *)
Definition commit_calls (first : bool) (c c' : CtlState) : list dom_call :=
  (if first || negb (Nat.eqb (List.length c.(hook).(messages)) (List.length c'.(hook).(messages)))
   then [scrollToBottom c'] else []) ++
  (if first || negb (Bool.eqb c.(ui).(isChatExpanded) c'.(ui).(isChatExpanded))
            || negb (Bool.eqb c.(ui).(isMobile) c'.(ui).(isMobile))
   then focus_effect c' else []).

Definition is_mount (e : ctl_event) : bool := match e with Mount _ => true | _ => false end.

(** One event and its commit; a render that throws commits nothing. *)
Definition ctl_commit (c : CtlState) (e : ctl_event) : option (CtlState * list dom_call) :=
  c' ← ctl_run clock c e;
  match render c' with
  | Ok _ => Some (c', commit_calls (is_mount e) c c')
  | Throw _ => Some (c', [])
  end.

(** ** The refs of a committed tree *)

Lemma render_bubble_no_scroll c : collect (has_ref "messagesEndRef") (render_bubble c) = [].
Proof. unfold render_bubble. by repeat case_match. Qed.

Lemma render_input_no_scroll c : collect (has_ref "messagesEndRef") (render_input c) = [].
Proof. unfold render_input, bool_attr. by repeat case_match. Qed.

Lemma render_header_no_scroll c : collect (has_ref "messagesEndRef") (render_header c) = [].
Proof. unfold render_header. by repeat case_match. Qed.

Lemma render_none c : render c = Ok None -> c.(isVisible) = false.
Proof.
  unfold render. destruct (isVisible c); [|done]. cbn. destruct (_ && _); [done|].
  destruct (isChatExpanded _); [destruct (render_messages c)|]; done.
Qed.

Lemma collect_root p tag props ch : p tag props = true -> collect p (VEl tag props ch) <> [].
Proof. cbn. by intros ->. Qed.

Lemma collect_child p tag props ch n :
  In n ch -> collect p n <> [] -> collect p (VEl tag props ch) <> [].
Proof.
  intros Hin Hn. cbn. intros Hc. apply app_eq_nil in Hc as [_ Hc].
  apply Hn. induction ch as [|m ch IH]; [done|]. cbn in Hc. apply app_eq_nil in Hc as [Hm Hc].
  destruct Hin as [<-|Hin]; auto.
Qed.

(** The end marker is attached exactly when the expanded chat is on
    screen. *)
Lemma messagesEnd_attached c r :
  render c = Ok r -> messagesEndRef_current c = c.(isVisible) && c.(ui).(isChatExpanded).
Proof.
  unfold messagesEndRef_current, ref_current. intros Hr. rewrite Hr.
  destruct r as [t|]; [|by rewrite (render_none c Hr)].
  revert Hr. unfold render. destruct (isVisible c); [|done]. cbn [negb andb].
  destruct (isMobile (ui c)), (isChatExpanded (ui c)); cbn [negb andb]; intros Hr.
  2,4: injection Hr as <-; apply bool_decide_eq_false; intros []; cbn -[render_bubble render_input];
       by rewrite ?render_bubble_no_scroll, ?render_input_no_scroll, ?app_nil_r.
  all: destruct (render_messages c) as [ms|] eqn:Ems; cbn in Hr; [|done]; injection Hr as <-.
  all: apply bool_decide_eq_true; eapply collect_child; [by left|]; eapply collect_child;
       [right; left; reflexivity|].
  all: unfold render_messages in Ems; destruct (exc_map _ _); cbn in Ems; [|done]; injection Ems as <-.
  all: eapply collect_child; [by left|]; eapply collect_child;
       [do 3 (apply in_or_app; right); by left|].
  all: by apply collect_root.
Qed.

(** The input is attached exactly when the controller shows it. *)
Lemma inputRef_attached c r : render c = Ok r -> inputRef_current c = input_shown c.
Proof.
  unfold inputRef_current, ref_current. intros Hr. rewrite Hr. destruct r as [t|].
  - destruct (render_controls c t Hr) as [Hi _].
    destruct (input_shown c).
    + apply bool_decide_eq_true. intros Hn. by rewrite Hn in Hi.
    + apply bool_decide_eq_false. intros Hn. apply Hn. by destruct (collect is_input t).
  - unfold input_shown. by rewrite (render_none c Hr).
Qed.

(** The calls of a commit, with the refs resolved against the controller's
    state. *)
Lemma ctl_commit_calls c e c' calls :
  ctl_commit c e = Some (c', calls) -> (exists r, render c' = Ok r) ->
  ctl_run clock c e = Some c' /\
  calls =
    (if is_mount e || negb (Nat.eqb (List.length c.(hook).(messages)) (List.length c'.(hook).(messages)))
     then [ScrollIntoView (c'.(isVisible) && c'.(ui).(isChatExpanded))] else []) ++
    (if is_mount e || negb (Bool.eqb c.(ui).(isChatExpanded) c'.(ui).(isChatExpanded))
                   || negb (Bool.eqb c.(ui).(isMobile) c'.(ui).(isMobile))
     then (if c'.(ui).(isChatExpanded) && negb c'.(ui).(isMobile) then [FocusInputRef (input_shown c')] else [])
     else []).
Proof.
  unfold ctl_commit. intros Hc [r Hr].
  destruct (ctl_run clock c e) as [c0|] eqn:Hrun; cbn in Hc; [|done].
  destruct (render c0) eqn:Hr0; cbn in Hc; injection Hc as <- <-; rewrite Hr in Hr0; [|done].
  split; [done|]. unfold commit_calls, scrollToBottom, focus_effect.
  by rewrite (messagesEnd_attached c0 r Hr), (inputRef_attached c0 r Hr).
Qed.

(** ** Properties *)

(** C21: The scroll effect is the view's "scroll to latest" notification:
    a committed step other than the mount calls [scrollToBottom] exactly
    when it changed the message list, first among its DOM calls, and the
    call scrolls exactly when the expanded chat is on screen (otherwise
    [messagesEndRef.current] is [null]). *)
Theorem commit_scrolls_after_messages c e c' calls :
  ctl_commit c e = Some (c', calls) -> (exists r, render c' = Ok r) -> is_mount e = false ->
  ((exists a, In (ScrollIntoView a) calls) <->
     List.length c.(hook).(messages) <> List.length c'.(hook).(messages)) /\
  (List.length c.(hook).(messages) <> List.length c'.(hook).(messages) ->
   head calls = Some (ScrollIntoView (c'.(isVisible) && c'.(ui).(isChatExpanded)))).
Proof.
  intros Hc Hr Hm. destruct (ctl_commit_calls c e c' calls Hc Hr) as [_ ->]. rewrite Hm. cbn [orb].
  destruct (Nat.eqb_spec (List.length c.(hook).(messages)) (List.length c'.(hook).(messages))) as [E|E];
    cbn [negb app]; split; try done.
  - split; [|done]. intros [a Ha].
    repeat case_match; cbn in Ha; intuition discriminate.
  - split; [intros _; done|]. intros _. eexists. by left.
Qed.

(** C24: Expanding the collapsed chat on a desktop focuses its input: the
    click expands the chat, sets [isInputFocused], and its commit makes
    exactly one DOM call, the focus effect's [inputRef.current.focus()],
    on an input that is attached. *)
Theorem expand_focuses_input c c' calls :
  ctl_commit c ClickToggle = Some (c', calls) -> (exists r, render c' = Ok r) ->
  c.(ui).(isMobile) = false -> c.(ui).(isChatExpanded) = false ->
  calls = [FocusInputRef true] /\ c'.(ui).(isChatExpanded) = true /\ c'.(ui).(isInputFocused) = true.
Proof.
  intros Hc Hr Hm He. destruct (ctl_commit_calls c ClickToggle c' calls Hc Hr) as [Hrun ->].
  cbn in Hrun. destruct (toggle_shown c) eqn:Ht; [|done]. injection Hrun as <-.
  unfold toggle_shown in Ht. apply andb_prop in Ht as [Hv _].
  unfold input_shown. cbn. rewrite Hm, He, Hv, Nat.eqb_refl. done.
Qed.

End Effects.

Section Runs.

Lemma ok_exists {A} (m : exc A) : match m with Ok _ => true | Throw _ => false end = true -> exists a, m = Ok a.
Proof. destruct m; [by eexists|done]. Qed.

(** The answer to the first visit's request, and a click on the desktop
    chevron of the first visit. *)
Definition answer_commit : CtlState * list dom_call :=
  default (visit_state, []) (ctl_commit clock0 visit_state (FetchSettled visit_reply)).
Definition expand_commit : CtlState * list dom_call :=
  default (visit_state, []) (ctl_commit clock0 visit_state ClickToggle).

Lemma commit_scrolls_after_messages_witness :
  ((exists a, In (ScrollIntoView a) answer_commit.2) <->
     List.length visit_state.(hook).(messages) <> List.length answer_commit.1.(hook).(messages)) /\
  (List.length visit_state.(hook).(messages) <> List.length answer_commit.1.(hook).(messages) ->
   head answer_commit.2 = Some (ScrollIntoView (answer_commit.1.(isVisible) && answer_commit.1.(ui).(isChatExpanded)))).
Proof.
  apply (commit_scrolls_after_messages clock0 visit_state (FetchSettled visit_reply)).
  - pose proof (some_default (ctl_commit clock0 visit_state (FetchSettled visit_reply)) (visit_state, [])
                  ltac:(vm_compute; reflexivity)) as E.
    unfold answer_commit. by destruct (default _ _).
  - apply ok_exists. vm_compute. reflexivity.
  - reflexivity.
Defined.

Lemma expand_focuses_input_witness :
  expand_commit.2 = [FocusInputRef true] /\ expand_commit.1.(ui).(isChatExpanded) = true /\
  expand_commit.1.(ui).(isInputFocused) = true.
Proof.
  apply (expand_focuses_input clock0 visit_state).
  - pose proof (some_default (ctl_commit clock0 visit_state ClickToggle) (visit_state, [])
                  ltac:(vm_compute; reflexivity)) as E.
    unfold expand_commit. by destruct (default _ _).
  - apply ok_exists. vm_compute. reflexivity.
  - reflexivity.
  - reflexivity.
Defined.

End Runs.
