(* ===== verification/Projects.v ===== *)
(** * Projects: [ProjectsSection] and [ProjectCard]

    [ProjectsSection.tsx] renders one [ProjectCard] per entry of
    [projectsData] ([portfolioData.ts] lines 49-95), keyed by its [id].
    A card ([ProjectCard.tsx]) has one piece of React state, [isExpanded],
    toggled by its "Learn More" button, and an [<img>] whose [src] is the
    project's [imageUrl] or, when it has none, a placeholder whose text is
    [encodeURIComponent(project.title)] ([Uri]).  The image's [onError]
    handler writes the DOM element directly: it sets [src] to a second
    placeholder and [alt] to a new text.  Setting [src] starts a new load
    of the image even when the value is the same (HTML, "update the image
    data"), and the handler stays attached, so an unreachable placeholder
    host makes the card request the second placeholder forever
    ([card_image_error_loop]).

    The card's state is [Card]: [isExpanded] and the DOM image [Img]
    (its [src] and [alt], whether a load is pending, and the number of
    loads started).  React writes [src] only when the [src] prop changes,
    and the prop never changes, so re-rendering the card keeps what the
    handler wrote. *)

From stdpp Require Import base list decidable.
From Stdlib Require Import ZArith Lia String.
From S2P Require Import Prelude JsValue IntRuntime View ViewControls Uri.

(** [interface Project] ([types/index.ts] lines 3-13); an absent optional
    field is [None]. *)
Record Project := mkProject {
  proj_id : jsstr;
  title : jsstr;
  category : jsstr;
  description : jsstr;
  keyFeatures : list jsstr;
  techStack : list jsstr;
  imageUrl : option jsstr;
  githubUrl : option jsstr;
  liveUrl : option jsstr;
}.

(** [portfolioData.ts] lines 49-95 *)
Definition projectsData : list Project := [
  mkProject (js "jobjigsaw") (js "JobJigSaw Suite") (js "AI-Powered Recruitment Automation")
    (js "An intelligent suite featuring an AI Resume Analyzer (RAR) to rank candidates against job descriptions and a Job Description Writer (JDW) to generate compelling job postings, streamlining the recruitment lifecycle.")
    [js "AI-driven resume scoring and ranking (RAR)";
     js "Automated, professional job description generation (JDW)";
     js "Multi-LLM Support (Groq, Mistral, OpenAI)";
     js "FastAPI backend with Streamlit UI"]
    [js "Python"; js "FastAPI"; js "LangGraph"; js "Pydantic"; js "Streamlit"; js "Docker"; js "LLMs"]
    (Some (js "https://placehold.co/600x400/505168/EAEFD3?text=JobJigSaw+Suite"))
    (Some (js "https://github.com/rhyliieee/JobJigSaw")) None;
  mkProject (js "eyomnai") (js "EyomnAI") (js "Intelligent EMR for Ophthalmology")
    (js "Advanced Electronic Medical Records (EMR) software for eye clinics, leveraging LLMs and multi-agent systems for intelligent assistance, SOAP note summarization, and automated data extraction from IDs.")
    [js "RAG Chatbot for medical queries";
     js "Automated SOAP note summarization";
     js "Intelligent data extraction from identification cards";
     js "Multi-Agent System Architecture"]
    [js "Python"; js "FastAPI"; js "LangGraph"; js "Mistral LLM"; js "Docker";
     js "Google Cloud Firestore"; js "RAG"]
    (Some (js "https://placehold.co/600x400/505168/EAEFD3?text=EyomnAI"))
    (Some (js "https://github.com/csharpmastr/EyomnAI")) None;
  mkProject (js "jobjigsaw-lark") (js "JobJigSaw - Lark Base Frontend") (js "Enterprise Integration")
    (js "A responsive frontend interface (React, TypeScript) enabling seamless interaction with the JobJigSaw backend directly within the Lark Base environment for efficient job and candidate management.")
    [js "Manage job openings within Lark Base";
     js "Upload resumes & trigger AI analysis (RAR)";
     js "View and save candidate rankings and insights";
     js "Built with Vite and Tailwind CSS"]
    [js "React"; js "TypeScript"; js "Vite"; js "Tailwind CSS"; js "Lark Base SDK"; js "Node.js"]
    (Some (js "https://placehold.co/600x400/505168/EAEFD3?text=Lark+Frontend"))
    (Some (js "https://github.com/rhyliieee/JobJigSaw-Lark")) None
].

(** ** The image *)

Definition placeholder_prefix : jsstr := js "https://placehold.co/600x400/B8A9FF/6320EE?text=".

(** Line 15: [`https://placehold.co/...?text=${encodeURIComponent(project.title)}`] *)
Definition placeholder_src (t : jsstr) : exc jsstr :=
  q ← encodeURIComponent t; Ok (placeholder_prefix ++ q).

(** Line 15: [project.imageUrl || placeholder]; an empty string is falsy. *)
Definition initial_src (p : Project) : exc jsstr :=
  match p.(imageUrl) with
  | Some (_ :: _ as u) => Ok u
  | _ => placeholder_src p.(title)
  end.

(** Line 20 *)
Definition not_found_src : jsstr := js "https://placehold.co/600x400/B3C0A4/505168?text=Image+Not+Found".

(** The DOM [<img>]: [src], [alt], whether a load is under way, and the
    number of loads started. *)
Record Img := mkImg { src : jsstr; alt : jsstr; pending : bool; loads : nat }.

Record Card := mkCard { isExpanded : bool; img : Img }.

(** The first render and commit: [useState(false)] (line 10), and the
    [<img>] created with its [src] and [alt] props (lines 15-16), which
    starts the first load. *)
Definition card_mount (p : Project) : exc Card :=
  s ← initial_src p; Ok (mkCard false (mkImg s (p.(title) ++ js " preview") true 1)).

(** Lines 18-22: the [onError] handler; assigning [target.src] starts a
    new load. *)
Definition onError (p : Project) (i : Img) : Img :=
  mkImg not_found_src (p.(title) ++ js " image not found") true (S i.(loads)).

Inductive card_event :=
| ClickLearnMore   (** the button of lines 75-83 *)
| ImgLoad          (** the pending load succeeds *)
| ImgError.        (** the pending load fails: [onError] *)

(** One event; [None] when it cannot happen. *)
Definition card_step (p : Project) (c : Card) (e : card_event) : option Card :=
  match e with
  | ClickLearnMore => Some (mkCard (negb c.(isExpanded)) c.(img))
  | ImgLoad =>
      if c.(img).(pending)
      then Some (mkCard c.(isExpanded) (mkImg c.(img).(src) c.(img).(alt) false c.(img).(loads)))
      else None
  | ImgError => if c.(img).(pending) then Some (mkCard c.(isExpanded) (onError p c.(img))) else None
  end.

Fixpoint card_trace (p : Project) (c : Card) (es : list card_event) : option Card :=
  match es with
  | [] => Some c
  | e :: es' => c' ← card_step p c e; card_trace p c' es'
  end.

(** ** Rendering *)

Section Render.
Context `{JsRuntime}.

(** [{cond && (<a ...>)}]: an absent or empty URL renders nothing. *)
Definition link_if (u : option jsstr) (title_attr : jsstr) (iconName label : String.string) : list vnode :=
  match u with
  | Some (_ :: _ as url) =>
      [VEl "a" [jsx_prop "href" url; jsx_prop "target" (js "_blank");
                jsx_prop "rel" (js "noopener noreferrer"); jsx_prop "title" title_attr]
           [VEl iconName [jsx_prop "size" (js "22")] []; VText (js " ");
            VEl "span" [jsx_prop "className" (js "ml-1 text-sm hidden sm:inline")] [txt label]]]
  | _ => []
  end.

(** [ProjectCard.tsx] lines 12-88: the element tree React renders; the
    [src] prop is the initial source whatever the DOM holds.  A title that
    is not well-formed UTF-16 makes [encodeURIComponent] throw here. *)
Definition render_card (p : Project) (expanded : bool) : exc vnode :=
  s ← initial_src p;
  Ok (el "div" [
    VEl "img" [jsx_prop "src" s; jsx_prop "alt" (p.(title) ++ js " preview")] [];
    el "div" ([
      el "h3" [VText p.(title)];
      el "p" [VText p.(category)];
      el "p" [VText p.(description)]] ++
      (if expanded then
         [el "div" [el "h4" [txt "Key Features:"];
                    el "ul" (imap (fun i f => VEl "li" [jsx_prop "key" (dec_of_Z (Z.of_nat i))] [VText f])
                                  p.(keyFeatures))]]
       else []) ++
      [el "div" [el "h4" [txt "Tech Stack:"];
                 el "div" (imap (fun i t => VEl "span" [jsx_prop "key" (dec_of_Z (Z.of_nat i))] [VText t])
                                p.(techStack))];
       el "div" [el "div" [
         el "div" (link_if p.(githubUrl) (js "View " ++ p.(title) ++ js " on GitHub") "Github" "GitHub" ++
                   link_if p.(liveUrl) (js "View live demo of " ++ p.(title)) "Briefcase" "Live Demo");
         VEl "button" [jsx_prop "aria-expanded" (if expanded then js "true" else js "false");
                       jsx_prop "aria-controls" (js "project-details-" ++ p.(proj_id))]
           [txt (if expanded then "Show Less" else "Learn More");
            VEl (if expanded then "ChevronUp" else "ChevronDown") [jsx_prop "size" (js "18")] []]]]])]).

(** [ProjectsSection.tsx] lines 9-27: one card per project, each with its
    own [isExpanded]. *)
Definition render_projects (expanded : list bool) : exc vnode :=
  cards ← exc_map (fun pe => render_card pe.1 pe.2) (zip projectsData expanded);
  Ok (VEl "section" [jsx_prop "id" (js "projects")]
        [el "div" [el "h2" [txt "Featured Work & Projects"];
                   el "p" [txt "Innovative AI solutions that solve real-world problems"];
                   el "div" cards]]).

End Render.

(** ** The image's error handler *)

(** [n + 1] failed loads in a row, from any state with a load pending:
    each is handled and leaves a new load of the second placeholder
    pending. *)
Lemma card_errors p c n :
  c.(img).(pending) = true ->
  card_trace p c (repeat ImgError (S n)) =
    Some (mkCard c.(isExpanded)
            (mkImg not_found_src (p.(title) ++ js " image not found") true (S n + c.(img).(loads)))).
Proof.
  revert c. induction n as [|n IH]; intros c Hp.
  - cbn. by rewrite Hp.
  - change (repeat ImgError (S (S n))) with (ImgError :: repeat ImgError (S n)).
    cbn [card_trace card_step]. rewrite Hp. cbn [mbind option_bind].
    rewrite IH by done. cbn. do 4 f_equal. lia.
Qed.

(** ** The placeholder's text *)

Section Ids.
Context `{JsRuntime}.

(** Elements with the attribute [a]. *)
Definition has_attr (a : String.string) (tag : String.string) (props : list (String.string * jsstr)) : bool :=
  existsb (fun kv => String.eqb kv.1 a) props.

Lemma imap_no_attr a (f : nat -> jsstr -> vnode) l :
  (forall i x, collect (has_attr a) (f i x) = []) -> flat_map (collect (has_attr a)) (imap f l) = [].
Proof.
  revert f. induction l as [|x l IH]; intros f Hf; [done|]. cbn. rewrite Hf.
  apply (IH (fun i => f (S i))). intros; apply Hf.
Qed.

Lemma link_if_no_id u t i l : flat_map (collect (has_attr "id")) (link_if u t i l) = [].
Proof. unfold link_if. by repeat case_match. Qed.

(** No element of a card has an [id]. *)
Lemma card_no_ids p b t : render_card p b = Ok t -> collect (has_attr "id") t = [].
Proof.
  unfold render_card. destruct (initial_src p); intros Ht; cbn in Ht; simplify_eq.
  cbv [el txt]. destruct b; cbn -[js dec_of_Z link_if imap];
    rewrite ?flat_map_app, ?link_if_no_id, ?imap_no_attr by done; done.
Qed.
Lemma exc_map_Forall {A B} (f : A -> exc B) (P : B -> Prop) l ys :
  (forall x y, f x = Ok y -> P y) -> exc_map f l = Ok ys -> Forall P ys.
Proof.
  intros Hf. revert ys. induction l as [|x l IH]; intros ys Hm; cbn in Hm; [by simplify_eq|].
  destruct (f x) as [y|] eqn:Ex; cbn in Hm; [|done].
  destruct (exc_map f l) as [ys'|] eqn:Er; cbn in Hm; [|done].
  injection Hm as <-. constructor; eauto.
Qed.

(** The section's only element with an [id] is the section itself:
    the [aria-controls] of every card's button names an element that does
    not exist. *)
Lemma projects_ids ex t :
  render_projects ex = Ok t -> collect (has_attr "id") t = [[jsx_prop "id" (js "projects")]].
Proof.
  unfold render_projects. destruct (exc_map _ _) as [cards|] eqn:E; intros Ht; cbn in Ht; simplify_eq.
  pose proof (exc_map_Forall _ (fun t => collect (has_attr "id") t = []) _ _
                (fun pe t Ht => card_no_ids pe.1 pe.2 t Ht) E) as Hc.
  cbv [el txt]. cbn -[js]. f_equal. rewrite !app_nil_r.
  clear E. induction Hc as [|c cs Hc _ IH]; [done|]. cbv beta in Hc. cbn [flat_map]. by rewrite Hc, IH.
Qed.
End Ids.

(** ** Properties of a card *)

(** C28: The placeholder of a project without an image carries its title
    exactly: for a title of UTF-16 code units, either the [src] is the
    placeholder's address followed by a query text that
    [decodeURIComponent] turns back into the title, or the title holds a
    lone surrogate and [encodeURIComponent] throws [URIError] during the
    render. *)
Theorem placeholder_src_roundtrip t :
  Forall unit_range t ->
  match placeholder_src t with
  | Ok s => exists q, s = placeholder_prefix ++ q /\ decodeURIComponent q = Some t
  | Throw e => e = uri_error /\ wf_utf16 t = false
  end.
Proof.
  intros Ht. unfold placeholder_src. destruct (encodeURIComponent t) as [q|e] eqn:E; cbn.
  - exists q. split; [done|]. by apply decode_encode.
  - split; [by apply (encode_throw (List.length t) t)|].
    apply not_true_is_false. rewrite <- (encode_ok_iff (List.length t)) by lia.
    intros [q Hq]. congruence.
Qed.

(** C32: The image's error handler never stops: from the mounted card,
    any number of failed loads in a row are each handled by setting [src]
    to the second placeholder, which starts another load, so when the
    placeholder host cannot be reached the card keeps requesting it; the
    card's [isExpanded] is untouched. *)
Theorem card_image_error_loop p c n :
  card_mount p = Ok c ->
  exists c', card_trace p c (repeat ImgError (S n)) = Some c' /\
    c'.(img).(src) = not_found_src /\ c'.(img).(pending) = true /\
    c'.(img).(loads) = (2 + n)%nat /\ c'.(isExpanded) = c.(isExpanded).
Proof.
  unfold card_mount. destruct (initial_src p) as [s|]; intros Hm; cbn in Hm; simplify_eq.
  eexists. rewrite card_errors by done. split_and!; [done..|cbn; lia|done].
Qed.

Section Runs.

Definition lark : Project := nth 2 projectsData (mkProject [] [] [] [] [] [] None None None).

(** The project whose image is missing: its title is [lark]'s. *)
Definition lark_no_image : Project :=
  mkProject lark.(proj_id) lark.(title) lark.(category) lark.(description)
            lark.(keyFeatures) lark.(techStack) None lark.(githubUrl) lark.(liveUrl).

Definition lark_card : Card := mkCard false (mkImg (placeholder_prefix ++ js "JobJigSaw%20-%20Lark%20Base%20Frontend") (lark.(title) ++ js " preview") true 1).

Lemma placeholder_src_roundtrip_witness :
  match placeholder_src lark.(title) with
  | Ok s => exists q, s = placeholder_prefix ++ q /\ decodeURIComponent q = Some lark.(title)
  | Throw e => e = uri_error /\ wf_utf16 lark.(title) = false
  end.
Proof. apply placeholder_src_roundtrip. apply (bool_decide_unpack _). vm_compute. reflexivity. Defined.

Lemma card_image_error_loop_witness :
  exists c', card_trace lark_no_image lark_card (repeat ImgError 3) = Some c' /\
    c'.(img).(src) = not_found_src /\ c'.(img).(pending) = true /\
    c'.(img).(loads) = 4%nat /\ c'.(isExpanded) = lark_card.(isExpanded).
Proof. apply (card_image_error_loop lark_no_image lark_card 2). vm_compute. reflexivity. Defined.

(** The keys of [ProjectsSection] are distinct. *)
Example projects_keys_distinct : NoDup (map proj_id projectsData).
Proof. apply (bool_decide_unpack _). vm_compute. reflexivity. Qed.

End Runs.
