(* ===== verification/Sections.v ===== *)
(** * Sections: the portfolio's static sections and their data

    [HeroSection.tsx], [AboutSection.tsx], [SkillsSection.tsx],
    [ExperienceSection.tsx], [ContactSection.tsx] and [Footer.tsx] render
    the records of [data/portfolioData.ts] (typed by [types/index.ts]);
    they hold no state.  Each is a function to a tree of elements
    ([View.vnode]) that keeps the element types, the text, and the
    attributes the code computes ([id]s, [key]s, [href]s, [title]s, the
    class chosen from [exp.type], the width of a skill bar); static class
    names are left out.  JSX text spread over several lines is joined with
    one space, as JSX does.  The footer's year is
    [new Date().getFullYear()], a parameter. *)

From stdpp Require Import base list decidable.
From Stdlib Require Import ZArith Lia String.
From S2P Require Import Prelude JsValue IntRuntime View.

(** ** Data *)

(** [interface ProfessionalProfile] ([types/index.ts] lines 32-40) *)
Record ProfessionalProfile := mkProfile {
  pp_name : jsstr; pp_headline : jsstr; pp_summary : jsstr; pp_email : jsstr;
  pp_linkedin : jsstr; pp_github : jsstr; pp_cvUrl : jsstr;
}.

(** [portfolioData.ts] lines 21-29 *)
Definition professionalProfile : ProfessionalProfile :=
  mkProfile (js "Jomar Talambayan")
    (js "Generative AI Engineer | Building Smarter AI for Healthcare & Beyond")
    (js "Bridging cutting-edge AI with real-world challenges, especially in healthcare. Focused on innovative EHR solutions powered by Multi-Agent Systems, automated patient note summarization, and advanced RAG chatbots.")
    (js "talambayanjomar037@gmail.com")
    (js "https://www.linkedin.com/in/jomar-talambayan-52730227a")
    (js "https://github.com/rhyliieee")
    (js "(MAY-STX)_talambayan_jomar_CV.pdf").

(** [interface ValuePropositionItem] (lines 26-30); the icon component is
    named. *)
Record ValuePropositionItem := mkValue { vp_title : jsstr; vp_description : jsstr; vp_icon : String.string }.

(** [portfolioData.ts] lines 31-47 *)
Definition valuePropositionData : list ValuePropositionItem := [
  mkValue (js "AI Expertise for Impact")
    (js "Deep expertise in Generative AI, NLP, and Multi-Agent Systems with a strong focus on creating practical healthcare applications and scalable, human-centered tools.")
    "Lightbulb";
  mkValue (js "Full-Stack Development")
    (js "Proficient in building end-to-end solutions, from Python-based AI backends (FastAPI, LangGraph) to modern frontends (React, TypeScript).")
    "Code";
  mkValue (js "Collaborative Innovator")
    (js "A curious and proactive team player dedicated to data privacy, compliance, and turning ambitious ideas into intelligent, real-world solutions.")
    "Users"].

(** [interface Skill] and [interface SkillCategory] (lines 15-24) *)
Record Skill := mkSkill { sk_name : jsstr; sk_level : Z; sk_icon : option String.string }.
Record SkillCategory := mkCategory { cat_name : jsstr; cat_skills : list Skill }.

Definition skill (n : String.string) (l : Z) (i : String.string) : Skill := mkSkill (js n) l (Some i).

(** [portfolioData.ts] lines 97-136 *)
Definition skillCategoriesData : list SkillCategory := [
  mkCategory (js "AI & Machine Learning")
    [skill "Generative AI" 95 "Brain"; skill "Multi-Agent Systems" 90 "Users";
     skill "LangChain/LangGraph" 90 "Code"; skill "Transformers & LLMs" 85 "Zap";
     skill "RAG & Vector DBs" 85 "Database"];
  mkCategory (js "Programming")
    [skill "Python" 95 "Code"; skill "JavaScript/TypeScript" 80 "Code"; skill "C#" 85 "Code";
     skill "React" 80 "Code"; skill "ASP.NET" 75 "Code"];
  mkCategory (js "Cloud & Tools")
    [skill "Modal Deployment" 85 "Cloud"; skill "Google Colab" 90 "Cloud";
     skill "Git/GitHub" 85 "Github"; skill "API Integration" 85 "ExternalLink"];
  mkCategory (js "Databases & Data")
    [skill "SQL (PostgreSQL, MySQL)" 85 "Database"; skill "NoSQL (Firebase, MongoDB)" 90 "Cloud";
     skill "VectorDB (ChromaDB, Pinecone)" 90 "Database"; skill "GraphDB (Neo4j)" 80 "Network"]].

(** [interface Experience] (lines 51-58) *)
Record Experience := mkExperience {
  exp_title : jsstr; exp_company : jsstr; exp_location : jsstr; exp_period : jsstr;
  exp_type : jsstr; exp_achievements : list jsstr;
}.

(** [portfolioData.ts] lines 138-164 *)
Definition experienceData : list Experience := [
  mkExperience (js "Artificial Intelligence Intern") (js "Direc Business Technologies Inc.")
    (js "Quezon City, Philippines") (js "February 2025 - April 2025") (js "Internship")
    [js "Developed Resume Analyzer and Reranker (RAR) tool with 85% accuracy";
     js "Implemented full-stack AI integrations and API enhancements";
     js "Delivered AI literacy sessions to R&D team";
     js "Explored QA automation with low-code platforms"];
  mkExperience (js "Social Media Manager") (js "Kombe Kontracting")
    (js "Ontario, Canada (Remote)") (js "February 2021 - April 2023") (js "Full-time")
    [js "Managed social media accounts and client database";
     js "Created engaging content and graphics";
     js "Collaborated with executive and development teams"]].

(** [interface Education] (lines 60-65) *)
Record Education := mkEducation { ed_degree : jsstr; ed_specialization : jsstr; ed_institution : jsstr; ed_period : jsstr }.

(** [portfolioData.ts] lines 166-171 *)
Definition educationData : Education :=
  mkEducation (js "Bachelor of Science in Computer Science") (js "Data Science")
              (js "Laguna University") (js "2021 - 2024").

(** [portfolioData.ts] lines 173-179 *)
Definition certificationData : list jsstr := [
  js "How Transformer LLMs Work - DeepLearning.AI (Feb 2025)";
  js "Introduction to LangGraph - LangChain Academy (Jan 2025)";
  js "Multi AI Agent Systems with crewAI - DeepLearning.AI (Nov 2024)";
  js "Generative AI with Large Language Models - DeepLearning.AI (Jul 2024)";
  js "Google Data Analytics Professional Certificate"].

(** ** Rendering *)

Section Render.
Context `{JsRuntime}.

Definition section (sid : String.string) (children : list vnode) : vnode :=
  VEl "section" [jsx_prop "id" (js sid)] children.

(** [key={index}] *)
Definition key_of (i : nat) : String.string * jsstr := jsx_prop "key" (dec_of_Z (Z.of_nat i)).

(** [HeroSection.tsx] lines 14-82: name, headline and summary, the two
    buttons, the quick stats and the chevron. *)
Definition render_hero : vnode :=
  section "hero" [
    el "div" [
      el "h1" [VText professionalProfile.(pp_name)];
      el "h2" [VText professionalProfile.(pp_headline)];
      el "p" [VText professionalProfile.(pp_summary)];
      el "div" [el "button" [txt "Explore My Work"]; el "button" [txt "Connect with Me"]]];
    el "div" [
      el "div" [el "div" [txt "15+"]; el "div" [txt "AI/ML Certifications"]];
      el "div" [el "div" [txt "3+"]; el "div" [txt "Featured Projects"]];
      el "div" [el "div" [txt "Healthcare"]; el "div" [txt "AI Specialization"]]];
    el "div" [icon "ChevronDown"]].

(** [AboutSection.tsx] lines 8-34 *)
Definition render_about : vnode :=
  section "about" [
    el "div" [
      el "h2" [txt "Why Work With Me?"];
      el "p" [txt "I bridge the gap between cutting-edge AI research and practical business solutions, with a proven track record in healthcare technology and startup innovation."];
      el "div" (imap (fun i item =>
                  VEl "div" [key_of i]
                    [VEl item.(vp_icon) [jsx_prop "aria-hidden" (js "true")] [];
                     el "h3" [VText item.(vp_title)];
                     el "p" [VText item.(vp_description)]])
                valuePropositionData)]].

(** [SkillsSection.tsx] lines 24-42: one skill, its icon when it has one,
    its bar at [width: ${skill.level}%] and the level in text. *)
Definition render_skill (i : nat) (s : Skill) : vnode :=
  VEl "div" [key_of i] [
    el "div" (option_list (icon <$> s.(sk_icon)) ++ [el "span" [VText s.(sk_name)]]);
    el "div" [
      el "div" [VEl "div" [jsx_prop "style.width" (dec_of_Z s.(sk_level) ++ js "%")] []];
      el "span" [VText (dec_of_Z s.(sk_level)); txt "%"]]].

(** [SkillsSection.tsx] lines 8-51 *)
Definition render_skills : vnode :=
  section "skills" [
    el "div" [
      el "h2" [txt "Technical Skills & Expertise"];
      el "p" [txt "Cutting-edge technologies for modern AI solutions"];
      el "div" (map (fun c => VEl "div" [jsx_prop "key" c.(cat_name)]
                                [el "h3" [VText c.(cat_name)]; el "div" (imap render_skill c.(cat_skills))])
                    skillCategoriesData)]].

(** Line 46: the badge's colours. *)
Definition badge_class (ty : jsstr) : jsstr :=
  js "px-2 py-1 rounded text-xs font-semibold font-actor " ++
  (if bool_decide (ty = js "Internship") then js "bg-primary/10 text-primary" else js "bg-tertiary/10 text-tertiary").

(** Lines 28-60: one experience. *)
Definition render_experience_item (i : nat) (e : Experience) : vnode :=
  VEl "div" [key_of i] [
    el "div" [
      el "div" [
        el "h4" [VText e.(exp_title)];
        el "p" [VText e.(exp_company)];
        el "div" [el "span" [icon "MapPin"; VText e.(exp_location)];
                  el "span" [icon "Calendar"; VText e.(exp_period)]]];
      VEl "span" [jsx_prop "className" (badge_class e.(exp_type))] [VText e.(exp_type)]];
    el "ul" (imap (fun j a => VEl "li" [key_of j] [icon "CheckCircle"; el "span" [VText a]]) e.(exp_achievements))].

(** [ExperienceSection.tsx] lines 10-105 *)
Definition render_experience : vnode :=
  section "experience" [
    el "div" [
      el "div" [el "h2" [txt "Experience & Education"];
                el "p" [txt "Building expertise through hands-on experience and continuous learning"]];
      el "div" [
        el "div" (el "h3" [txt "Professional Experience"] :: imap render_experience_item experienceData);
        el "div" [
          el "h3" [txt "Education & Certifications"];
          el "div" [el "div" [icon "GraduationCap"; el "h4" [VText educationData.(ed_degree)]];
                    el "p" [txt "Specialization: "; VText educationData.(ed_specialization)];
                    el "p" [VText educationData.(ed_institution)];
                    el "p" [VText educationData.(ed_period)]];
          el "div" [el "div" [icon "Award"; el "h4" [txt "Recent Certifications"]];
                    el "ul" (imap (fun j c => VEl "li" [key_of j] [icon "CheckCircle"; el "span" [VText c]])
                                  certificationData)]]]]].

(** [ContactSection.tsx] lines 9-55 *)
Definition render_contact : vnode :=
  let p := professionalProfile in
  section "contact" [
    el "div" [
      el "h2" [txt "Let's Build Something Amazing!"];
      el "p" [txt "Ready to transform your ideas into intelligent solutions? Let's connect and discuss your next project."];
      el "div" [
        VEl "a" [jsx_prop "href" (js "mailto:" ++ p.(pp_email)); jsx_prop "title" (js "Email " ++ p.(pp_name))]
            [icon "Mail"];
        VEl "a" [jsx_prop "href" p.(pp_linkedin); jsx_prop "target" (js "_blank");
                 jsx_prop "rel" (js "noopener noreferrer"); jsx_prop "title" (p.(pp_name) ++ js " on LinkedIn")]
            [icon "Linkedin"];
        VEl "a" [jsx_prop "href" p.(pp_github); jsx_prop "target" (js "_blank");
                 jsx_prop "rel" (js "noopener noreferrer"); jsx_prop "title" (p.(pp_name) ++ js " on GitHub")]
            [icon "Github"]];
      VEl "a" [jsx_prop "href" p.(pp_cvUrl); jsx_prop "target" (js "_blank"); jsx_prop "download" []]
          [icon "Download"; txt " Download CV"]]].

(** [Footer.tsx] lines 8-22; [year] is [new Date().getFullYear()]. *)
Definition render_footer (year : Z) : vnode :=
  el "footer" [
    el "p" [VText [169; 32]; VText (dec_of_Z year); txt " "; VText professionalProfile.(pp_name);
            txt ". All rights reserved."];
    el "p" [txt "Built with React, TypeScript, Tailwind CSS & Vite."]].

End Render.
