(* ===== verification/Shell.v ===== *)
(** * Shell: the page around the chat widget

    [App.tsx] keeps the colour theme and mirrors it on the [<html>]
    element; [Layout.tsx] mounts the sections, preloads the CV, watches the
    hero and the footer with two [IntersectionObserver]s and hands the
    footer's state to the chat as its [isVisible] prop; [NavBar.tsx] keeps
    the mobile menu's [isOpen] and scrolls to a section with [scrollToRef]
    ([utils/scrollUtils.ts]).  This file composes them with the widget of
    [Controller] into one transition system [page_step] over the whole
    page's state [Page], and renders the navigation bar; [Site] renders the page.

    The page's geometry is a pair of section variables: the [offsetTop] of
    each section once mounted and the largest scroll position
    [maxScroll].  [window.scrollTo] lands on its [top] clamped to
    [0 .. maxScroll] (CSSOM View); a smooth scroll is modelled by the
    position it ends at.  The observers' callbacks are events of the
    environment ([HeroSeen], [FooterSeen]): where the hero and the footer
    are on screen is not modelled. *)

From stdpp Require Import base list decidable gmap.
From Stdlib Require Import ZArith Lia String.
From S2P Require Import Prelude JsValue IntRuntime Message Events NoStream RateLimiter Controller View ViewControls Sections.

(** [App.tsx] line 7: ['light' | 'dark'] *)
Inductive Theme := Light | Dark.

(** The keys of [SectionRefs] ([types/index.ts]), one per section of
    [Layout.tsx] lines 25-32. *)
Inductive SectionId := Hero | About | Projects | Skills | Experience | Contact.

#[global] Instance Theme_eq_dec : EqDecision Theme.
Proof. solve_decision. Defined.
#[global] Instance SectionId_eq_dec : EqDecision SectionId.
Proof. solve_decision. Defined.

(** [professionalProfile.name] ([NavBar.tsx] line 38) *)
Definition profile_name : jsstr := professionalProfile.(pp_name).
(** [professionalProfile.cvUrl] ([Layout.tsx] line 39) *)
Definition cvUrl : jsstr := professionalProfile.(pp_cvUrl).

(** [s.split(sep)[0]]: the code units before the first [sep]. *)
Fixpoint split_first (sep : Z) (s : jsstr) : jsstr :=
  match s with
  | [] => []
  | c :: r => if c =? sep then [] else c :: split_first sep r
  end.

(** [NavBar.tsx] lines 16-23 *)
Definition navLinks : list (String.string * SectionId) :=
  ([("Home", Hero); ("Why Me?", About); ("Projects", Projects);
    ("Skills", Skills); ("Experience", Experience); ("Contact", Contact)])%string.

(** [theme === 'dark' ? 'light' : 'dark'] (lines 52 and 83) *)
Definition toggle_theme (t : Theme) : Theme :=
  match t with Dark => Light | Light => Dark end.

Definition theme_name (t : Theme) : jsstr :=
  match t with Light => js "light" | Dark => js "dark" end.

Section Shell.
Context `{JsRuntime}.
(** [Date.now()] at each reading, as in [Controller]. *)
Variable clock : nat -> Z.

(** The geometry of the mounted page. *)
Variable offsetTop : SectionId -> Z.
Variable maxScroll : Z.

(** Where [window.scrollTo({ top })] ends. *)
Definition scroll_clamp (top : Z) : Z := Z.max 0 (Z.min maxScroll top).

(** [scrollUtils.ts] lines 8-16: [current] is [ref.current]'s [offsetTop],
    [None] while the ref is [null]; the result is [window.scrollY]. *)
Definition scrollToRef (current : option Z) (offset : Z) (scrollY : Z) : Z :=
  match current with
  | Some elementPosition => scroll_clamp (elementPosition - offset)
  | None => scrollY
  end.

(** The default [offset] of [scrollToRef], the navbar's height. *)
Definition default_offset : Z := 60.

(** The state of the page: [App]'s, [Layout]'s and [NavBar]'s React
    state, the parts of the DOM they write, the window, and the widget. *)
Record Page := mkPage {
  theme : Theme;              (** [App.tsx] line 7 *)
  htmlDark : bool;            (** the [dark] class of [document.documentElement] *)
  head : list jsstr;          (** the [href]s of the links in [document.head] *)
  mounted : bool;             (** the first commit happened: refs set, effects run *)
  isHeroInView : bool;        (** [Layout.tsx] line 22 *)
  isChatUiVisible : bool;     (** [Layout.tsx] line 23 *)
  isOpen : bool;              (** [NavBar.tsx] line 15 *)
  innerWidth : Z;             (** [window.innerWidth] *)
  scrollY : Z;                (** [window.scrollY] *)
  chat : CtlState;            (** [<ChatAssistant>] *)
}.

(** The first render, before any effect: [<html>] and [<head>] as the
    document had them, the widget as [Controller.ctl_init] has it. *)
Definition page_init (html0 : bool) (head0 : list jsstr) (w : Z)
    (stored : option jsstr) (st : gmap jsstr MessageLimit) : Page :=
  mkPage Light html0 head0 false true true false w 0 (ctl_init clock stored st).

Definition set_theme (t : Theme) (p : Page) : Page :=
  mkPage t p.(htmlDark) p.(head) p.(mounted) p.(isHeroInView) p.(isChatUiVisible)
         p.(isOpen) p.(innerWidth) p.(scrollY) p.(chat).
Definition set_open (b : bool) (p : Page) : Page :=
  mkPage p.(theme) p.(htmlDark) p.(head) p.(mounted) p.(isHeroInView) p.(isChatUiVisible)
         b p.(innerWidth) p.(scrollY) p.(chat).
Definition set_scroll (y : Z) (p : Page) : Page :=
  mkPage p.(theme) p.(htmlDark) p.(head) p.(mounted) p.(isHeroInView) p.(isChatUiVisible)
         p.(isOpen) p.(innerWidth) y p.(chat).
Definition set_hero (b : bool) (p : Page) : Page :=
  mkPage p.(theme) p.(htmlDark) p.(head) p.(mounted) b p.(isChatUiVisible)
         p.(isOpen) p.(innerWidth) p.(scrollY) p.(chat).
Definition set_chat (c : CtlState) (p : Page) : Page :=
  mkPage p.(theme) p.(htmlDark) p.(head) p.(mounted) p.(isHeroInView) p.(isChatUiVisible)
         p.(isOpen) p.(innerWidth) p.(scrollY) c.

(** [App.tsx] lines 9-11, run after a commit that changed [theme]:
    [classList.toggle('dark', theme === 'dark')]. *)
Definition theme_effect (p : Page) : Page :=
  mkPage p.(theme) (bool_decide (p.(theme) = Dark)) p.(head) p.(mounted) p.(isHeroInView)
         p.(isChatUiVisible) p.(isOpen) p.(innerWidth) p.(scrollY) p.(chat).

(** [Layout.tsx] lines 34-47: the mount effect appends a
    [<link rel="preload">] for the CV to [document.head]; the observers of
    lines 49-74 start watching the hero and the footer. *)
Definition layout_mount (p : Page) : Page :=
  mkPage p.(theme) p.(htmlDark) (p.(head) ++ [cvUrl]) true p.(isHeroInView)
         p.(isChatUiVisible) p.(isOpen) p.(innerWidth) p.(scrollY) p.(chat).

(** Line 61: [setIsChatUiVisible(!entry.isIntersecting)], and the widget
    re-rendered with the new prop. *)
Definition footer_seen (b : bool) (c : CtlState) (p : Page) : Page :=
  mkPage p.(theme) p.(htmlDark) p.(head) p.(mounted) p.(isHeroInView) (negb b)
         p.(isOpen) p.(innerWidth) p.(scrollY) c.

Definition set_width (w : Z) (p : Page) : Page :=
  mkPage p.(theme) p.(htmlDark) p.(head) p.(mounted) p.(isHeroInView) p.(isChatUiVisible)
         p.(isOpen) w p.(scrollY) p.(chat).

(** A section's [ref.current] once [Layout] is committed. *)
Definition ref_current (p : Page) (s : SectionId) : option Z :=
  if p.(mounted) then Some (offsetTop s) else None.

(** [NavBar.tsx] lines 25-28 *)
Definition handleScrollToRef (s : SectionId) (p : Page) : Page :=
  let p1 := set_scroll (scrollToRef (ref_current p s) default_offset p.(scrollY)) p in
  if p.(isOpen) then set_open false p1 else p1.

(** The clickable things of the navigation bar: the brand link, the
    [i]-th link button and the theme button of the desktop row
    ([menu = false]) or of the mobile menu ([menu = true]), and the menu
    button. *)
Inductive nav_click :=
| ClickBrand
| ClickLink (menu : bool) (i : nat)
| ClickTheme (menu : bool)
| ClickMenuButton.

(** Tailwind's [md:] breakpoint, [min-width: 768px]. *)
Definition md (p : Page) : bool := 768 <=? p.(innerWidth).

(** Whether the control is on screen and can take a click: the bar is
    [invisible] while the hero is in view (line 31); the desktop row is
    [hidden md:flex] (line 40), the menu button [md:hidden] (line 58), the
    mobile menu rendered only while [isOpen] (line 69) and [md:hidden]. *)
Definition nav_shown (p : Page) (k : nav_click) : bool :=
  negb p.(isHeroInView) &&
  match k with
  | ClickBrand => true
  | ClickLink false i => md p && bool_decide (i < List.length navLinks)%nat
  | ClickTheme false => md p
  | ClickLink true i => negb (md p) && p.(isOpen) && bool_decide (i < List.length navLinks)%nat
  | ClickTheme true => negb (md p) && p.(isOpen)
  | ClickMenuButton => negb (md p)
  end.

(** The [onClick] handlers of [NavBar.tsx]: line 35, lines 44 and 75,
    lines 52 and 83 (with [App]'s effect after the commit), line 60. *)
Definition nav_handle (k : nav_click) (p : Page) : Page :=
  match k with
  | ClickBrand => handleScrollToRef Hero p
  | ClickLink _ i =>
      match navLinks !! i with Some (_, s) => handleScrollToRef s p | None => p end
  | ClickTheme _ => theme_effect (set_theme (toggle_theme p.(theme)) p)
  | ClickMenuButton => set_open (negb p.(isOpen)) p
  end.

(** The buttons of [HeroSection.tsx]: "Explore My Work" (line 35),
    "Connect with Me" (line 41) and the chevron (line 68). *)
Definition hero_button (s : SectionId) : bool :=
  match s with Projects | Contact | About => true | _ => false end.

(** The events of the page. *)
Inductive page_event :=
| PageMount                     (** the first commit and its effects *)
| WindowResize (w : Z)          (** [resize] on [window] *)
| HeroSeen (b : bool)           (** the hero observer's callback *)
| FooterSeen (b : bool)         (** the footer observer's callback *)
| NavClick (k : nav_click)
| HeroClick (s : SectionId)
| UserScroll (y : Z)            (** the user scrolls to [y] *)
| ChatEvent (e : ctl_event).    (** an event of the widget's own *)

(** The widget's events that the page drives itself. *)
Definition page_level (e : ctl_event) : bool :=
  match e with Mount _ | Resize _ | FooterIntersect _ => true | _ => false end.

(** One event of the page; [None] when it cannot happen. *)
Definition page_step (p : Page) (e : page_event) : option Page :=
  match e with
  | PageMount =>
      if p.(mounted) then None
      else c ← ctl_run clock p.(chat) (Mount p.(innerWidth));
           Some (theme_effect (set_chat c (layout_mount p)))
  | WindowResize w =>
      if p.(mounted) then c ← ctl_run clock p.(chat) (Resize w); Some (set_width w (set_chat c p))
      else None
  | HeroSeen b => if p.(mounted) then Some (set_hero b p) else None
  | FooterSeen b =>
      if p.(mounted) then c ← ctl_run clock p.(chat) (FooterIntersect b); Some (footer_seen b c p)
      else None
  | NavClick k => if p.(mounted) && nav_shown p k then Some (nav_handle k p) else None
  | HeroClick s =>
      if p.(mounted) && hero_button s
      then Some (set_scroll (scrollToRef (ref_current p s) default_offset p.(scrollY)) p)
      else None
  | UserScroll y =>
      if p.(mounted) && (0 <=? y) && (y <=? maxScroll) then Some (set_scroll y p) else None
  | ChatEvent e =>
      if p.(mounted) && negb (page_level e) then c ← ctl_run clock p.(chat) e; Some (set_chat c p)
      else None
  end.

Inductive page_reachable : Page -> Prop :=
| page_reach_init html0 head0 w stored st :
    page_reachable (page_init html0 head0 w stored st)
| page_reach_step p e p' : page_reachable p -> page_step p e = Some p' -> page_reachable p'.

(** A run of events. *)
Fixpoint page_trace (p : Page) (es : list page_event) : option Page :=
  match es with
  | [] => Some p
  | e :: es' => p' ← page_step p e; page_trace p' es'
  end.

(** ** Rendering *)

(** [NavBar.tsx] line 31 *)
Definition nav_class (isHeroInView : bool) : jsstr :=
  js "fixed w-full z-50 bg-app/80 backdrop-blur-md border-b border-soft transition-all duration-500 " ++
  (if isHeroInView then js "opacity-0 invisible" else js "opacity-100 visible").

(** Lines 55 and 86 *)
Definition theme_icon (t : Theme) : vnode :=
  match t with
  | Dark => VEl "Sun" [jsx_prop "className" (js "w-5 h-5 text-primary")] []
  | Light => VEl "Moon" [jsx_prop "className" (js "w-5 h-5 text-primary")] []
  end.

(** Lines 41-49 and 72-80: one button of [navLinks.map]. *)
Definition link_button (cls : String.string) (l : String.string * SectionId) : vnode :=
  VEl "button" [jsx_prop "key" (js l.1); jsx_prop "className" (js cls)] [txt l.1].

(** Lines 50-56 and 81-87 *)
Definition theme_button (cls : String.string) (t : Theme) : vnode :=
  VEl "button" [jsx_prop "aria-label" (js "Toggle dark mode"); jsx_prop "className" (js cls)]
      [theme_icon t].

(** [NavBar.tsx] lines 30-92: the [<nav>], its brand link (the first word
    of the profile's name), the desktop row, the menu button, and the
    mobile menu while [isOpen]. *)
Definition render_navbar (p : Page) : vnode :=
  VEl "nav" [jsx_prop "className" (nav_class p.(isHeroInView))]
    (VEl "div" [jsx_prop "className" (js "container mx-auto flex justify-between items-center py-3 px-4 md:px-8")]
       [VEl "a" [jsx_prop "href" (js "#hero");
                 jsx_prop "className" (js "text-xl text-secondary md:text-2xl font-bold font-montserrat text-main hover:text-primary transition-colors")]
            [VText (split_first 32 profile_name)];
        VEl "div" [jsx_prop "className" (js "hidden md:flex items-center space-x-2")]
            (map (link_button "px-3 py-2 rounded font-actor text-main hover:bg-primary-hover hover:text-app transition-colors") navLinks ++
             [theme_button "ml-2 p-2 rounded-full bg-surface-elevated hover:bg-secondary-hover transition-colors" p.(theme)]);
        VEl "div" [jsx_prop "className" (js "md:hidden flex items-center")]
            [VEl "button" [jsx_prop "className" (js "text-main p-2 focus:outline-none");
                           jsx_prop "aria-label" (if p.(isOpen) then js "Close menu" else js "Open menu")]
                 [if p.(isOpen) then VEl "X" [jsx_prop "size" (js "28")] []
                  else VEl "Menu" [jsx_prop "size" (js "28")] []]]]
     :: (if p.(isOpen) then
           [VEl "div" [jsx_prop "className" (js "md:hidden absolute top-full left-0 right-0 bg-app border-t border-soft shadow-lg transition-colors duration-500")]
              [VEl "div" [jsx_prop "className" (js "flex flex-col py-2")]
                 (map (link_button "w-full text-left px-6 py-4 font-actor text-main hover:bg-surface-elevated hover:text-primary transition-colors") navLinks ++
                  [theme_button "mx-6 my-2 p-2 rounded-full bg-surface-elevated hover:bg-primary transition-colors self-start" p.(theme)])]]
         else [])).

(** ** The widget inside the page *)

Lemma chat_send_visible c : (chat_send clock c).(isVisible) = c.(isVisible).
Proof.
  unfold chat_send. destruct (handleSendMessage _ _ _) as [l [m|]]; [|done].
  destruct (ns_start _ _ _). unfold after_messages. by destruct (skeleton_effect _ _).
Qed.

(** Only the footer changes the widget's [isVisible]. *)
Lemma ctl_run_visible c e c' :
  ctl_run clock c e = Some c' -> (forall b, e <> FooterIntersect b) ->
  c'.(isVisible) = c.(isVisible).
Proof.
  intros Hrun Hf. destruct e; cbn [ctl_run] in Hrun; try (exfalso; by eapply Hf);
    repeat case_match; simplify_eq/=; rewrite ?chat_send_visible; try done;
    unfold after_messages; by repeat case_match.
Qed.

Lemma ctl_run_rendered c e c' :
  isComponentRendered c.(ui) = true -> ctl_run clock c e = Some c' ->
  isComponentRendered c'.(ui) = true.
Proof.
  intros Hr Hrun. destruct (ctl_run_thread clock c e c' Hrun) as [_ [[_ ->]|[_ ->]]]; done.
Qed.

Lemma scroll_clamp_bounds t : (0 <= scroll_clamp t <= Z.max 0 maxScroll)%Z.
Proof. unfold scroll_clamp. lia. Qed.

(** ** The invariant of the page *)

(** What holds of every page state the events reach: the widget is
    mounted with [Layout], its [isVisible] prop is [Layout]'s state, the
    [<html>] class follows the theme once mounted, the preload link was
    appended exactly once at mount, the scroll position is in range, and
    the widget's state is one [Controller] reaches on its own. *)
Definition page_inv (p : Page) : Prop :=
  isComponentRendered p.(chat).(ui) = p.(mounted) /\
  p.(chat).(isVisible) = p.(isChatUiVisible) /\
  (p.(mounted) = true -> p.(htmlDark) = bool_decide (p.(theme) = Dark)) /\
  (exists head0, p.(head) = head0 ++ (if p.(mounted) then [cvUrl] else [])) /\
  (0 <= p.(scrollY) <= Z.max 0 maxScroll) /\
  ctl_reachable clock p.(chat).

(** Unfold the invariant, split it, and close what the hypotheses and
    arithmetic give. *)
Ltac inv_split :=
  unfold page_inv; cbn -[cvUrl];
  repeat match goal with H : mounted ?q = _ |- _ => progress rewrite H in * end;
  split_and!; try done; try lia.

Lemma page_init_inv html0 head0 w stored st : page_inv (page_init html0 head0 w stored st).
Proof.
  inv_split; [exists head0; by rewrite app_nil_r | constructor].
Qed.

Lemma nav_handle_inv k p :
  p.(mounted) = true -> page_inv p -> page_inv (nav_handle k p).
Proof.
  intros Hm Hinv. pose proof Hinv as (Hr & Hv & Hd & Hh & Hs & Hc).
  assert (Hscroll : forall s, page_inv (handleScrollToRef s p)).
  { intros s. unfold handleScrollToRef, ref_current, scrollToRef. rewrite Hm.
    pose proof (scroll_clamp_bounds (offsetTop s - default_offset)).
    destruct (isOpen p); inv_split. }
  destruct k as [| ? i | ? |]; cbn [nav_handle]; [apply Hscroll| |..].
  - destruct (navLinks !! i) as [[? ?]|]; [apply Hscroll|exact Hinv].
  - by inv_split.
  - by inv_split.
Qed.

Lemma page_step_inv p e p' : page_inv p -> page_step p e = Some p' -> page_inv p'.
Proof.
  intros Hinv Hstep.
  destruct e; cbn [page_step] in Hstep;
    repeat match type of Hstep with
    | context [if ?b then _ else _] => destruct b eqn:?; try discriminate
    | context [ctl_run clock ?c ?e] =>
        destruct (ctl_run clock c e) as [c'|] eqn:Hrun; try discriminate
    end; cbn in Hstep; simplify_eq; rewrite ?andb_true_iff, ?Z.leb_le in *; destruct_and?;
    pose proof Hinv as (Hr & Hv & Hd & Hh & Hs & Hc);
    try match goal with H : mounted p = _ |- _ => rewrite H in Hr, Hd, Hh end.
  - (* PageMount *)
    assert (Hc' : ctl_reachable clock c') by by econstructor.
    cbn in Hrun. rewrite Hr in Hrun. simplify_eq/=. destruct Hh as [h0 Hh0].
    rewrite app_nil_r in Hh0. inv_split. exists h0. by rewrite Hh0.
  - (* WindowResize *)
    inv_split; [| rewrite (ctl_run_visible _ _ _ Hrun); [done|by intros ?] | by econstructor].
    by apply (ctl_run_rendered (chat p) (Resize w)); [congruence|].
  - (* HeroSeen *) by inv_split.
  - (* FooterSeen *)
    assert (Hc' : ctl_reachable clock c') by by econstructor.
    cbn in Hrun. simplify_eq/=. by inv_split.
  - (* NavClick *) by apply nav_handle_inv.
  - (* HeroClick *)
    unfold ref_current, scrollToRef. match goal with H : mounted p = true |- _ => rewrite H end.
    pose proof (scroll_clamp_bounds (offsetTop s - default_offset)). by inv_split.
  - (* UserScroll *) by inv_split.
  - (* ChatEvent *)
    inv_split; [| rewrite (ctl_run_visible _ _ _ Hrun); [done|by intros ? ->] | by econstructor].
    by apply (ctl_run_rendered (chat p) e); [congruence|].
Qed.

Lemma page_reachable_inv p : page_reachable p -> page_inv p.
Proof.
  induction 1 as [| p e p' _ IH Hs]; [apply page_init_inv | by eapply page_step_inv].
Qed.


Lemma nav_handle_chat k p : (nav_handle k p).(chat) = p.(chat).
Proof. unfold nav_handle, handleScrollToRef. by repeat case_match. Qed.

(** A step of the page either leaves the widget alone or is one step of
    the widget on its own. *)
Lemma page_step_chat p e p' :
  page_step p e = Some p' ->
  p'.(chat) = p.(chat) \/ exists ce, ctl_run clock p.(chat) ce = Some p'.(chat).
Proof.
  intros Hstep.
  destruct e; cbn [page_step] in Hstep;
    repeat match type of Hstep with
    | context [if ?b then _ else _] => destruct b eqn:?; try discriminate
    | context [ctl_run clock ?c ?e] =>
        destruct (ctl_run clock c e) as [c'|] eqn:Hrun; try discriminate
    end; cbn in Hstep; simplify_eq; try (right; eexists; exact Hrun); left;
    [done | apply nav_handle_chat | done..].
Qed.

Lemma page_trace_reachable p es p' :
  page_reachable p -> page_trace p es = Some p' -> page_reachable p'.
Proof.
  revert p. induction es as [|e es IH]; intros p Hp Ht; cbn in Ht; [by simplify_eq|].
  destruct (page_step p e) as [p1|] eqn:E; [|done]. apply (IH p1); [by econstructor|done].
Qed.

(** A link click on screen: the proof of [nav_link_scrolls], shared with
    [nav_reaches_every_section]. *)
Lemma nav_link_step p menu i name s :
  p.(mounted) = true -> nav_shown p (ClickLink menu i) = true ->
  navLinks !! i = Some (name, s) ->
  page_step p (NavClick (ClickLink menu i)) =
    Some (set_open false (set_scroll (scroll_clamp (offsetTop s - default_offset)) p)).
Proof.
  intros Hm Hs Hl. cbn [page_step]. rewrite Hm, Hs. cbn [andb nav_handle]. rewrite Hl.
  unfold handleScrollToRef, ref_current, scrollToRef. rewrite Hm.
  destruct p as [t hd h m hero vis [] w y c]; cbn in *; by subst.
Qed.

(** Every section has a link, at the same index in both menus. *)
Lemma navLinks_complete s : exists i name, navLinks !! i = Some (name, s) /\ (i < 6)%nat.
Proof.
  exists (match s with Hero => 0 | About => 1 | Projects => 2 | Skills => 3
                  | Experience => 4 | Contact => 5 end)%nat.
  destruct s; eexists; split; [reflexivity|lia|reflexivity|lia|reflexivity|lia|
                                reflexivity|lia|reflexivity|lia|reflexivity|lia].
Qed.

(** ** Properties of the page *)

(** C29: In every state the page reaches, the widget is mounted exactly
    when the page is, its [isVisible] prop is [Layout]'s
    [isChatUiVisible], the [dark] class of [<html>] follows the theme once
    mounted, the CV preload link was appended to [<head>] once, at mount,
    and the scroll position lies between 0 and the page's maximum. *)
Theorem page_shell_inv p :
  page_reachable p ->
  isComponentRendered p.(chat).(ui) = p.(mounted) /\
  p.(chat).(isVisible) = p.(isChatUiVisible) /\
  (p.(mounted) = true -> p.(htmlDark) = bool_decide (p.(theme) = Dark)) /\
  (exists head0, p.(head) = head0 ++ (if p.(mounted) then [cvUrl] else [])) /\
  (0 <= p.(scrollY) <= Z.max 0 maxScroll).
Proof.
  intros Hp. destruct (page_reachable_inv p Hp) as (? & ? & ? & ? & ? & _). tauto.
Qed.

(** C30: A click on a link of the navigation bar, desktop row or mobile
    menu, when it is on screen, scrolls to 60 pixels above the top of the
    link's section (within the page's scroll range) and closes the mobile
    menu; nothing else changes. *)
Theorem nav_link_scrolls p menu i name s :
  p.(mounted) = true -> nav_shown p (ClickLink menu i) = true ->
  navLinks !! i = Some (name, s) ->
  page_step p (NavClick (ClickLink menu i)) =
    Some (set_open false (set_scroll (scroll_clamp (offsetTop s - default_offset)) p)).
Proof. exact (nav_link_step p menu i name s). Qed.

(** C31: Clicking the theme button twice, in either menu, gives back the
    page: the theme and the [dark] class of [<html>] return to what they
    were, since [App]'s effect keeps the class in step with the theme. *)
Theorem theme_toggle_twice p m p1 p2 :
  page_reachable p ->
  page_step p (NavClick (ClickTheme m)) = Some p1 ->
  page_step p1 (NavClick (ClickTheme m)) = Some p2 ->
  p1.(theme) = toggle_theme p.(theme) /\
  p1.(htmlDark) = bool_decide (p1.(theme) = Dark) /\ p2 = p.
Proof.
  intros Hp H1 H2. destruct (page_reachable_inv p Hp) as (_ & _ & Hd & _).
  cbn [page_step] in H1, H2. destruct (mounted p && nav_shown p _) eqn:E1; [|done].
  simplify_eq. apply andb_true_iff in E1 as [Em _].
  destruct p as [[] hd h mt hero vis o w y c]; cbn in *; subst;
    rewrite Hd by done; repeat case_match; simplify_eq; by split_and!.
Qed.



(** C33: Once the hero is scrolled past, every section can be reached from
    the navigation bar in at most two clicks (opening the mobile menu
    first when it is closed on a narrow window): the page ends 60 pixels
    above the section, within the scroll range, with the menu closed. *)
Theorem nav_reaches_every_section p s :
  p.(mounted) = true -> p.(isHeroInView) = false ->
  exists ks p', (List.length ks <= 2)%nat /\ page_trace p (map NavClick ks) = Some p' /\
    p'.(scrollY) = scroll_clamp (offsetTop s - default_offset) /\ p'.(isOpen) = false.
Proof.
  intros Hm Hh. destruct (navLinks_complete s) as (i & name & Hl & Hi).
  assert (Hi' : bool_decide (i < List.length navLinks)%nat = true) by (apply bool_decide_eq_true; done).
  destruct (md p) eqn:Emd; [|destruct (isOpen p) eqn:Eo].
  - exists [ClickLink false i], (set_open false (set_scroll (scroll_clamp (offsetTop s - default_offset)) p)).
    split_and!; [cbn; lia| |done|done].
    cbn [map page_trace]. rewrite (nav_link_step p false i name s); [done|done| |done].
    unfold nav_shown. by rewrite Hh, Emd, Hi'.
  - exists [ClickLink true i], (set_open false (set_scroll (scroll_clamp (offsetTop s - default_offset)) p)).
    split_and!; [cbn; lia| |done|done].
    cbn [map page_trace]. rewrite (nav_link_step p true i name s); [done|done| |done].
    unfold nav_shown. by rewrite Hh, Emd, Eo, Hi'.
  - exists [ClickMenuButton; ClickLink true i],
      (set_open false (set_scroll (scroll_clamp (offsetTop s - default_offset)) (nav_handle ClickMenuButton p))).
    split_and!; [cbn; lia| |done|done].
    assert (E1 : page_step p (NavClick ClickMenuButton) = Some (nav_handle ClickMenuButton p)).
    { cbn [page_step]. unfold nav_shown. by rewrite Hm, Hh, Emd. }
    cbn [map page_trace]. rewrite E1. cbn -[page_step nav_handle].
    rewrite (nav_link_step (nav_handle ClickMenuButton p) true i name s); [done|done| |done].
    unfold nav_shown, md. cbn. unfold md in Emd. rewrite Hh, Emd, Eo.
    apply bool_decide_eq_true_2. cbn. lia.
Qed.

End Shell.

Section Runs.

(** A page 5000 pixels long in a window 600 pixels high. *)
Definition offsets (s : SectionId) : Z :=
  match s with
  | Hero => 0 | About => 900 | Projects => 1800 | Skills => 2900
  | Experience => 3700 | Contact => 4500
  end.
Definition max_scroll : Z := 4400.

Definition page0 : Page := page_init clock0 false [] 1280 None ∅.

Definition run_page (es : list page_event) : Page :=
  default page0 (page_trace clock0 offsets max_scroll page0 es).

Lemma run_page_reachable es :
  match page_trace clock0 offsets max_scroll page0 es with Some _ => true | None => false end = true ->
  page_reachable clock0 offsets max_scroll (run_page es).
Proof.
  intros Hs. apply (page_trace_reachable clock0 offsets max_scroll page0 es); [constructor|].
  by apply some_default.
Qed.

(** Mounted on a desktop, the hero seen and then scrolled past. *)
Definition scrolled : Page := run_page [PageMount; HeroSeen true; FooterSeen false; HeroSeen false].

Definition step_or_stay (p : Page) (e : page_event) : Page :=
  default p (page_step clock0 offsets max_scroll p e).

Lemma page_shell_inv_witness :
  isComponentRendered scrolled.(chat).(ui) = scrolled.(mounted) /\
  scrolled.(chat).(isVisible) = scrolled.(isChatUiVisible) /\
  (scrolled.(mounted) = true -> scrolled.(htmlDark) = bool_decide (scrolled.(theme) = Dark)) /\
  (exists head0, scrolled.(head) = head0 ++ (if scrolled.(mounted) then [cvUrl] else [])) /\
  (0 <= scrolled.(scrollY) <= Z.max 0 max_scroll).
Proof.
  apply (page_shell_inv clock0 offsets max_scroll scrolled).
  apply run_page_reachable. vm_compute. reflexivity.
Defined.

Lemma nav_link_scrolls_witness :
  page_step clock0 offsets max_scroll scrolled (NavClick (ClickLink false 2)) =
    Some (set_open false (set_scroll (scroll_clamp max_scroll (offsets Projects - default_offset)) scrolled)).
Proof.
  apply (nav_link_scrolls clock0 offsets max_scroll scrolled false 2 "Projects" Projects);
    [vm_compute; reflexivity | vm_compute; reflexivity | reflexivity].
Defined.

Lemma theme_toggle_twice_witness :
  let p1 := step_or_stay scrolled (NavClick (ClickTheme false)) in
  let p2 := step_or_stay p1 (NavClick (ClickTheme false)) in
  p1.(theme) = toggle_theme scrolled.(theme) /\
  p1.(htmlDark) = bool_decide (p1.(theme) = Dark) /\ p2 = scrolled.
Proof.
  apply (theme_toggle_twice clock0 offsets max_scroll scrolled false).
  - apply run_page_reachable. vm_compute. reflexivity.
  - apply some_default. vm_compute. reflexivity.
  - apply some_default. vm_compute. reflexivity.
Defined.

Lemma nav_reaches_every_section_witness :
  exists ks p', (List.length ks <= 2)%nat /\
    page_trace clock0 offsets max_scroll scrolled (map NavClick ks) = Some p' /\
    p'.(scrollY) = scroll_clamp max_scroll (offsets Contact - default_offset) /\ p'.(isOpen) = false.
Proof.
  apply (nav_reaches_every_section clock0 offsets max_scroll scrolled Contact);
    vm_compute; reflexivity.
Defined.

End Runs.
