(* ===== verification/Site.v ===== *)
(** * Site: the whole page with its project cards, and its render

    [Layout.tsx] renders the navigation bar, the six sections in order
    ([HeroSection] ... [ContactSection]), the chat widget and the footer,
    inside [App.tsx]'s themed [<div>].  The page's state is [Shell.Page]
    and the state of each [ProjectCard] ([Projects.Card]); a [Site] holds
    both.  Page events are [Shell.page_step]; an event of the [i]-th card
    is [Projects.card_step] on it, once the page is mounted.  The render
    [render_site] is [App]'s [<div>] around [render_layout].

    In every state the site reaches, there is one card per project, and
    the DOM image of each shows its first source with the preview text,
    or the second placeholder after at least one failed load
    ([site_cards_inv]). *)

From stdpp Require Import base list decidable gmap.
From Stdlib Require Import ZArith Lia String.
From S2P Require Import Prelude JsValue IntRuntime Message Events NoStream RateLimiter Controller View ViewControls Projects Sections Shell.

Section Site.
Context `{JsRuntime}.

Record Site := mkSite { page : Page; cards : list Card }.

Inductive site_event :=
| PageEv (e : page_event)
| CardEv (i : nat) (e : card_event).

Variable clock : nat -> Z.
Variable offsetTop : SectionId -> Z.
Variable maxScroll : Z.

(** The first render: the page's, and one card per project
    ([ProjectsSection.tsx] line 20); a card whose placeholder throws
    makes the render throw. *)
Definition site_init (html0 : bool) (head0 : list jsstr) (w : Z)
    (stored : option jsstr) (st : gmap jsstr MessageLimit) : exc Site :=
  cs ← exc_map card_mount projectsData;
  Ok (mkSite (page_init clock html0 head0 w stored st) cs).

Definition site_step (s : Site) (e : site_event) : option Site :=
  match e with
  | PageEv e => p' ← page_step clock offsetTop maxScroll s.(page) e; Some (mkSite p' s.(cards))
  | CardEv i e =>
      if s.(page).(mounted) then
        p ← projectsData !! i; c ← s.(cards) !! i; c' ← card_step p c e;
        Some (mkSite s.(page) (<[i := c']> s.(cards)))
      else None
  end.

Inductive site_reachable : Site -> Prop :=
| site_reach_init html0 head0 w stored st s :
    site_init html0 head0 w stored st = Ok s -> site_reachable s
| site_reach_step s e s' : site_reachable s -> site_step s e = Some s' -> site_reachable s'.

(** [Layout.tsx] line 78 *)
Definition layout_class (t : Theme) : jsstr :=
  js "antialiased bg-app text-main font-roboto transition-colors duration-500 " ++ theme_name t.

(** Lines 80-87: the six sections, in order. *)
Definition site_sections (s : Site) : exc (list vnode) :=
  projects ← render_projects (map isExpanded s.(cards));
  Ok [render_hero; render_about; projects; render_skills; render_experience; render_contact].

(** [Layout.tsx] lines 77-91; [year] is what the footer reads from
    [Date]. *)
Definition render_layout (year : Z) (s : Site) : exc vnode :=
  secs ← site_sections s;
  w ← View.render s.(page).(chat);
  Ok (VEl "div" [jsx_prop "className" (layout_class s.(page).(theme))]
        [render_navbar s.(page);
         el "main" (secs ++ option_list w);
         render_footer year]).

(** [App.tsx] lines 13-17: [Layout] inside the themed [<div>]. *)
Definition render_site (year : Z) (s : Site) : exc vnode :=
  l ← render_layout year s;
  Ok (VEl "div" [jsx_prop "className" (if bool_decide (s.(page).(theme) = Dark) then js "dark" else [])] [l]).

(** ** Lemmas *)

(** The page inside the site is a page of [Shell]: its invariants hold. *)
Lemma site_reachable_page s : site_reachable s -> page_reachable clock offsetTop maxScroll s.(page).
Proof.
  induction 1 as [html0 head0 w stored st s Hi| s e s' _ IH Hs].
  - unfold site_init in Hi. destruct (exc_map _ _); cbn in Hi; simplify_eq. constructor.
  - destruct e as [e|i e]; cbn in Hs.
    + destruct (page_step _ _ _ _ _) eqn:E; cbn in Hs; simplify_eq. by econstructor.
    + destruct (mounted _); [|done].
      destruct (projectsData !! i), (cards s !! i); cbn in Hs; try done.
      destruct (card_step _ _ _); cbn in Hs; simplify_eq. done.
Qed.

Fixpoint site_trace (s : Site) (es : list site_event) : option Site :=
  match es with
  | [] => Some s
  | e :: es' => s' ← site_step s e; site_trace s' es'
  end.

Lemma site_trace_reachable s es s' :
  site_reachable s -> site_trace s es = Some s' -> site_reachable s'.
Proof.
  revert s. induction es as [|e es IH]; intros s Hs Ht; cbn in Ht; [by simplify_eq|].
  destruct (site_step s e) as [s1|] eqn:E; cbn in Ht; [|done]. eapply IH; [|exact Ht]. by econstructor.
Qed.

(** The value of attribute [a]. *)
Definition lookup_attr (a : String.string) (props : list (String.string * jsstr)) : option jsstr :=
  snd <$> List.find (fun kv => String.eqb kv.1 a) props.

(** The DOM image of a card shows its first source with the preview
    text, or the second placeholder after at least one failure. *)
Definition card_inv (p : Project) (c : Card) : Prop :=
  (1 <= c.(img).(loads))%nat /\
  ((initial_src p = Ok c.(img).(src) /\ c.(img).(alt) = p.(title) ++ js " preview") \/
   (c.(img).(src) = not_found_src /\ c.(img).(alt) = p.(title) ++ js " image not found" /\
    (2 <= c.(img).(loads))%nat)).

Lemma exc_map_Forall2 {A B} (f : A -> exc B) (P : A -> B -> Prop) l ys :
  (forall x y, f x = Ok y -> P x y) -> exc_map f l = Ok ys -> Forall2 P l ys.
Proof.
  intros Hf. revert ys. induction l as [|x l IH]; intros ys Hm; cbn in Hm; [by simplify_eq|].
  destruct (f x) as [y|] eqn:Ex; cbn in Hm; [|done].
  destruct (exc_map f l) as [ys'|] eqn:Er; cbn in Hm; [|done].
  injection Hm as <-. constructor; eauto.
Qed.

Lemma card_mount_inv p c : card_mount p = Ok c -> card_inv p c.
Proof.
  unfold card_mount. destruct (initial_src p) eqn:E; cbn; intros Hc; simplify_eq.
  split; [cbn; lia|]. by left.
Qed.

Lemma card_step_inv p c e c' : card_inv p c -> card_step p c e = Some c' -> card_inv p c'.
Proof.
  intros [Hl Hc] Hs. destruct e; cbn in Hs; repeat case_match; simplify_eq; [done|done|].
  split; cbn; [lia|]. right. destruct Hc as [[_ _]|(_ & _ & ?)]; repeat split; lia.
Qed.

(** C35: In every state the site reaches there is one card per project,
    in the order of [projectsData], and the DOM image of each has started
    at least one load and shows either the project's first source
    ([imageUrl] or the title's placeholder) with the alt text
    [<title> preview], or, after at least one failed load, the "Image Not
    Found" placeholder with the alt text [<title> image not found]. *)
Theorem site_cards_inv s : site_reachable s -> Forall2 card_inv projectsData s.(cards).
Proof.
  induction 1 as [html0 head0 w stored st s Hi| s e s' _ IH Hs].
  - unfold site_init in Hi. destruct (exc_map _ _) as [cs|] eqn:E; cbn in Hi; simplify_eq.
    exact (exc_map_Forall2 _ _ _ _ card_mount_inv E).
  - destruct e as [e|i e]; cbn in Hs.
    + destruct (page_step _ _ _ _ _); cbn in Hs; simplify_eq. done.
    + destruct (mounted _); [|done].
      destruct (projectsData !! i) as [p|] eqn:Ep, (cards s !! i) as [c|] eqn:Ec; cbn in Hs; try done.
      destruct (card_step p c e) as [c'|] eqn:Es; cbn in Hs; simplify_eq; cbn.
      rewrite <-(list_insert_id projectsData i p Ep). apply Forall2_insert; [done|].
      eapply card_step_inv; [|exact Es]. by eapply Forall2_lookup_lr.
Qed.

End Site.

Section Runs.

Lemma ok_default {A} (m : exc A) (d : A) :
  match m with Ok _ => true | Throw _ => false end = true ->
  m = Ok (match m with Ok a => a | Throw _ => d end).
Proof. by destruct m. Qed.

(** The site as [App] first renders it, with [Shell]'s desktop page. *)
Definition site0 : Site :=
  match site_init clock0 false [] 1280 None ∅ with Ok s => s | Throw _ => mkSite page0 [] end.

Lemma site0_reachable : site_reachable clock0 offsets max_scroll site0.
Proof.
  apply (site_reach_init clock0 offsets max_scroll false [] 1280 None ∅).
  apply (ok_default _ (mkSite page0 [])). vm_compute. reflexivity.
Qed.

(** Mounted, then the image of the third card fails to load. *)
Definition failed_site : Site :=
  default site0 (site_trace clock0 offsets max_scroll site0 [PageEv PageMount; CardEv 2 ImgError]).

Lemma site_cards_inv_witness : Forall2 card_inv projectsData failed_site.(cards).
Proof.
  apply (site_cards_inv clock0 offsets max_scroll).
  apply (site_trace_reachable clock0 offsets max_scroll site0 [PageEv PageMount; CardEv 2 ImgError]);
    [exact site0_reachable|].
  apply some_default. vm_compute. reflexivity.
Defined.

End Runs.
