(* ===== verification/Tailwind.v ===== *)
(** * Tailwind: the colors of [tailwind.config.js] and the theme

    [tailwind.config.js] (lines 21-83) extends Tailwind's palette with a
    light and a dark palette and with semantic colors whose values are CSS
    variables ([var(--color-bg)], ...); its plugin (lines 120-155) sets
    these variables on [:root] from the light palette and on [.dark] from
    the dark one ([darkMode: ["class"]], line 4).  A utility such as
    [bg-surface-elevated] names a key of the palette as Tailwind flattens
    it ([flattenColorPalette]: nested keys joined with [-], [DEFAULT]
    dropped); under an element of class [dark] the variable is the dark
    one.

    [App] toggles [dark] on [<html>] and gives its [<div>] the class
    [dark]; [Layout]'s [<div>] carries the theme's name.  The colors the
    page's content shows are those of the palette of [App]'s theme
    ([site_palette_follows_theme]).  Four color names the components use
    ([app], [main], [muted], [tertiary]) are not in the configuration, and
    [text-secondary] names the accent [secondary], not the palette's
    [text-secondary] ([undefined_color_keys], [text_secondary_is_accent]). *)

From stdpp Require Import base list decidable gmap strings.
From Stdlib Require Import ZArith Lia String.
From S2P Require Import Prelude JsValue IntRuntime Events View Projects Shell Site.

Local Open Scope string_scope.
Local Set Warnings "-register-all".

(** A value of the configuration's [colors]: a string or a nested object. *)
Inductive palette :=
| Leaf (v : string)
| Group (entries : list (string * palette)).

(** Lines 21-83 *)
Definition colors : list (string * palette) := [
  ("brand-deep-plum", Leaf "#211A1D");
  ("brand-electric-purple", Leaf "#6320EE");
  ("brand-soft-purple", Leaf "#8075FF");
  ("brand-lavender-mist", Leaf "#F8F0FB");
  ("light", Group [
     ("background", Leaf "#F8F0FB"); ("background-alt", Leaf "#F3E8F7");
     ("surface", Leaf "#FFFFFF"); ("surface-elevated", Leaf "#FEFCFF");
     ("primary", Leaf "#6320EE"); ("primary-hover", Leaf "#8075FF");
     ("secondary", Leaf "#8075FF"); ("secondary-hover", Leaf "#6320EE");
     ("tertiary", Leaf "#B8A9FF"); ("text", Leaf "#2A1F2E");
     ("text-secondary", Leaf "#4A3B52"); ("text-muted", Leaf "#6B5B73");
     ("border", Leaf "#E8D9F0"); ("border-soft", Leaf "#F0E6F5")]);
  ("dark", Group [
     ("background", Leaf "#211A1D"); ("background-alt", Leaf "#2D1F24");
     ("surface", Leaf "#342831"); ("surface-elevated", Leaf "#3F313A");
     ("primary", Leaf "#8075FF"); ("primary-hover", Leaf "#6320EE");
     ("secondary", Leaf "#6320EE"); ("secondary-hover", Leaf "#8075FF");
     ("tertiary", Leaf "#A691FF"); ("text", Leaf "#F8F0FB");
     ("text-secondary", Leaf "#D4C4E0"); ("text-muted", Leaf "#B8A4C8");
     ("border", Leaf "#4A3B52"); ("border-soft", Leaf "#3D2F42")]);
  ("background", Group [("DEFAULT", Leaf "var(--color-bg)"); ("alt", Leaf "var(--color-bg-alt)")]);
  ("surface", Group [("DEFAULT", Leaf "var(--color-surface)"); ("elevated", Leaf "var(--color-surface-elevated)")]);
  ("primary", Group [("DEFAULT", Leaf "var(--color-primary)"); ("hover", Leaf "var(--color-primary-hover)")]);
  ("secondary", Group [("DEFAULT", Leaf "var(--color-secondary)"); ("hover", Leaf "var(--color-secondary-hover)")]);
  ("text", Group [("DEFAULT", Leaf "var(--color-text)"); ("secondary", Leaf "var(--color-text-secondary)");
                  ("muted", Leaf "var(--color-text-muted)")]);
  ("border", Group [("DEFAULT", Leaf "var(--color-border)"); ("soft", Leaf "var(--color-border-soft)")])
].

(** A property read on an object literal without duplicate keys. *)
Definition prop_of {A} (k : string) (es : list (string * A)) : option A :=
  snd <$> List.find (fun kv => String.eqb kv.1 k) es.

(** [theme('colors.a.b')]: [undefined] when the path is absent. *)
Fixpoint lookup_path (path : list string) (p : palette) : option string :=
  match path, p with
  | [], Leaf v => Some v
  | k :: ks, Group es => q ← prop_of k es; lookup_path ks q
  | _, _ => None
  end.

Definition theme_color (path : list string) : option string := lookup_path path (Group colors).

(** Lines 122-138: the variables of [:root], from the light palette. *)
Definition root_vars : list (string * option string) := [
  ("--color-bg", theme_color ["light"; "background"]);
  ("--color-bg-alt", theme_color ["light"; "background-alt"]);
  ("--color-surface", theme_color ["light"; "surface"]);
  ("--color-surface-elevated", theme_color ["light"; "surface-elevated"]);
  ("--color-primary", theme_color ["light"; "primary"]);
  ("--color-primary-hover", theme_color ["light"; "primary-hover"]);
  ("--color-secondary", theme_color ["light"; "secondary"]);
  ("--color-secondary-hover", theme_color ["light"; "secondary-hover"]);
  ("--color-tertiary", theme_color ["light"; "tertiary"]);
  ("--color-text", theme_color ["light"; "text"]);
  ("--color-text-secondary", theme_color ["light"; "text-secondary"]);
  ("--color-text-muted", theme_color ["light"; "text-muted"]);
  ("--color-border", theme_color ["light"; "border"]);
  ("--color-border-soft", theme_color ["light"; "border-soft"]);
  ("--radius", Some "0.5rem")].

(** Lines 139-154: the variables of [.dark], from the dark palette. *)
Definition dark_vars : list (string * option string) := [
  ("--color-bg", theme_color ["dark"; "background"]);
  ("--color-bg-alt", theme_color ["dark"; "background-alt"]);
  ("--color-surface", theme_color ["dark"; "surface"]);
  ("--color-surface-elevated", theme_color ["dark"; "surface-elevated"]);
  ("--color-primary", theme_color ["dark"; "primary"]);
  ("--color-primary-hover", theme_color ["dark"; "primary-hover"]);
  ("--color-secondary", theme_color ["dark"; "secondary"]);
  ("--color-secondary-hover", theme_color ["dark"; "secondary-hover"]);
  ("--color-tertiary", theme_color ["dark"; "tertiary"]);
  ("--color-text", theme_color ["dark"; "text"]);
  ("--color-text-secondary", theme_color ["dark"; "text-secondary"]);
  ("--color-text-muted", theme_color ["dark"; "text-muted"]);
  ("--color-border", theme_color ["dark"; "border"]);
  ("--color-border-soft", theme_color ["dark"; "border-soft"])].

(** ** Tailwind's color utilities *)

(** [flattenColorPalette] of [tailwindcss/lib/util]: a nested object's
    keys are joined to its own with [-], and a [DEFAULT] key gives the
    object's own name. *)
Fixpoint flatten_entry (k : string) (p : palette) : list (string * string) :=
  match p with
  | Leaf v => [(k, v)]
  | Group es =>
      (fix go (es : list (string * palette)) : list (string * string) :=
         match es with
         | [] => []
         | (n, q) :: r =>
             List.app (map (fun mv => (if String.eqb mv.1 "DEFAULT" then k else k ++ "-" ++ mv.1, mv.2))
                           (flatten_entry n q)) (go r)
         end) es
  end.

Definition flattenColorPalette (es : list (string * palette)) : list (string * string) :=
  flat_map (fun kp => flatten_entry kp.1 kp.2) es.

(** [Object.assign]: a later key wins. *)
Definition palette_color (key : string) : option string :=
  prop_of key (rev (flattenColorPalette colors)).

(** [var(--name)] *)
Definition var_ref (v : string) : option string :=
  if String.prefix "var(" v && String.eqb (String.substring (String.length v - 1) 1 v) ")"
  then Some (String.substring 4 (String.length v - 5) v) else None.

Definition is_var (v : string) : bool := match var_ref v with Some _ => true | None => false end.

Definition var_in (vars : list (string * option string)) (name : string) : option string :=
  match prop_of name vars with Some x => x | None => None end.

(** A custom property's value inside an element: the [.dark] rule, which
    comes after [:root], where an ancestor (or [<html>]) has the class
    [dark]; otherwise the inherited [:root] value. *)
Definition css_var (dark : bool) (name : string) : option string :=
  if dark then match prop_of name dark_vars with Some x => x | None => var_in root_vars name end
  else var_in root_vars name.

(** The color a utility naming [key] gives ([bg-key], [text-key], ...),
    [None] when the palette has no such key. *)
Definition color_value (dark : bool) (key : string) : option string :=
  v ← palette_color key;
  match var_ref v with Some n => css_var dark n | None => Some v end.

(** ** Classes and the dark scope *)

Definition is_ascii_ws (c : Z) : bool :=
  Z.eqb c 9 || Z.eqb c 10 || Z.eqb c 12 || Z.eqb c 13 || Z.eqb c 32.

(** The pieces between ASCII whitespace. *)
Fixpoint split_ws (s : jsstr) : list jsstr :=
  match s with
  | [] => [[]]
  | c :: r =>
      let parts := split_ws r in
      if is_ascii_ws c then [] :: parts
      else match parts with p :: ps => (c :: p) :: ps | [] => [[c]] end
  end.

(** [element.classList] *)
Definition class_list (s : jsstr) : list jsstr := filter (fun w => w <> []) (split_ws s).

Definition has_class (c : jsstr) (props : list (string * jsstr)) : bool :=
  match lookup_attr "className" props with
  | Some cls => bool_decide (c ∈ class_list cls)
  | None => false
  end.

Section Scope.
Context `{JsRuntime}.

(** Whether the children of [Layout]'s [<div>] are in a [dark] scope:
    [<html>], [App]'s [<div>] or [Layout]'s. *)
Definition layout_scope (html_dark : bool) (t : vnode) : bool :=
  match t with
  | VEl _ p1 [VEl _ p2 _] => html_dark || has_class (js "dark") p1 || has_class (js "dark") p2
  | _ => html_dark
  end.

End Scope.

Definition theme_key (t : Theme) : string := match t with Light => "light" | Dark => "dark" end.

(** ** Properties *)

(** Every semantic color of the palette, in the scope of a theme, is the
    color of that theme's palette under the same key. *)
Definition entry_follows (dark : bool) (t : Theme) (kv : string * string) : bool :=
  negb (is_var kv.2) ||
  (bool_decide (color_value dark kv.1 = theme_color [theme_key t; kv.1]) &&
   bool_decide (is_Some (theme_color [theme_key t; kv.1]))).

Definition palette_follows (dark : bool) (t : Theme) : bool :=
  forallb (entry_follows dark t) (flattenColorPalette colors).

Lemma palette_follows_ok t : palette_follows (bool_decide (t = Dark)) t = true.
Proof. destruct t; vm_compute; reflexivity. Qed.

Section Site.
Context `{JsRuntime}.
Variable clock : nat -> Z.
Variable offsetTop : SectionId -> Z.
Variable maxScroll : Z.

(** [App]'s and [Layout]'s [<div>]s carry [dark] exactly in the dark
    theme. *)
Lemma layout_scope_site b t0 ch :
  layout_scope b (VEl "div" [jsx_prop "className" (if bool_decide (t0 = Dark) then js "dark" else [])]
                    [VEl "div" [jsx_prop "className" (layout_class t0)] ch]) =
    b || bool_decide (t0 = Dark).
Proof. destruct t0, b; reflexivity. Qed.

(** C23: Once the page is mounted, the content of the site (the
    navigation bar, the sections, the widget and the footer) shows the
    palette of [App]'s theme: every semantic color of
    [tailwind.config.js] ([bg-background], [text-primary],
    [border-border-soft], ...) resolves, through its CSS variable and the
    [dark] classes of [<html>], [App] and [Layout], to the color of the
    same key in the [light] or [dark] palette, which is defined. *)
Theorem site_palette_follows_theme year s t k v :
  site_reachable clock offsetTop maxScroll s -> s.(page).(mounted) = true ->
  render_site year s = Ok t -> In (k, v) (flattenColorPalette colors) -> is_var v = true ->
  color_value (layout_scope s.(page).(htmlDark) t) k = theme_color [theme_key s.(page).(theme); k] /\
  is_Some (theme_color [theme_key s.(page).(theme); k]).
Proof.
  intros Hr Hm Ht Hin Hv.
  destruct (page_reachable_inv clock offsetTop maxScroll _ (site_reachable_page clock offsetTop maxScroll s Hr))
    as (_ & _ & Hd & _). rewrite (Hd Hm).
  unfold render_site in Ht. destruct (render_layout year s) as [l|] eqn:El; cbn in Ht; [|done].
  injection Ht as <-. unfold render_layout in El.
  destruct (site_sections s), (View.render _); cbn in El; try done. injection El as <-.
  rewrite layout_scope_site, orb_diag.
  pose proof (palette_follows_ok (theme (page s))) as Hp. unfold palette_follows in Hp.
  eapply forallb_forall in Hp; [|exact Hin]. unfold entry_follows in Hp. cbn [fst snd] in Hp.
  rewrite Hv in Hp. cbn [negb orb] in Hp.
  apply andb_prop in Hp as [H1 H2]. by apply bool_decide_eq_true in H1, H2.
Qed.

End Site.

(** ** What the configuration leaves out *)

(** The components use [bg-app], [text-main], [text-muted],
    [text-tertiary] and [bg-tertiary/10]: the configuration defines no
    such color. *)
Example undefined_color_keys : Forall (fun k => palette_color k = None) ["app"; "main"; "muted"; "tertiary"].
Proof. repeat constructor. Qed.

(** [text-secondary], which the components use for secondary text, is
    the accent [secondary] (a purple), not the palette's [text-secondary]
    (written [text-text-secondary]), in both themes. *)
Example text_secondary_is_accent :
  forall d, color_value d "secondary" = theme_color [if d then "dark" else "light"; "secondary"] /\
            color_value d "secondary" <> color_value d "text-secondary".
Proof. intros []; split; vm_compute; congruence. Qed.

Section Runs.

(** The first visit on a desktop: mounted, the hero scrolled past, and the
    theme button clicked. *)
Definition dark_events : list site_event :=
  [PageEv PageMount; PageEv (HeroSeen true); PageEv (FooterSeen false); PageEv (HeroSeen false);
   PageEv (NavClick (ClickTheme false))].
Definition dark_site : Site := default site0 (site_trace clock0 offsets max_scroll site0 dark_events).
Definition dark_view : vnode := match render_site 2026 dark_site with Ok t => t | Throw _ => VText [] end.

Lemma site_palette_follows_theme_witness :
  color_value (layout_scope dark_site.(page).(htmlDark) dark_view) "background" =
    theme_color [theme_key dark_site.(page).(theme); "background"] /\
  is_Some (theme_color [theme_key dark_site.(page).(theme); "background"]).
Proof.
  apply (site_palette_follows_theme clock0 offsets max_scroll 2026 dark_site dark_view
           "background" "var(--color-bg)").
  - apply (site_trace_reachable clock0 offsets max_scroll site0 dark_events).
    + exact site0_reachable.
    + apply some_default. vm_compute. reflexivity.
  - vm_compute. reflexivity.
  - apply (ok_default _ (VText [])). vm_compute. reflexivity.
  - vm_compute. repeat (first [left; reflexivity | right]).
  - reflexivity.
Defined.

End Runs.
